(** * Routing and pattern-retrieval engine: a shallow embedding

    The development follows the Python sources
    - [router/core/weakness_matcher.py]   (module [WeaknessMatcher]),
    - [router/core/decision_engine.py]    (module [DecisionEngine]),
    - [optimizer/core/pattern_storage.py] (module [PatternStorage]),
    - [optimizer/rag/vector_store.py]     (module [VectorStore]),
    with the FAISS flat L2 index they call modelled in module [faiss].

    Conventions.
    - A Python [str] is a list of Unicode code points ([pystr]); [len],
      slicing and [in] work on code points, as in Python 3.
    - A float the code computes (a match score, a relevance score, a
      similarity) is an IEEE 754 binary float of the Standard Library's
      [SpecFloat], every operation rounding to nearest even as the
      hardware does.  A float the code only stores, compares or returns
      verbatim (a frequency, a threshold, a confidence, a time, a
      distance handed over by FAISS) is the rational written for it
      ([Q]); where such a value meets a computed float it is the float
      nearest to that rational.  The average of [get_stats] is kept as
      the rational it rounds.
    - NumPy adds a Python float and a [float32] in [float64] before
      NumPy 2 and in [float32] from NumPy 2 on; the sources fix no
      version, so the operations that depend on it take the version
      ([numpy]) as an argument.
    - A Python exception is a value of [exn]; fallible code returns
      [result].  Logging calls have no effect on any state modelled here
      and are left out, except where the argument of a log line can
      raise.
    - A dict read with [d.get(k, default)] has an optional field for [k];
      a dict read with [d[k]] raises [KeyError k] when the field is absent. *)

From Stdlib Require Import ZArith QArith String Ascii Lia.
From Stdlib Require Import Sorting.Sorted.
From Stdlib Require Import Floats.SpecFloat.
From stdpp Require Import base option list gmap.

Local Open Scope Z_scope.

(** ** Python strings *)

Definition pychar := N.
Definition pystr := list pychar.

(** Decoder from the UTF-8 bytes of a source literal to code points. *)
Fixpoint utf8_decode (bs : list N) : pystr :=
  match bs with
  | [] => []
  | b0 :: r0 =>
    if (b0 <? 128)%N then b0 :: utf8_decode r0
    else if (b0 <? 224)%N then
      match r0 with
      | b1 :: r1 => ((b0 mod 32) * 64 + b1 mod 64)%N :: utf8_decode r1
      | [] => [b0]
      end
    else if (b0 <? 240)%N then
      match r0 with
      | b1 :: b2 :: r2 =>
        ((b0 mod 16) * 4096 + (b1 mod 64) * 64 + b2 mod 64)%N :: utf8_decode r2
      | _ => [b0]
      end
    else
      match r0 with
      | b1 :: b2 :: b3 :: r3 =>
        ((b0 mod 8) * 262144 + (b1 mod 64) * 4096 + (b2 mod 64) * 64
         + b3 mod 64)%N :: utf8_decode r3
      | _ => [b0]
      end
  end.

Definition u (s : string) : pystr :=
  utf8_decode (map N_of_ascii (list_ascii_of_string s)).

(** [p] is a prefix of [s]. *)
Fixpoint starts_with (p s : pystr) : bool :=
  match p, s with
  | [], _ => true
  | _ :: _, [] => false
  | c :: p', d :: s' => (c =? d)%N && starts_with p' s'
  end.

(** Python's [needle in hay] on strings. *)
Fixpoint str_in (needle hay : pystr) : bool :=
  starts_with needle hay ||
  match hay with
  | [] => false
  | _ :: hay' => str_in needle hay'
  end.

(** Python's [sep.join(parts)]. *)
Fixpoint join (sep : pystr) (parts : list pystr) : pystr :=
  match parts with
  | [] => []
  | [p] => p
  | p :: rest => p ++ sep ++ join sep rest
  end.

(** Python's [x in xs] for a list of strings. *)
Definition str_in_list (x : pystr) (xs : list pystr) : bool :=
  bool_decide (x ∈ xs).

(** Python's [l[:stop]]: a negative [stop] counts from the end. *)
Definition slice_to {A} (l : list A) (stop : Z) : list A :=
  if 0 <=? stop then take (Z.to_nat stop) l
  else take (Z.to_nat (Z.of_nat (length l) + stop)) l.

(** Python's [l[i]]: a negative [i] counts from the end; out of range
    raises [IndexError] (here [None]). *)
Definition py_index {A} (l : list A) (i : Z) : option A :=
  if 0 <=? i then l !! Z.to_nat i
  else if 0 <=? Z.of_nat (length l) + i
       then l !! Z.to_nat (Z.of_nat (length l) + i)
       else None.

(** The newline character, written [\n] in the sources. *)
Definition nl : pystr := [10%N].

(** Python's [text.split(sep)] for a one-character separator: the
    pieces between the separators, one more than there are separators. *)
Fixpoint split_on (sep : pychar) (text : pystr) : list pystr :=
  match text with
  | [] => [[]]
  | c :: text' =>
    if (c =? sep)%N then [] :: split_on sep text'
    else match split_on sep text' with
         | piece :: pieces => (c :: piece) :: pieces
         | [] => [[c]]
         end
  end.

(** The counting loop [d[k] = d.get(k, 0) + 1] over a list, [k] being
    [key x] for each element [x]. *)
Definition tally {A} (key : A → pystr) (l : list A) : gmap pystr nat :=
  foldl (λ d x, <[key x := (default 0%nat (d !! key x) + 1)%nat]> d) ∅ l.

(** Python's [d.get(k, default)] on a dict held as association list. *)
Definition assoc_get {A} (k : pystr) (default : A) (d : list (pystr * A))
    : A :=
  match List.find (λ kv, bool_decide (kv.1 = k)) d with
  | Some kv => kv.2
  | None => default
  end.

(** ** Exceptions *)

Inductive exn : Type :=
  | KeyError (key : string)
  | IndexError
  | AttributeError
  | AssertionError
  | ValueError
  | RuntimeError (msg : string)
  | ProviderError
  | TypeError.

Inductive result (A : Type) : Type :=
  | Ok (a : A)
  | Raise (e : exn).
Arguments Ok {A} a.
Arguments Raise {A} e.

#[global] Instance result_ret : MRet result := λ A a, Ok a.

#[global] Instance result_bind : MBind result := λ A B k r,
  match r with
  | Ok a => k a
  | Raise e => Raise e
  end.

(** [d[key]] on an optional field. *)
Definition getitem {A} (key : string) (field : option A) : result A :=
  match field with
  | Some a => Ok a
  | None => Raise (KeyError key)
  end.

(** ** Rational comparisons as booleans *)

Definition Qltb (x y : Q) : bool := negb (Qle_bool y x).

(** ** Floats

    The operations are those of [SpecFloat], which round to nearest,
    ties to even. *)

(** The quotient of two positive integers with the sign [s], rounded
    once to the format with [prec] bits of precision and exponents below
    [emax]. *)
Definition rounded_quotient (prec emax : Z) (s : bool) (a b : positive)
    : spec_float :=
  let '(mz, ez, lz) := SFdiv_core_binary prec emax (Zpos a) 0 (Zpos b) 0 in
  binary_round_aux prec emax s mz ez lz.

(** A Python [float] is an IEEE 754 binary64 number: 53 bits of
    precision, exponents below 1024. *)
Module float.

Definition prec : Z := 53.
Definition emax : Z := 1024.

Definition quotient (s : bool) (a b : positive) : spec_float :=
  rounded_quotient prec emax s a b.

(** [a / b] for two ints: the float nearest to the quotient.  The
    divisor is the length of a list that is not empty wherever the
    sources divide; Python raises for [0] and the model has a NaN. *)
Definition truediv (a b : Z) : spec_float :=
  match a, b with
  | Z0, Zpos _ => S754_zero false
  | Zpos a, Zpos b => quotient false a b
  | Zneg a, Zpos b => quotient true a b
  | _, _ => S754_nan
  end.

(** The float a decimal literal of the sources denotes: the one nearest
    to the rational written. *)
Definition of_Q (q : Q) : spec_float := truediv (Qnum q) (Zpos (Qden q)).

Definition zero : spec_float := S754_zero false.
Definition add : spec_float → spec_float → spec_float := SFadd prec emax.
Definition mul : spec_float → spec_float → spec_float := SFmul prec emax.
Definition div : spec_float → spec_float → spec_float := SFdiv prec emax.
Definition ltb : spec_float → spec_float → bool := SFltb.
Definition leb : spec_float → spec_float → bool := SFleb.
Definition eqb : spec_float → spec_float → bool := SFeqb.

(** Python's [min(a, b)]: [b] when [b < a], else [a]. *)
Definition min (a b : spec_float) : spec_float := if ltb b a then b else a.

End float.

(** A NumPy [float32] is an IEEE 754 binary32 number: 24 bits of
    precision, exponents below 128. *)
Module float32.

Definition prec : Z := 24.
Definition emax : Z := 128.

(** The [float32] nearest to a rational. *)
Definition of_Q (q : Q) : spec_float :=
  match Qnum q with
  | Z0 => S754_zero false
  | Zpos a => rounded_quotient prec emax false a (Qden q)
  | Zneg a => rounded_quotient prec emax true a (Qden q)
  end.

Definition add : spec_float → spec_float → spec_float := SFadd prec emax.
Definition div : spec_float → spec_float → spec_float := SFdiv prec emax.

(** [float(x)]: the same number as a Python float; every [float32] is
    one. *)
Definition to_float (x : spec_float) : spec_float :=
  match x with
  | S754_finite s m e =>
    binary_normalize float.prec float.emax (cond_Zopp s (Zpos m)) e s
  | _ => x
  end.

End float32.

(** What NumPy makes of a Python float combined with a [float32]
    scalar: a [float64] before NumPy 2, a [float32] from NumPy 2 on. *)
Inductive numpy : Type :=
  | NumPy1
  | NumPy2.


(** Python truthiness of an [Optional[str]] and of a list. *)
Definition truthy_str (s : option pystr) : bool :=
  match s with
  | Some (_ :: _) => true
  | _ => false
  end.

Definition truthy_list {A} (l : list A) : bool :=
  match l with
  | [] => false
  | _ :: _ => true
  end.

(** ** Files read by the router

    A JSON file is missing, or present with a modification time and
    contents; the contents do not parse, or parse to a value that is not
    a JSON object, or parse to an object. *)

Inductive contents (A : Type) : Type :=
  | Unparseable
  | NotAnObject
  | Object (a : A).
Arguments Unparseable {A}.
Arguments NotAnObject {A}.
Arguments Object {A} a.

Record file (A : Type) : Type := {
  file_mtime : Q;
  file_contents : contents A
}.
Arguments file_mtime {A} f.
Arguments file_contents {A} f.

(** ** router/core/weakness_matcher.py *)

Module WeaknessMatcher.

(** The [triggers] dict of a weakness; every key is read with [.get]. *)
Record Triggers : Type := {
  entity_types : option (list pystr);
  keywords : option (list pystr);
  question_patterns : option (list pystr)
}.

Definition no_triggers : Triggers :=
  {| entity_types := None; keywords := None; question_patterns := None |}.

(** One entry of the weakness table, a JSON object. *)
Record Weakness : Type := {
  weakness_id : option pystr;
  category : option pystr;
  subcategory : option pystr;
  description : option pystr;
  severity : option pystr;
  frequency : option Q;
  prompt_addition : option pystr;
  triggers : option Triggers
}.

(** The dict built for a matched weakness. *)
Record Match : Type := {
  m_weakness_id : pystr;
  m_category : pystr;
  m_subcategory : pystr;
  m_description : pystr;
  m_severity : pystr;
  m_frequency : Q;
  m_prompt_addition : pystr;
  match_score : spec_float
}.

(** The instance: [self.weaknesses]. *)
Record t : Type := { weaknesses : list Weakness }.

(** The value under the key [weaknesses] of the weakness file: an array
    of objects, or a value [len] does not take (null, a number, true or
    false).  A string or an object in that place, and an array with an
    entry that is not an object, are not covered. *)
Inductive table : Type :=
  | Table (ws : list Weakness)
  | NoLen.

(** The weakness file: an object whose key [weaknesses], when present,
    holds the table. *)
Definition weakness_file : Type := option (file (option table)).

(** A missing file gives the empty table; so does any exception raised
    while reading it ([json.load] on bad JSON, [.get] on a non-object).
    The value found under [weaknesses] is returned as it is. *)
Definition _load_weaknesses (f : weakness_file) : table :=
  match f with
  | None => Table []
  | Some f =>
    match file_contents f with
    | Object data => default (Table []) data
    | NotAnObject => Table []
    | Unparseable => Table []
    end
  end.

(** The constructor ends with a log line that takes
    [len(self.weaknesses)]. *)
Definition __init__ (f : weakness_file) : result t :=
  match _load_weaknesses f with
  | Table ws => Ok {| weaknesses := ws |}
  | NoLen => Raise TypeError
  end.

(** [sum(1 for kw in kws if kw in question)] *)
Definition count_matched (kws : list pystr) (question : pystr) : nat :=
  length (filter (λ kw, str_in kw question) kws).

(** The source also computes [question_lower = question.lower()] and
    never reads it: every test below is made on [question] itself. *)
Definition _calculate_match_score
    (question : pystr) (weakness : Weakness) (entity_type : option pystr)
    : spec_float :=
  let score := float.zero in
  let triggers := default no_triggers (triggers weakness) in
  (* entity type match, 30% weight *)
  let entity_types := default [] (entity_types triggers) in
  let score :=
    if truthy_str entity_type && truthy_list entity_types then
      if str_in_list (default [] entity_type) entity_types
      then float.add score (float.of_Q 0.30) else score
    else score in
  (* keyword match, 40% weight *)
  let keywords := default [] (keywords triggers) in
  let score :=
    if truthy_list keywords then
      let matched_keywords := count_matched keywords question in
      if (0 <? matched_keywords)%nat then
        let keyword_score :=
          float.min (float.of_Q 1)
            (float.truediv (Z.of_nat matched_keywords)
                           (Z.of_nat (length keywords))) in
        float.add score (float.mul (float.of_Q 0.40) keyword_score)
      else score
    else score in
  (* question pattern match, 30% weight *)
  let patterns := default [] (question_patterns triggers) in
  let score :=
    if truthy_list patterns then
      let matched_patterns := count_matched patterns question in
      if (0 <? matched_patterns)%nat then
        let pattern_score :=
          float.min (float.of_Q 1)
            (float.truediv (Z.of_nat matched_patterns)
                           (Z.of_nat (length patterns))) in
        float.add score (float.mul (float.of_Q 0.30) pattern_score)
      else score
    else score in
  score.

(** The dict literal appended to [matches]; keys are read in order. *)
Definition make_match (weakness : Weakness) (score : spec_float)
    : result Match :=
  wid ← getitem "weakness_id" (weakness_id weakness);
  cat ← getitem "category" (category weakness);
  sub ← getitem "subcategory" (subcategory weakness);
  des ← getitem "description" (description weakness);
  sev ← getitem "severity" (severity weakness);
  frq ← getitem "frequency" (frequency weakness);
  pad ← getitem "prompt_addition" (prompt_addition weakness);
  mret {| m_weakness_id := wid; m_category := cat; m_subcategory := sub;
          m_description := des; m_severity := sev; m_frequency := frq;
          m_prompt_addition := pad; match_score := score |}.

(** The [for weakness in self.weaknesses] loop, [matches] accumulating. *)
Fixpoint match_loop
    (ws : list Weakness) (question : pystr) (entity_type : option pystr)
    (min_frequency : Q) (matches : list Match) : result (list Match) :=
  match ws with
  | [] => Ok matches
  | weakness :: ws' =>
    if Qltb (default 0%Q (frequency weakness)) min_frequency then
      match_loop ws' question entity_type min_frequency matches
    else
      let score := _calculate_match_score question weakness entity_type in
      if float.ltb float.zero score then
        m ← make_match weakness score;
        match_loop ws' question entity_type min_frequency (matches ++ [m])
      else
        match_loop ws' question entity_type min_frequency matches
  end.

(** Order on the sort key [(match_score, frequency)]: Python compares
    tuples lexicographically. *)
Definition key_lt (a b : Match) : bool :=
  float.ltb (match_score a) (match_score b)
  || (float.eqb (match_score a) (match_score b)
      && Qltb (m_frequency a) (m_frequency b)).

(** [list.sort(key=..., reverse=True)]: a stable sort, greatest key
    first; entries with equal keys keep their relative order. *)
Fixpoint insert_desc (x : Match) (l : list Match) : list Match :=
  match l with
  | [] => [x]
  | y :: l' => if key_lt x y then y :: insert_desc x l' else x :: y :: l'
  end.

Definition sort_desc (l : list Match) : list Match :=
  foldr insert_desc [] l.

Definition match_weaknesses
    (self : t) (question : pystr) (entity_type : option pystr)
    (top_k : Z) (min_frequency : Q) : result (list Match) :=
  matches ← match_loop (weaknesses self) question entity_type
                       min_frequency [];
  let matches := sort_desc matches in
  let top_matches := slice_to matches top_k in
  mret top_matches.

(** [get_prompt_additions]: the matches are taken with the default
    [min_frequency] of [match_weaknesses], 0.15. *)
Definition prompt_header : pystr :=
  nl ++ nl ++ u "## ⚠️ 针对该问题类型的特别提醒" ++ nl.

Definition get_prompt_additions
    (self : t) (question : pystr) (entity_type : option pystr) (top_k : Z)
    : result pystr :=
  matches ← match_weaknesses self question entity_type top_k 0.15%Q;
  if negb (truthy_list matches) then mret []
  else
    let additions := map m_prompt_addition matches in
    if truthy_list additions then
      let formatted := prompt_header in
      let formatted := formatted ++ join nl additions in
      mret formatted
    else mret [].

(** The dict returned by [get_stats]. *)
Record Stats : Type := {
  total_weaknesses : nat;
  by_category : gmap pystr nat;
  by_severity : gmap pystr nat;
  avg_frequency : Q
}.

Definition get_stats (self : t) : Stats :=
  let categories :=
    tally (λ w, default (u "unknown") (category w)) (weaknesses self) in
  let severities :=
    tally (λ w, default (u "unknown") (severity w)) (weaknesses self) in
  {| total_weaknesses := length (weaknesses self);
     by_category := categories;
     by_severity := severities;
     avg_frequency :=
       if truthy_list (weaknesses self) then
         (foldl Qplus 0 (map (λ w, default 0 (frequency w))
                             (weaknesses self))
          / inject_Z (Z.of_nat (length (weaknesses self))))%Q
       else 0%Q |}.

End WeaknessMatcher.

(** ** router/config/settings.py (the fields the engine reads) *)

Record RouterSettings : Type := {
  WEAKNESS_TOP_K : Z;
  WEAKNESS_MIN_FREQUENCY : Q;
  ENABLE_HOT_RELOAD : bool
}.

Definition default_router_settings : RouterSettings :=
  {| WEAKNESS_TOP_K := 2;
     WEAKNESS_MIN_FREQUENCY := 0.15;
     ENABLE_HOT_RELOAD := true |}.

(** ** router/core/decision_engine.py *)

Module DecisionEngine.

(** What the engine sees of the outside world during one call: its two
    data files and the clock. *)
(** The value of one category of the entity file: an array of names;
    or a value that can be neither iterated nor measured (null, a
    number, true or false); or an array with an entry that cannot be a
    member of a set (an array or an object), of which only the length
    matters.  A string in that place behaves as the array of its
    characters and an object as the array of its keys.  An array with an
    entry that is a number, true, false or null is not covered. *)
Inductive category_value : Type :=
  | Names (names : list pystr)
  | NotIterable
  | Unhashable (length : nat).

Record World : Type := {
  entity_file : option (file (list (pystr * category_value)));
  weakness_file : WeaknessMatcher.weakness_file;
  now : Q
}.

(** The value held in [self.entities_by_category]: [json.load] returns
    whatever the file parses to. *)
Inductive entities : Type :=
  | EntityDict (d : list (pystr * category_value))
  | EntityOther.

Record t : Type := {
  entities_by_category : entities;
  all_entities_set : list pystr;   (* the set, in its iteration order *)
  weakness_matcher : WeaknessMatcher.t;
  _entity_mtime : Q;
  _weakness_mtime : Q;
  _last_reload_check : Q;
  category_keywords : list (pystr * list pystr);
  ood_keywords : list pystr        (* the set, in its iteration order *)
}.

Definition the_category_keywords : list (pystr * list pystr) :=
  [ (u "diseases",
     map u ["糖尿病"; "高血压"; "白血病"; "肺结节"; "半月板"; "游走脾";
            "沙门氏菌"; "卡波西肉瘤"; "家族性高胆固醇血症"; "类鼻疽";
            "疾病"; "症状"; "治疗"; "病因"]%string);
    (u "examinations",
     map u ["检查"; "筛查"; "CT"; "MRI"; "X光"; "超声"; "B超";
            "血常规"; "尿检"; "心电图"; "胃镜"; "肠镜"; "活检"]%string);
    (u "surgeries",
     map u ["手术"; "术后"; "操作"; "切除"; "置换"; "移植";
            "微创"; "开放"; "腹腔镜"; "穿刺"]%string);
    (u "vaccines",
     map u ["疫苗"; "接种"; "注射"; "免疫"; "预防针";
            "乙肝"; "流感"; "肺炎"; "狂犬"; "HPV"]%string) ].

Definition the_ood_keywords : list pystr :=
  map u ["摇晃综合征"; "婴儿摇晃"; "Shaken Baby";
         "念珠菌性龟头炎"; "念珠菌龟头";
         "海绵状血管瘤"; "血管瘤";
         "阴唇粘连"; "外阴粘连";
         "先天性心脏病筛查";
         "单纯性甲状腺肿";
         "心脏性猝死预防";
         "变性手术"; "性别肯定手术";
         "感染性疾病通用症状"]%string.

Definition empty_entities : entities :=
  EntityDict [(u "diseases", Names []); (u "examinations", Names []);
              (u "surgeries", Names []); (u "vaccines", Names [])].

Definition _get_mtime {A} (f : option (file A)) : Q :=
  match f with
  | Some f => file_mtime f
  | None => 0%Q
  end.

Definition _load_entities (w : World) : entities :=
  match entity_file w with
  | None => empty_entities
  | Some f =>
    match file_contents f with
    | Object d => EntityDict d
    | NotAnObject => EntityOther
    | Unparseable => empty_entities
    end
  end.

(** The loop [for category, names in ...items(): all_entities.update(names)]:
    [update] raises [TypeError] on a value it cannot iterate and on an
    entry it cannot hash. *)
Fixpoint update_all
    (items : list (pystr * category_value)) (all_entities : list pystr)
    : result (list pystr) :=
  match items with
  | [] => Ok all_entities
  | (category, Names names) :: items' =>
    update_all items' (all_entities ++ names)
  | (category, NotIterable) :: _ => Raise TypeError
  | (category, Unhashable _) :: _ => Raise TypeError
  end.

(** A value that is not a dict has no [items].  The list returned
    enumerates the set; no result below depends on the order. *)
Definition _build_entity_set (e : entities) : result (list pystr) :=
  match e with
  | EntityDict d =>
    all_entities ← update_all d [];
    mret (remove_dups all_entities)
  | EntityOther => Raise AttributeError
  end.

Definition __init__ (w : World) : result t :=
  let entities_by_category := _load_entities w in
  all_entities_set ← _build_entity_set entities_by_category;
  weakness_matcher ← WeaknessMatcher.__init__ (weakness_file w);
  mret {| entities_by_category := entities_by_category;
          all_entities_set := all_entities_set;
          weakness_matcher := weakness_matcher;
          _entity_mtime := _get_mtime (entity_file w);
          _weakness_mtime := _get_mtime (weakness_file w);
          _last_reload_check := now w;
          category_keywords := the_category_keywords;
          ood_keywords := the_ood_keywords |}.

Definition set_entities (self : t) (e : entities) : t :=
  {| entities_by_category := e;
     all_entities_set := all_entities_set self;
     weakness_matcher := weakness_matcher self;
     _entity_mtime := _entity_mtime self;
     _weakness_mtime := _weakness_mtime self;
     _last_reload_check := _last_reload_check self;
     category_keywords := category_keywords self;
     ood_keywords := ood_keywords self |}.

Definition set_entity_set (self : t) (s : list pystr) (mtime : Q) : t :=
  {| entities_by_category := entities_by_category self;
     all_entities_set := s;
     weakness_matcher := weakness_matcher self;
     _entity_mtime := mtime;
     _weakness_mtime := _weakness_mtime self;
     _last_reload_check := _last_reload_check self;
     category_keywords := category_keywords self;
     ood_keywords := ood_keywords self |}.

Definition set_matcher (self : t) (m : WeaknessMatcher.t) (mtime : Q) : t :=
  {| entities_by_category := entities_by_category self;
     all_entities_set := all_entities_set self;
     weakness_matcher := m;
     _entity_mtime := _entity_mtime self;
     _weakness_mtime := mtime;
     _last_reload_check := _last_reload_check self;
     category_keywords := category_keywords self;
     ood_keywords := ood_keywords self |}.

Definition set_last_check (self : t) (time : Q) : t :=
  {| entities_by_category := entities_by_category self;
     all_entities_set := all_entities_set self;
     weakness_matcher := weakness_matcher self;
     _entity_mtime := _entity_mtime self;
     _weakness_mtime := _weakness_mtime self;
     _last_reload_check := time;
     category_keywords := category_keywords self;
     ood_keywords := ood_keywords self |}.

(** Returns the engine as the call leaves it, also when it raises. *)
Definition check_for_updates (w : World) (self : t) : t * result bool :=
  let reloaded := false in
  let current_entity_mtime := _get_mtime (entity_file w) in
  let step1 : t * result bool :=
    if Qltb (_entity_mtime self) current_entity_mtime then
      let self := set_entities self (_load_entities w) in
      match _build_entity_set (entities_by_category self) with
      | Ok s => (set_entity_set self s current_entity_mtime, Ok true)
      | Raise e => (self, Raise e)
      end
    else (self, Ok reloaded) in
  match step1 with
  | (self, Raise e) => (self, Raise e)
  | (self, Ok reloaded) =>
    let current_weakness_mtime := _get_mtime (weakness_file w) in
    let step2 : t * result bool :=
      if Qltb (_weakness_mtime self) current_weakness_mtime then
        match WeaknessMatcher.__init__ (weakness_file w) with
        | Ok m => (set_matcher self m current_weakness_mtime, Ok true)
        | Raise e => (self, Raise e)
        end
      else (self, Ok reloaded) in
    match step2 with
    | (self, Raise e) => (self, Raise e)
    | (self, Ok reloaded) => (set_last_check self (now w), Ok reloaded)
    end
  end.

(** Strategy 3: [any(kw in question for kw in keywords)]. *)
Definition category_hit (question : pystr) (entry : pystr * list pystr)
    : bool :=
  existsb (λ kw, str_in kw question) (snd entry).

Definition matched_categories (self : t) (question : pystr) : list pystr :=
  map fst (List.filter (category_hit question) (category_keywords self)).

(** Strategy 4: the test made on each entity name. *)
Definition partial_hit (question : pystr) (entity_name : pystr) : bool :=
  (3 <=? length entity_name)%nat &&
  let prefix := take (Nat.min 3 (length entity_name)) entity_name in
  (2 <=? length prefix)%nat && str_in prefix question
  && negb (str_in_list prefix (map u ["检查"; "手术"; "疫苗"]%string)).

(** [question_lower] is computed in the source and never read;
    [min_confidence] is taken and never read. *)
Definition should_use_rag
    (self : t) (question : pystr) (min_confidence : Q)
    : bool * pystr * Q :=
  (* Strategy 1: exact entity name *)
  match List.find (λ entity_name, str_in entity_name question)
                  (all_entities_set self) with
  | Some entity_name =>
    (true, u "Exact match: '" ++ entity_name ++ u "'", 0.95%Q)
  | None =>
  (* Strategy 2: known out-of-database topic *)
  match List.find (λ ood_keyword, str_in ood_keyword question)
                  (ood_keywords self) with
  | Some ood_keyword =>
    (false, u "Known OOD topic: '" ++ ood_keyword ++ u "'", 0.90%Q)
  | None =>
  (* Strategy 3: category keywords *)
  let matched_categories := matched_categories self question in
  if (2 <=? length matched_categories)%nat then
    let categories_str := join (u ", ") matched_categories in
    (true, u "Multiple category matches: " ++ categories_str, 0.75%Q)
  else
  match matched_categories with
  | [category] => (true, u "Category match: " ++ category, 0.65%Q)
  | _ =>
  (* Strategy 4: partial entity match *)
  match List.find (partial_hit question) (all_entities_set self) with
  | Some entity_name =>
    (true, u "Partial match: '" ++ entity_name ++ u "'", 0.60%Q)
  | None =>
  (* Strategy 5: default *)
    (true, u "Uncertain - defer to threshold filter", 0.50%Q)
  end end end end.

(** The dict returned by [get_routing_decision]. *)
Record Decision : Type := {
  use_rag : bool;
  rag_reason : pystr;
  rag_confidence : Q;
  weakness_patterns : list WeaknessMatcher.Match;
  has_weaknesses : bool;
  routing_tier : pystr;
  last_reload_check : Q
}.

Definition get_routing_decision
    (settings : RouterSettings) (w : World) (self : t)
    (question : pystr) (entity_type : option pystr)
    (min_confidence : Q) (auto_reload : bool) : t * result Decision :=
  (* hot-reload check *)
  let '(self, checked) :=
    if auto_reload && ENABLE_HOT_RELOAD settings
    then check_for_updates w self
    else (self, Ok false) in
  match checked with
  | Raise e => (self, Raise e)
  | Ok _ =>
    (* step 1: weakness patterns first *)
    match WeaknessMatcher.match_weaknesses
            (weakness_matcher self) question entity_type
            (WEAKNESS_TOP_K settings) (WEAKNESS_MIN_FREQUENCY settings) with
    | Raise e => (self, Raise e)
    | Ok weakness_patterns =>
      let has_weaknesses := (0 <? length weakness_patterns)%nat in
      (* step 2: without a weakness match, ask the RAG gate *)
      let rag : result (bool * pystr * Q) :=
        if negb has_weaknesses
        then Ok (should_use_rag self question min_confidence)
        else
          first ← match py_index weakness_patterns 0 with
                  | Some m => Ok m
                  | None => Raise IndexError
                  end;
          mret (true,
                u "Supplemental context for weakness: "
                  ++ WeaknessMatcher.m_weakness_id first,
                0.85%Q) in
      match rag with
      | Raise e => (self, Raise e)
      | Ok (use_rag, rag_reason, rag_confidence) =>
        (self,
         Ok {| use_rag := use_rag;
               rag_reason := rag_reason;
               rag_confidence := rag_confidence;
               weakness_patterns := weakness_patterns;
               has_weaknesses := has_weaknesses;
               routing_tier :=
                 if has_weaknesses then u "weakness"
                 else if use_rag then u "rag" else u "baseline";
               last_reload_check := _last_reload_check self |})
      end
    end
  end.

(** The dict returned by [get_stats]; the fields are named after its
    keys, with [s_] in front where a key of the decision has the name. *)
Record Stats : Type := {
  total_entities : nat;
  diseases : nat;
  examinations : nat;
  surgeries : nat;
  vaccines : nat;
  s_category_keywords : nat;
  s_ood_keywords : nat;
  s_weakness_patterns : nat;
  weakness_categories : gmap pystr nat;
  s_last_reload_check : Q;
  entity_file_mtime : option Q;
  weakness_file_mtime : option Q
}.

(** [len(self.entities_by_category.get(name, []))]; a value that is not
    a dict has no [get], and [len] raises [TypeError] on a category that
    is not a list. *)
Definition category_size (self : t) (name : string) : result nat :=
  match entities_by_category self with
  | EntityDict d =>
    match assoc_get (u name) (Names []) d with
    | Names names => Ok (length names)
    | NotIterable => Raise TypeError
    | Unhashable length => Ok length
    end
  | EntityOther => Raise AttributeError
  end.

(** [datetime.fromtimestamp(m).isoformat() if m else None] *)
Definition mtime_or_none (m : Q) : option Q :=
  if Qeq_bool m 0 then None else Some m.

Definition get_stats (self : t) : result Stats :=
  let weakness_stats := WeaknessMatcher.get_stats (weakness_matcher self) in
  n_diseases ← category_size self "diseases";
  n_examinations ← category_size self "examinations";
  n_surgeries ← category_size self "surgeries";
  n_vaccines ← category_size self "vaccines";
  mret {| total_entities := length (all_entities_set self);
          diseases := n_diseases;
          examinations := n_examinations;
          surgeries := n_surgeries;
          vaccines := n_vaccines;
          s_category_keywords :=
            foldl Nat.add 0%nat (map (λ kv, length kv.2)
                                     (category_keywords self));
          s_ood_keywords := length (ood_keywords self);
          s_weakness_patterns :=
            WeaknessMatcher.total_weaknesses weakness_stats;
          weakness_categories := WeaknessMatcher.by_category weakness_stats;
          s_last_reload_check := _last_reload_check self;
          entity_file_mtime := mtime_or_none (_entity_mtime self);
          weakness_file_mtime := mtime_or_none (_weakness_mtime self) |}.

(** A value of the decision dict. *)
Inductive pyval : Type :=
  | VBool (b : bool)
  | VStr (s : pystr)
  | VFloat (x : Q)
  | VMatches (ms : list WeaknessMatcher.Match).

(** The decision as the dict it is: its keys, in the order of the dict
    literal, with their values. *)
Definition decision_items (d : Decision) : list (string * pyval) :=
  [ ("use_rag"%string, VBool (use_rag d));
    ("rag_reason"%string, VStr (rag_reason d));
    ("rag_confidence"%string, VFloat (rag_confidence d));
    ("weakness_patterns"%string, VMatches (weakness_patterns d));
    ("has_weaknesses"%string, VBool (has_weaknesses d));
    ("routing_tier"%string, VStr (routing_tier d));
    ("last_reload_check"%string, VFloat (last_reload_check d)) ].

(** [decision[key]] *)
Definition decision_getitem (d : Decision) (key : string) : result pyval :=
  match List.find (λ kv, String.eqb kv.1 key) (decision_items d) with
  | Some kv => Ok kv.2
  | None => Raise (KeyError key)
  end.

(** What Python makes of iterating over a value, and of [len]: only the
    list of matches can be walked as a list of dicts. *)
Definition iter_matches (v : pyval)
    : result (list WeaknessMatcher.Match) :=
  match v with
  | VMatches ms => Ok ms
  | _ => Raise TypeError
  end.

Definition len (v : pyval) : result nat :=
  match v with
  | VMatches ms => Ok (length ms)
  | VStr s => Ok (length s)
  | _ => Raise TypeError
  end.

(** The module-level singleton [_decision_engine] and its two
    functions; the global is passed in and handed back. *)
Definition get_decision_engine (w : World) (_decision_engine : option t)
    : option t * result t :=
  match _decision_engine with
  | None =>
    match __init__ w with
    | Ok engine => (Some engine, Ok engine)
    | Raise e => (None, Raise e)
    end
  | Some engine => (Some engine, Ok engine)
  end.

Definition reload_decision_engine (w : World) (_decision_engine : option t)
    : option t * result t :=
  match __init__ w with
  | Ok engine => (Some engine, Ok engine)
  | Raise e => (_decision_engine, Raise e)
  end.

End DecisionEngine.

(** ** The FAISS flat L2 index

    FAISS is a third-party library; this is a model of the part of
    [faiss.IndexFlatL2] the sources call, after its documented behaviour:
    brute-force squared Euclidean distance; [search] returns exactly [k]
    slots per query, nearest first, and fills the slots for which no row
    exists with label [-1] and distance [FLT_MAX].  FAISS holds vectors
    and distances in [float32]; here they are rationals, the distance is
    the exact sum of squares, and it is rounded to [float32] where the
    sources compute with it. *)

Module faiss.

Definition vector : Type := list Q.

Record IndexFlatL2 : Type := {
  d : nat;
  xb : list vector
}.

Definition new (dimension : nat) : IndexFlatL2 :=
  {| d := dimension; xb := [] |}.

Definition ntotal (index : IndexFlatL2) : nat := length (xb index).

(** [np.array(rows, dtype=float32)] for a list of rows.  Ragged rows
    are rejected; rows of equal length give shape [(n, cols)], kept as
    [Some cols]; no row at all gives the one-dimensional shape [(0,)],
    kept as [None]. *)
Definition ndarray : Type := option nat * list vector.

Definition np_array (rows : list vector) : result ndarray :=
  match rows with
  | [] => Ok (None, [])
  | r :: _ =>
    if forallb (λ v, (length v =? length r)%nat) rows
    then Ok (Some (length r), rows)
    else Raise ValueError
  end.

(** [index.add(x)]: the wrapper unpacks [n, d = x.shape] and asserts
    that [d] is the dimension of the index. *)
Definition add (index : IndexFlatL2) (x : ndarray) : result IndexFlatL2 :=
  match fst x with
  | None => Raise ValueError
  | Some cols =>
    if (cols =? d index)%nat
    then Ok {| d := d index; xb := xb index ++ snd x |}
    else Raise AssertionError
  end.

Definition sqdist (x y : vector) : Q :=
  foldr Qplus 0%Q (zip_with (λ a b, ((a - b) * (a - b))%Q) x y).

(** The largest finite [float32]. *)
Definition FLT_MAX : Q := inject_Z (2 ^ 128 - 2 ^ 104).

(** Stable insertion by ascending distance: among equal distances the
    row inserted first (lower label) stays first. *)
Fixpoint insert_asc (x : Q * Z) (l : list (Q * Z)) : list (Q * Z) :=
  match l with
  | [] => [x]
  | y :: l' =>
    if Qltb (fst y) (fst x) then y :: insert_asc x l' else x :: y :: l'
  end.

Definition sort_asc (l : list (Q * Z)) : list (Q * Z) :=
  foldr insert_asc [] l.

(** [D, I = index.search(q, k)] for a single query row: returns the
    pair (distances, labels), each of length [k]. *)
Definition search (index : IndexFlatL2) (q : vector) (k : Z)
    : result (list Q * list Z) :=
  if k <=? 0 then Raise AssertionError
  else if negb (length q =? d index)%nat then Raise AssertionError
  else
    let scored := imap (λ i x, (sqdist q x, Z.of_nat i)) (xb index) in
    let hits := take (Z.to_nat k) (sort_asc scored) in
    let slots :=
      hits ++ replicate (Z.to_nat k - length hits)%nat (FLT_MAX, -1) in
    Ok (map fst slots, map snd slots).

End faiss.

(** ** optimizer/rag/embedder.py

    The embedding provider is outside the repository: an operation is
    given the provider's answers as a function [get_embedding].  The
    cache key, an MD5 digest of the text, is modelled by the text itself
    (digest collisions are not modelled).  Writing the cache to disk
    changes nothing in memory and cannot raise ([_save_cache] catches
    everything), so it is left out. *)

Module Embedder.

Record t : Type := {
  cache : gmap pystr faiss.vector;
  USE_EMBEDDING_CACHE : bool;
  EMBEDDING_DIMENSION : nat
}.

Definition provider : Type := pystr → result faiss.vector.

Definition _truncate_text (text : pystr) : pystr :=
  if (length text <=? 5500)%nat then text
  else take 5500 text ++ u "...".

Definition store (self : t) (key : pystr) (v : faiss.vector) : t :=
  {| cache := <[key := v]> (cache self);
     USE_EMBEDDING_CACHE := USE_EMBEDDING_CACHE self;
     EMBEDDING_DIMENSION := EMBEDDING_DIMENSION self |}.

Definition cache_hit (self : t) (key : pystr) : option faiss.vector :=
  if USE_EMBEDDING_CACHE self then cache self !! key else None.

Definition embed (get_embedding : provider) (self : t) (text : pystr)
    : t * result faiss.vector :=
  let text := _truncate_text text in
  match cache_hit self text with
  | Some v => (self, Ok v)
  | None =>
    match get_embedding text with
    | Raise e => (self, Raise e)
    | Ok embedding =>
      (if USE_EMBEDDING_CACHE self then store self text embedding
       else self,
       Ok embedding)
    end
  end.

(** A failed item is replaced by a zero vector and the batch goes on. *)
Fixpoint embed_batch (get_embedding : provider) (self : t)
    (texts : list pystr) : t * list faiss.vector :=
  match texts with
  | [] => (self, [])
  | text :: texts' =>
    let text := _truncate_text text in
    let '(self, embedding) :=
      match cache_hit self text with
      | Some v => (self, v)
      | None =>
        match get_embedding text with
        | Ok embedding =>
          (if USE_EMBEDDING_CACHE self then store self text embedding
           else self,
           embedding)
        | Raise _ => (self, replicate (EMBEDDING_DIMENSION self) 0%Q)
        end
      end in
    let '(self, embeddings) := embed_batch get_embedding self texts' in
    (self, embedding :: embeddings)
  end.

End Embedder.

(** ** optimizer/core/pattern_storage.py

    Pattern dicts are Python objects shared between the store and its
    callers, so they live in a heap and the store holds references. *)

Module PatternStorage.

Record Pattern : Type := {
  description : option pystr;
  guideline : option pystr;
  category : option pystr;
  error_type : option pystr;
  severity : option pystr;
  frequency : option Z;
  examples : option (list pystr);
  id : option Z;
  relevance_score : option spec_float
}.

Definition loc : Type := nat.
Abbreviation heap := (gmap nat Pattern).

(** [getattr(self.settings, 'RAG_RELEVANCE_THRESHOLD', 0.0)] *)
Record t : Type := {
  RAG_RELEVANCE_THRESHOLD : option Q;
  embedder : Embedder.t;
  patterns : list loc;
  index : option faiss.IndexFlatL2
}.

(** The index file: written in full by [faiss.write_index], or left
    damaged by a write that broke off; [faiss.read_index] raises on a
    damaged file. *)
Inductive index_on_disk : Type :=
  | Written (i : faiss.IndexFlatL2)
  | Damaged.

(** The two files written by [_save]. *)
Record Disk : Type := {
  patterns_file : option (contents (list Pattern));
  index_file : option index_on_disk
}.

(** How the writes of one [_save] call end.  [open] on the pattern
    file raises before anything is written; or [json.dump] raises after
    [open] has truncated the file, which then holds a proper prefix of
    the text of a JSON array, never JSON itself; or [faiss.write_index]
    raises, with the index file untouched or damaged. *)
Inductive io : Type :=
  | WritesSucceed
  | PatternsOpenFails
  | PatternsDumpFails
  | IndexWriteFails (damaged : bool).

Definition with_embedder (self : t) (e : Embedder.t) : t :=
  {| RAG_RELEVANCE_THRESHOLD := RAG_RELEVANCE_THRESHOLD self;
     embedder := e; patterns := patterns self; index := index self |}.

Definition with_index (self : t) (i : faiss.IndexFlatL2) : t :=
  {| RAG_RELEVANCE_THRESHOLD := RAG_RELEVANCE_THRESHOLD self;
     embedder := embedder self; patterns := patterns self;
     index := Some i |}.

Definition with_patterns (self : t) (ps : list loc) : t :=
  {| RAG_RELEVANCE_THRESHOLD := RAG_RELEVANCE_THRESHOLD self;
     embedder := embedder self; patterns := ps; index := index self |}.

Definition set_id (p : Pattern) (i : Z) : Pattern :=
  {| description := description p; guideline := guideline p;
     category := category p; error_type := error_type p;
     severity := severity p; frequency := frequency p;
     examples := examples p; id := Some i;
     relevance_score := relevance_score p |}.

Definition set_relevance_score (p : Pattern) (s : spec_float) : Pattern :=
  {| description := description p; guideline := guideline p;
     category := category p; error_type := error_type p;
     severity := severity p; frequency := frequency p;
     examples := examples p; id := id p;
     relevance_score := Some s |}.

(** Row count of the index; a store without an index has no rows. *)
Definition row_count (self : t) : nat :=
  match index self with
  | Some i => faiss.ntotal i
  | None => 0%nat
  end.

(** The store right after [__init__] when nothing is on disk. *)
Definition empty_store (threshold : option Q) (e : Embedder.t) : t :=
  {| RAG_RELEVANCE_THRESHOLD := threshold; embedder := e;
     patterns := []; index := None |}.

(** [_save]: the pattern file is written first, then the index file
    when there is an index; an exception is caught and logged.  Memory
    is not touched. *)
Definition _save (o : io) (self : t) (h : heap) (disk : Disk) : Disk :=
  let snapshot := omap (λ l, h !! l) (patterns self) in
  match o with
  | PatternsOpenFails => disk
  | PatternsDumpFails =>
    {| patterns_file := Some Unparseable; index_file := index_file disk |}
  | IndexWriteFails damaged =>
    {| patterns_file := Some (Object snapshot);
       index_file := match index self with
                     | Some _ =>
                       if damaged then Some Damaged else index_file disk
                     | None => index_file disk
                     end |}
  | WritesSucceed =>
    {| patterns_file := Some (Object snapshot);
       index_file := match index self with
                     | Some i => Some (Written i)
                     | None => index_file disk
                     end |}
  end.

(** The object behind a reference; a reference always has one. *)
Definition deref (h : heap) (l : loc) : result Pattern :=
  match h !! l with
  | Some p => Ok p
  | None => Raise (RuntimeError "dangling reference")
  end.

(** The body of the [try] of [add_pattern]: the state as the body
    leaves it, and whether it raised. *)
Definition add_pattern_body
    (get_embedding : Embedder.provider) (o : io)
    (self : t) (h : heap) (disk : Disk) (pattern : loc)
    : t * heap * Disk * result unit :=
  match (p ← deref h pattern; getitem "description" (description p)) with
  | Raise e => (self, h, disk, Raise e)
  | Ok text =>
    let '(e, r) := Embedder.embed get_embedding (embedder self) text in
    let self := with_embedder self e in
    match r with
    | Raise e => (self, h, disk, Raise e)
    | Ok embedding =>
      let index0 :=
        match index self with
        | None => faiss.new (length embedding)
        | Some i => i
        end in
      let self := with_index self index0 in
      match (embedding_np ← faiss.np_array [embedding];
             faiss.add index0 embedding_np) with
      | Raise e => (self, h, disk, Raise e)
      | Ok i =>
        let self := with_index self i in
        let pattern_id := Z.of_nat (length (patterns self)) in
        let h := alter (λ p, set_id p pattern_id) pattern h in
        let self := with_patterns self (patterns self ++ [pattern]) in
        let disk := _save o self h disk in
        (self, h, disk, Ok ())
      end
    end
  end.

(** [add_pattern]: whatever the body raises is caught and logged. *)
Definition add_pattern
    (get_embedding : Embedder.provider) (o : io)
    (self : t) (h : heap) (disk : Disk) (pattern : loc)
    : t * heap * Disk :=
  (add_pattern_body get_embedding o self h disk pattern).1.

(** [descriptions = [p['description'] for p in patterns]] *)
Fixpoint descriptions_of (h : heap) (ps : list loc) : result (list pystr) :=
  match ps with
  | [] => Ok []
  | l :: ps' =>
    p ← deref h l;
    text ← getitem "description" (description p);
    rest ← descriptions_of h ps';
    mret (text :: rest)
  end.

(** The loop [for i, pattern in enumerate(patterns)]: the id is
    [len(self.patterns) + i], with the list already grown by [i]. *)
Fixpoint append_all (self : t) (h : heap) (i : nat) (ps : list loc)
    : t * heap :=
  match ps with
  | [] => (self, h)
  | pattern :: ps' =>
    let new_id := Z.of_nat (length (patterns self)) + Z.of_nat i in
    let h := alter (λ p, set_id p new_id) pattern h in
    let self := with_patterns self (patterns self ++ [pattern]) in
    append_all self h (S i) ps'
  end.

Definition add_patterns_batch_body
    (get_embedding : Embedder.provider) (o : io)
    (self : t) (h : heap) (disk : Disk) (new_patterns : list loc)
    : t * heap * Disk * result unit :=
  match descriptions_of h new_patterns with
  | Raise e => (self, h, disk, Raise e)
  | Ok descriptions =>
    let '(e, embeddings) :=
      Embedder.embed_batch get_embedding (embedder self) descriptions in
    let self := with_embedder self e in
    match
      match index self with
      | None =>
        first ← match py_index embeddings 0 with
                | Some v => Ok v
                | None => Raise IndexError
                end;
        mret (faiss.new (length first))
      | Some i => Ok i
      end
    with
    | Raise e => (self, h, disk, Raise e)
    | Ok index0 =>
      let self := with_index self index0 in
      match (embeddings_np ← faiss.np_array embeddings;
             faiss.add index0 embeddings_np) with
      | Raise e => (self, h, disk, Raise e)
      | Ok i =>
        let self := with_index self i in
        let '(self, h) := append_all self h 0 new_patterns in
        let disk := _save o self h disk in
        (self, h, disk, Ok ())
      end
    end
  end.

Definition add_patterns_batch
    (get_embedding : Embedder.provider) (o : io)
    (self : t) (h : heap) (disk : Disk) (new_patterns : list loc)
    : t * heap * Disk :=
  if negb (truthy_list new_patterns) then (self, h, disk)
  else (add_patterns_batch_body get_embedding o self h disk new_patterns).1.

Definition severity_order (s : pystr) : option Z :=
  if bool_decide (s = u "critical") then Some 3
  else if bool_decide (s = u "major") then Some 2
  else if bool_decide (s = u "minor") then Some 1
  else None.

(** [severity_order.get(s, 1)] *)
Definition severity_level (s : pystr) : Z := default 1 (severity_order s).

(** [float(1.0 / (1.0 + distance))], where [distance] is an entry of
    the [float32] array of distances FAISS returns: the sum and the
    quotient are formed in the type NumPy gives them. *)
Definition relevance (np : numpy) (distance : Q) : spec_float :=
  let distance := float32.of_Q distance in
  match np with
  | NumPy1 =>
    float.div (float.of_Q 1)
              (float.add (float.of_Q 1) (float32.to_float distance))
  | NumPy2 =>
    float32.to_float
      (float32.div (float32.of_Q 1) (float32.add (float32.of_Q 1) distance))
  end.

(** The three filters applied to a scored copy; [true] when it is kept. *)
Definition accepted (threshold : Q) (category : option pystr)
    (min_severity_level : Z) (pattern : Pattern) : bool :=
  let score := default float.zero (relevance_score pattern) in
  let threshold := float.of_Q threshold in
  if float.ltb float.zero threshold && float.ltb score threshold then false
  else
    let pattern_category :=
      default (u "general") (PatternStorage.category pattern) in
    if truthy_str category
       && negb (bool_decide (Some pattern_category = category))
       && negb (bool_decide (pattern_category = u "general"))
    then false
    else
      let level := severity_level (default (u "minor") (severity pattern)) in
      if level <? min_severity_level then false else true.

(** The loop over [zip(indices[0], distances[0])]: the heap as the
    loop leaves it, and the references collected in [results]. *)
Fixpoint retrieve_loop (np : numpy)
    (self : t) (k : Z) (threshold : Q) (category : option pystr)
    (min_severity_level : Z) (candidates : list (Z * Q))
    (h : heap) (results : list loc) : heap * result (list loc) :=
  match candidates with
  | [] => (h, Ok results)
  | (idx, distance) :: rest =>
    if idx <? Z.of_nat (length (patterns self)) then
      match (l ← match py_index (patterns self) idx with
                 | Some l => Ok l
                 | None => Raise IndexError
                 end;
             deref h l) with
      | Raise e => (h, Raise e)
      | Ok original =>
        (* pattern = self.patterns[idx].copy() *)
        let copy := fresh (dom h) in
        let pattern :=
          set_relevance_score original (relevance np distance) in
        let h := <[copy := pattern]> h in
        if accepted threshold category min_severity_level pattern then
          let results := results ++ [copy] in
          if Z.of_nat (length results) >=? k then (h, Ok results)
          else retrieve_loop np self k threshold category
                             min_severity_level rest h results
        else retrieve_loop np self k threshold category min_severity_level
                           rest h results
      end
    else retrieve_loop np self k threshold category min_severity_level
                       rest h results
  end.

(** The body of the [try] of [retrieve_relevant]. *)
Definition retrieve_relevant_body (np : numpy)
    (get_embedding : Embedder.provider) (self : t) (h : heap)
    (index0 : faiss.IndexFlatL2)
    (question : pystr) (k : Z) (category : option pystr)
    (min_severity : pystr) (threshold : Q)
    : t * heap * result (list loc) :=
  let '(e, r) := Embedder.embed get_embedding (embedder self) question in
  let self := with_embedder self e in
  match r with
  | Raise e => (self, h, Raise e)
  | Ok query_embedding =>
    let search_k := Z.min (k * 3) (Z.of_nat (length (patterns self))) in
    match faiss.search index0 query_embedding search_k with
    | Raise e => (self, h, Raise e)
    | Ok (distances, indices) =>
      let min_severity_level := severity_level min_severity in
      let '(h, results) :=
        retrieve_loop np self k threshold category min_severity_level
                      (zip indices distances) h [] in
      (self, h, results)
    end
  end.

Definition retrieve_relevant (np : numpy)
    (get_embedding : Embedder.provider) (self : t) (h : heap)
    (question : pystr) (k : Z) (category : option pystr)
    (min_severity : pystr) (threshold : option Q)
    : t * heap * list loc :=
  match index self with
  | None => (self, h, [])
  | Some index0 =>
    if (length (patterns self) =? 0)%nat then (self, h, [])
    else
      let threshold :=
        match threshold with
        | Some x => x
        | None => default 0%Q (RAG_RELEVANCE_THRESHOLD self)
        end in
      match retrieve_relevant_body np get_embedding self h index0 question
                                   k category min_severity threshold with
      | (self, h, Ok results) => (self, h, results)
      | (self, h, Raise _) => (self, h, [])
      end
  end.

(** The dicts behind the references of [self.patterns], each with its
    reference. *)
Fixpoint deref_all (h : heap) (ls : list loc)
    : result (list (loc * Pattern)) :=
  match ls with
  | [] => Ok []
  | l :: ls' =>
    p ← deref h l;
    rest ← deref_all h ls';
    mret ((l, p) :: rest)
  end.

(** [p.get('frequency', 0)] *)
Definition frequency_or_0 (p : Pattern) : Z := default 0 (frequency p).

(** The condition of the list comprehension of [get_top_patterns]. *)
Definition is_top_candidate (category : option pystr) (min_frequency : Z)
    (p : Pattern) : bool :=
  (min_frequency <=? frequency_or_0 p)
  && match category with
     | None => true
     | Some _ => bool_decide (PatternStorage.category p = category)
     end.

(** [sorted(filtered, key=..., reverse=True)]: descending by frequency,
    patterns of equal frequency keeping the order they had. *)
Fixpoint insert_by_frequency (x : loc * Pattern) (l : list (loc * Pattern))
    : list (loc * Pattern) :=
  match l with
  | [] => [x]
  | y :: l' =>
    if frequency_or_0 x.2 <? frequency_or_0 y.2
    then y :: insert_by_frequency x l'
    else x :: y :: l'
  end.

Definition sorted_by_frequency (l : list (loc * Pattern))
    : list (loc * Pattern) :=
  foldr insert_by_frequency [] l.

(** [get_top_patterns] returns the stored dicts themselves, not copies. *)
Definition get_top_patterns (self : t) (h : heap)
    (n : Z) (category : option pystr) (min_frequency : Z)
    : result (list loc) :=
  stored ← deref_all h (patterns self);
  let filtered :=
    List.filter (λ lp, is_top_candidate category min_frequency lp.2)
                stored in
  let sorted_patterns := sorted_by_frequency filtered in
  mret (map fst (slice_to sorted_patterns n)).

Record Stats : Type := {
  total_patterns : nat;
  by_category : gmap pystr nat;
  by_severity : gmap pystr nat;
  by_error_type : gmap pystr nat
}.

Definition get_stats (self : t) (h : heap) : result Stats :=
  if negb (truthy_list (patterns self)) then
    Ok {| total_patterns := 0; by_category := ∅; by_severity := ∅;
          by_error_type := ∅ |}
  else
    stored ← deref_all h (patterns self);
    let dicts := map snd stored in
    mret {| total_patterns := length (patterns self);
            by_category :=
              tally (λ p, default (u "unknown") (category p)) dicts;
            by_severity :=
              tally (λ p, default (u "unknown") (severity p)) dicts;
            by_error_type :=
              tally (λ p, default (u "unknown") (error_type p)) dicts |}.

(** The dicts made by [json.load], each a new object. *)
Fixpoint alloc_all (h : heap) (ps : list Pattern) : heap * list loc :=
  match ps with
  | [] => (h, [])
  | p :: ps' =>
    let l := fresh (dom h) in
    let '(h, ls) := alloc_all (<[l := p]> h) ps' in
    (h, l :: ls)
  end.

(** The store after the [except] branch of [_load]. *)
Definition reset (self : t) : t :=
  {| RAG_RELEVANCE_THRESHOLD := RAG_RELEVANCE_THRESHOLD self;
     embedder := embedder self; patterns := []; index := None |}.

(** [_load]: both files must exist; the pattern file is read first,
    then the index file, and an exception while reading resets the
    store (the dicts read before it are dropped).  A pattern file
    holding JSON that is not a list would be loaded as it is, into a
    store this type has no value for: [None]. *)
Definition _load (self : t) (h : heap) (disk : Disk) : option (t * heap) :=
  match patterns_file disk, index_file disk with
  | Some file, Some on_disk =>
    match file with
    | Object ps =>
      match on_disk with
      | Written written_index =>
        let '(h, ls) := alloc_all h ps in
        Some (with_index (with_patterns self ls) written_index, h)
      | Damaged => Some (reset self, h)
      end
    | Unparseable => Some (reset self, h)
    | NotAnObject =>
      match on_disk with
      | Written _ => None
      | Damaged => Some (reset self, h)
      end
    end
  | _, _ => Some (self, h)
  end.

(** [__init__]: an empty store, then [_load]. *)
Definition __init__ (threshold : option Q) (e : Embedder.t)
    (h : heap) (disk : Disk) : option (t * heap) :=
  _load (empty_store threshold e) h disk.

End PatternStorage.

(** ** optimizer/rag/vector_store.py *)

Module VectorStore.

(** The dict returned by [entity.get_metadata()]. *)
Definition Meta : Type := list (pystr * pystr).

Record t : Type := {
  embedder : Embedder.t;
  dimension : nat;
  index : option faiss.IndexFlatL2;
  metadata : list Meta;
  texts : list pystr
}.

(** One search result: the metadata dict extended with the keys
    [content], [distance] and [similarity]. *)
Record Result : Type := {
  meta : Meta;
  content : pystr;
  distance : Q;
  similarity : spec_float
}.

(** [1 / (1 + float(dist))], where [dist] is an entry of the [float32]
    array of distances. *)
Definition similarity_of (dist : Q) : spec_float :=
  float.div (float.of_Q 1)
            (float.add (float.of_Q 1)
                       (float32.to_float (float32.of_Q dist))).

Definition with_embedder (self : t) (e : Embedder.t) : t :=
  {| embedder := e; dimension := dimension self; index := index self;
     metadata := metadata self; texts := texts self |}.

Definition with_index (self : t) (i : faiss.IndexFlatL2) : t :=
  {| embedder := embedder self; dimension := dimension self;
     index := Some i; metadata := metadata self; texts := texts self |}.

Definition with_data (self : t) (m : list Meta) (ts : list pystr) : t :=
  {| embedder := embedder self; dimension := dimension self;
     index := index self; metadata := m; texts := ts |}.

(** [build]: [entities] lists, for every entity of the flattened
    dictionary, its [to_text()] and its [get_metadata()]. *)
Definition build (get_embedding : Embedder.provider) (self : t)
    (entities : list (pystr * Meta)) : t * result unit :=
  let texts := map fst entities in
  let metadata := map snd entities in
  let '(e, embeddings) :=
    Embedder.embed_batch get_embedding (embedder self) texts in
  let self := with_embedder self e in
  match faiss.np_array embeddings with
  | Raise e => (self, Raise e)
  | Ok embeddings_np =>
    let index0 := faiss.new (dimension self) in
    let self := with_index self index0 in
    match faiss.add index0 embeddings_np with
    | Raise e => (self, Raise e)
    | Ok i => (with_data (with_index self i) metadata texts, Ok ())
    end
  end.

(** The loop [for dist, idx in zip(distances[0], indices[0])]. *)
Fixpoint format_results (self : t) (slots : list (Q * Z))
    (results : list Result) : result (list Result) :=
  match slots with
  | [] => Ok results
  | (dist, idx) :: rest =>
    if idx <? Z.of_nat (length (metadata self)) then
      match py_index (metadata self) idx, py_index (texts self) idx with
      | Some m, Some text =>
        let result :=
          {| meta := m; content := text; distance := dist;
             similarity := similarity_of dist |} in
        format_results self rest (results ++ [result])
      | _, _ => Raise IndexError
      end
    else format_results self rest results
  end.

Definition search (get_embedding : Embedder.provider) (self : t)
    (query : pystr) (k : Z) : t * result (list Result) :=
  match index self with
  | None => (self, Raise (RuntimeError "Vector store not built or loaded"))
  | Some index0 =>
    let '(e, r) := Embedder.embed get_embedding (embedder self) query in
    let self := with_embedder self e in
    match r with
    | Raise e => (self, Raise e)
    | Ok query_embedding =>
      match faiss.search index0 query_embedding k with
      | Raise e => (self, Raise e)
      | Ok (distances, indices) =>
        (self, format_results self (zip distances indices) [])
      end
    end
  end.

End VectorStore.

(** ** router/utils/prompt_builder.py *)

Module PromptBuilder.

(** The class constant; the double quotes of the text are code point 34. *)
Definition DEFAULT_BASE_PROMPT : pystr :=
  u "你是一位专业、耐心、友善的医疗健康助手。你的任务是回答患者关于常见疾病、检查、手术和疫苗的一般性医疗健康问题。

## 核心原则

1. **准确性第一**: 提供准确、基于证据的医疗信息
2. **通俗易懂**: 使用患者能理解的简单中文，避免过多专业术语
3. **完整但简洁**: 回答要全面但不冗长，突出重点
4. **安全边界**: 明确告知" ++ [34%N] ++
  u "建议咨询医生" ++ [34%N] ++
  u "的情况

## 禁止行为

- ❌ 给出明确诊断（例如：" ++ [34%N] ++
  u "你肯定是..." ++ [34%N] ++
  u "）
- ❌ 推荐具体药物剂量
- ❌ 替代专业医疗建议
- ❌ 对症状做出保证性判断

## 回答结构

1. 直接回答核心问题
2. 提供相关背景信息（如适用）
3. 给出实用建议
4. 说明何时需要就医".

(** A matched weakness as the builder reads it: every key with [.get]. *)
Record WeaknessDict : Type := {
  weakness_id : option pystr;
  category : option pystr;
  severity : option pystr;
  prompt_addition : option pystr
}.

(** The dicts of a routing decision, seen as such. *)
Definition of_match (m : WeaknessMatcher.Match) : WeaknessDict :=
  {| weakness_id := Some (WeaknessMatcher.m_weakness_id m);
     category := Some (WeaknessMatcher.m_category m);
     severity := Some (WeaknessMatcher.m_severity m);
     prompt_addition := Some (WeaknessMatcher.m_prompt_addition m) |}.

(** [base_prompt or self.DEFAULT_BASE_PROMPT] *)
Definition base_or_default (base_prompt : option pystr) : pystr :=
  if truthy_str base_prompt then default [] base_prompt
  else DEFAULT_BASE_PROMPT.

Definition rag_header : pystr :=
  nl ++ nl ++ u "## 权威医学参考资料" ++ nl ++ nl.

Definition rules_header : pystr :=
  nl ++ nl ++ u "## 领域专项规则" ++ nl ++ nl.

Definition section_title : pystr :=
  u "## ⚠️ 针对该问题类型的特别提醒" ++ nl.

(** The loop over the patterns: a non-empty addition is appended
    between two newlines. *)
Fixpoint add_reminders (prompt : pystr) (patterns : list WeaknessDict)
    : pystr :=
  match patterns with
  | [] => prompt
  | pattern :: rest =>
    let addition := default [] (prompt_addition pattern) in
    if truthy_list addition
    then add_reminders (prompt ++ nl ++ addition ++ nl) rest
    else add_reminders prompt rest
  end.

Definition build_prompt
    (base_prompt : option pystr)
    (weakness_patterns : option (list WeaknessDict))
    (rag_context : option pystr) : pystr :=
  let prompt := base_or_default base_prompt in
  let prompt :=
    if truthy_str rag_context
    then prompt ++ rag_header ++ default [] rag_context
    else prompt in
  let prompt :=
    match weakness_patterns with
    | Some (p :: ps) =>
      let prompt := prompt ++ nl ++ nl ++ section_title in
      add_reminders prompt (p :: ps)
    | _ => prompt
    end in
  prompt.

Definition build_multipart_prompt
    (base_prompt category_rules rag_context : option pystr)
    (weakness_patterns : option (list WeaknessDict)) : pystr :=
  let prompt := base_or_default base_prompt in
  let prompt :=
    if truthy_str category_rules
    then prompt ++ rules_header ++ default [] category_rules
    else prompt in
  let prompt :=
    if truthy_str rag_context
    then prompt ++ rag_header ++ default [] rag_context
    else prompt in
  let prompt :=
    match weakness_patterns with
    | Some (p :: ps) =>
      let prompt := prompt ++ nl ++ nl ++ section_title in
      add_reminders prompt (p :: ps)
    | _ => prompt
    end in
  prompt.

Definition format_weakness_section (weakness_patterns : list WeaknessDict)
    : pystr :=
  if negb (truthy_list weakness_patterns) then []
  else
    let section := section_title in
    add_reminders section weakness_patterns.

(** The dict returned by [get_prompt_stats]. *)
Record PromptStats : Type := {
  total_length : nat;
  char_count : nat;
  line_count : nat;
  estimated_tokens : nat;
  has_rag_section : bool;
  has_weakness_section : bool
}.

Definition get_prompt_stats (prompt : pystr) : PromptStats :=
  {| total_length := length prompt;
     char_count := length prompt;
     line_count := length (split_on 10%N prompt);
     estimated_tokens := length prompt / 2;
     has_rag_section := str_in (u "权威医学参考资料") prompt;
     has_weakness_section := str_in (u "特别提醒") prompt |}.

End PromptBuilder.

(** ** router/api/app.py

    The handlers of the HTTP API.  A handler works on the engine held in
    the global [_decision_engine]; the engine is one shared object, so
    what a handler does to it is what the next request finds.  The
    response models take the values they are given (pydantic's
    validation of a value against its field type is not modelled). *)

Module RouterApi.

(** The [detail] of an [HTTPException]: [str(e)] for the exception
    caught, kept as [e], or a text of the handler's own. *)
Inductive detail : Type :=
  | str (e : exn)
  | text (s : string).

(** How a handler ends: with its response model, or with the
    [HTTPException] it raises. *)
Inductive http (A : Type) : Type :=
  | Response (a : A)
  | HTTPException (status_code : Z) (detail : detail).
Arguments Response {A} a.
Arguments HTTPException {A} status_code detail.

(** [except Exception as e: raise HTTPException(status_code=500, ...)] *)
Definition or_500 {A} (r : result A) : http A :=
  match r with
  | Ok a => Response a
  | Raise e => HTTPException 500 (str e)
  end.

Record RouteRequest : Type := {
  rq_question : pystr;
  rq_entity_type : option pystr;
  rq_min_confidence : option Q
}.

(** The schema has the keys of a match dict, with their types: built
    from the items of a match, a [WeaknessPattern] keeps the values. *)
Definition WeaknessPattern : Type := WeaknessMatcher.Match.

Record RouteResponse : Type := {
  use_patterns : DecisionEngine.pyval;
  r_rag_reason : DecisionEngine.pyval;
  r_rag_confidence : DecisionEngine.pyval;
  r_weakness_patterns : list WeaknessPattern;
  r_has_weaknesses : DecisionEngine.pyval;
  r_last_reload_check : DecisionEngine.pyval
}.

Record PromptRequest : Type := {
  pq_question : pystr;
  pq_entity_type : option pystr;
  pq_base_prompt : option pystr
}.

Record PromptResponse : Type := {
  enhanced_prompt : pystr;
  p_use_patterns : DecisionEngine.pyval;
  weakness_patterns_applied : nat;
  routing_decision : RouteResponse
}.

Record HealthResponse : Type := {
  status : pystr;
  version : pystr;
  h_entities_loaded : nat;
  h_weaknesses_loaded : nat;
  hot_reload_enabled : bool;
  h_last_reload_check : Q
}.

Record ReloadResponse : Type := {
  reloaded : bool;
  message : pystr;
  entities_loaded : nat;
  weaknesses_loaded : nat;
  timestamp : Q
}.

(** [request.min_confidence or 0.70] *)
Definition min_confidence_or_default (min_confidence : option Q) : Q :=
  match min_confidence with
  | Some c => if Qeq_bool c 0 then 0.70%Q else c
  | None => 0.70%Q
  end.

(** The list comprehension and the [RouteResponse(...)] call, which both
    routing handlers make in the same words; the keyword arguments are
    evaluated from left to right. *)
Definition route_response (decision : DecisionEngine.Decision)
    : result RouteResponse :=
  weakness_patterns ←
    DecisionEngine.decision_getitem decision "weakness_patterns"
    ≫= DecisionEngine.iter_matches;
  use_patterns ← DecisionEngine.decision_getitem decision "use_patterns";
  rag_reason ← DecisionEngine.decision_getitem decision "rag_reason";
  rag_confidence ← DecisionEngine.decision_getitem decision "rag_confidence";
  has_weaknesses ← DecisionEngine.decision_getitem decision "has_weaknesses";
  last_reload_check ←
    DecisionEngine.decision_getitem decision "last_reload_check";
  mret {| use_patterns := use_patterns;
          r_rag_reason := rag_reason;
          r_rag_confidence := rag_confidence;
          r_weakness_patterns := weakness_patterns;
          r_has_weaknesses := has_weaknesses;
          r_last_reload_check := last_reload_check |}.

(** POST /api/v1/route *)
Definition route_question
    (settings : RouterSettings) (w : DecisionEngine.World)
    (_decision_engine : option DecisionEngine.t) (request : RouteRequest)
    : option DecisionEngine.t * http RouteResponse :=
  let '(_decision_engine, engine) :=
    DecisionEngine.get_decision_engine w _decision_engine in
  match engine with
  | Raise e => (_decision_engine, HTTPException 500 (str e))
  | Ok engine =>
    let '(engine, decision) :=
      DecisionEngine.get_routing_decision settings w engine
        (rq_question request) (rq_entity_type request)
        (min_confidence_or_default (rq_min_confidence request))
        (ENABLE_HOT_RELOAD settings) in
    (Some engine, or_500 (decision ← decision; route_response decision))
  end.

(** POST /api/v1/prompt; [min_confidence] is left to its default. *)
Definition get_enhanced_prompt
    (settings : RouterSettings) (w : DecisionEngine.World)
    (_decision_engine : option DecisionEngine.t) (request : PromptRequest)
    : option DecisionEngine.t * http PromptResponse :=
  let '(_decision_engine, engine) :=
    DecisionEngine.get_decision_engine w _decision_engine in
  match engine with
  | Raise e => (_decision_engine, HTTPException 500 (str e))
  | Ok engine =>
    let '(engine, decision) :=
      DecisionEngine.get_routing_decision settings w engine
        (pq_question request) (pq_entity_type request) 0.70%Q
        (ENABLE_HOT_RELOAD settings) in
    (Some engine,
     or_500 (
       decision ← decision;
       patterns ←
         DecisionEngine.decision_getitem decision "weakness_patterns"
         ≫= DecisionEngine.iter_matches;
       let enhanced_prompt :=
         PromptBuilder.build_prompt (pq_base_prompt request)
           (Some (map PromptBuilder.of_match patterns)) None in
       routing_response ← route_response decision;
       use_patterns ←
         DecisionEngine.decision_getitem decision "use_patterns";
       applied ←
         DecisionEngine.decision_getitem decision "weakness_patterns"
         ≫= DecisionEngine.len;
       mret {| enhanced_prompt := enhanced_prompt;
               p_use_patterns := use_patterns;
               weakness_patterns_applied := applied;
               routing_decision := routing_response |}))
  end.

(** GET /api/v1/health: an exception is answered, not raised. *)
Definition health_check
    (settings : RouterSettings) (w : DecisionEngine.World)
    (_decision_engine : option DecisionEngine.t)
    : option DecisionEngine.t * HealthResponse :=
  let '(_decision_engine, engine) :=
    DecisionEngine.get_decision_engine w _decision_engine in
  let answer : result HealthResponse :=
    engine ← engine;
    stats ← DecisionEngine.get_stats engine;
    let status :=
      if (DecisionEngine.total_entities stats =? 0)%nat
         || (DecisionEngine.s_weakness_patterns stats =? 0)%nat
      then u "degraded" else u "healthy" in
    mret {| status := status;
            version := u "1.0.0";
            h_entities_loaded := DecisionEngine.total_entities stats;
            h_weaknesses_loaded := DecisionEngine.s_weakness_patterns stats;
            hot_reload_enabled := ENABLE_HOT_RELOAD settings;
            h_last_reload_check := DecisionEngine.s_last_reload_check stats |}
  in
  (_decision_engine,
   match answer with
   | Ok response => response
   | Raise _ =>
     {| status := u "unhealthy";
        version := u "1.0.0";
        h_entities_loaded := 0;
        h_weaknesses_loaded := 0;
        hot_reload_enabled := false;
        h_last_reload_check := DecisionEngine.now w |}
   end).

(** POST /api/v1/reload *)
Definition force_reload
    (w : DecisionEngine.World) (_decision_engine : option DecisionEngine.t)
    : option DecisionEngine.t * http ReloadResponse :=
  let '(_decision_engine, engine) :=
    DecisionEngine.get_decision_engine w _decision_engine in
  match engine with
  | Raise e => (_decision_engine, HTTPException 500 (str e))
  | Ok engine =>
    (* check for updates: the engine is the global object *)
    match DecisionEngine.check_for_updates w engine with
    | (engine, Raise e) => (Some engine, HTTPException 500 (str e))
    | (engine, Ok reloaded) =>
      let _decision_engine := Some engine in
      (* if no updates detected, force reload anyway *)
      let '(_decision_engine, fresh, reloaded) :=
        if negb reloaded then
          let '(g, engine) :=
            DecisionEngine.reload_decision_engine w _decision_engine in
          (g, engine, true)
        else (_decision_engine, Ok engine, reloaded) in
      (_decision_engine,
       or_500 (
         engine ← fresh;
         stats ← DecisionEngine.get_stats engine;
         mret {| reloaded := reloaded;
                 message := if reloaded
                            then u "Data reloaded successfully"
                            else u "No updates detected";
                 entities_loaded := DecisionEngine.total_entities stats;
                 weaknesses_loaded :=
                   DecisionEngine.s_weakness_patterns stats;
                 timestamp := DecisionEngine.now w |}))
    end
  end.

(** *** The chat completion endpoint

    The LLM client is outside the program: [llm request enhanced_messages]
    stands for [get_llm_client()] followed by [async_chat_completion],
    and answers or raises.  [A] is what the service sends back; the
    request fields that only the LLM client reads are left out. *)

Inductive Role : Type := system | user | assistant.

#[global] Instance Role_eq_dec : EqDecision Role.
Proof. solve_decision. Defined.

Record ChatMessage : Type := {
  role : Role;
  content : pystr;
  name : option pystr
}.

Record ChatCompletionRequest : Type := {
  model : pystr;
  messages : list ChatMessage;
  stream : option bool;
  x_entity_type : option pystr;
  x_min_confidence : option Q;
  x_disable_routing : option bool;
  x_disable_weaknesses : option bool
}.

Record ChatCompletionResponse (A : Type) : Type := {
  body : A;
  x_routing_decision : option DecisionEngine.Decision;
  x_enhanced_prompt_used : option bool
}.
Arguments body {A} c.
Arguments x_routing_decision {A} c.
Arguments x_enhanced_prompt_used {A} c.

Definition llm_client (A : Type) : Type :=
  ChatCompletionRequest → option (list ChatMessage)
  → result (ChatCompletionResponse A).

(** What the endpoint returns: a completion, or the streaming response
    wrapped around [async_chat_completion_stream] with its arguments
    (the generator has not run yet). *)
Inductive ChatResult (A : Type) : Type :=
  | Completion (response : ChatCompletionResponse A)
  | StreamingResponse (request : ChatCompletionRequest)
      (enhanced_messages : option (list ChatMessage))
      (routing_decision : option DecisionEngine.Decision).
Arguments Completion {A} response.
Arguments StreamingResponse {A} request enhanced_messages routing_decision.

(** Truth value of an optional flag, and of a value of the decision. *)
Definition truthy_flag (b : option bool) : bool := default false b.

Definition truthy (v : DecisionEngine.pyval) : bool :=
  match v with
  | DecisionEngine.VBool b => b
  | DecisionEngine.VStr s => negb (bool_decide (s = []))
  | DecisionEngine.VFloat x => negb (Qeq_bool x 0)
  | DecisionEngine.VMatches ms => truthy_list ms
  end.

(** [[m for m in request.messages if m.role == "user"]], then
    [user_messages[-1].content]; [None] when there is no user message. *)
Definition user_messages (request : ChatCompletionRequest)
    : list ChatMessage :=
  List.filter (λ m, bool_decide (role m = user)) (messages request).

(** [next((i for i, m in enumerate(...) if m.role == "system"), None)] *)
Definition system_message_idx (request : ChatCompletionRequest)
    : option nat :=
  fst <$> List.find (λ im, bool_decide (role im.2 = system))
                    (imap pair (messages request)).

(** The enhanced messages, built by both handlers in the same way: the
    enhanced system prompt first, then the messages that are not system
    messages. *)
Definition enhance (request : ChatCompletionRequest)
    (weakness_patterns : DecisionEngine.pyval) : result (list ChatMessage) :=
  base_prompt ←
    match system_message_idx request with
    | Some i =>
      match py_index (messages request) (Z.of_nat i) with
      | Some m => Ok (Some (content m))
      | None => Raise IndexError
      end
    | None => Ok None
    end;
  patterns ← DecisionEngine.iter_matches weakness_patterns;
  let enhanced_system_prompt :=
    PromptBuilder.build_prompt base_prompt
      (Some (map PromptBuilder.of_match patterns)) None in
  mret ({| role := system; content := enhanced_system_prompt;
           name := None |}
        :: List.filter (λ m, negb (bool_decide (role m = system)))
                       (messages request)).

(** [if not request.x_disable_weaknesses and decision['weakness_patterns']] *)
Definition enhanced_messages_for (request : ChatCompletionRequest)
    (decision : DecisionEngine.Decision)
    : result (option (list ChatMessage)) :=
  if negb (truthy_flag (x_disable_weaknesses request)) then
    weakness_patterns ←
      DecisionEngine.decision_getitem decision "weakness_patterns";
    if truthy weakness_patterns then
      enhanced_messages ← enhance request weakness_patterns;
      mret (Some enhanced_messages)
    else mret None
  else mret None.

Definition _handle_streaming_completion {A}
    (settings : RouterSettings) (w : DecisionEngine.World)
    (_decision_engine : option DecisionEngine.t)
    (request : ChatCompletionRequest)
    : option DecisionEngine.t * http (ChatResult A) :=
  if negb (truthy_list (user_messages request)) then
    (_decision_engine, HTTPException 400 (text "No user message found"))
  else
  match py_index (user_messages request) (-1) with
  | None => (_decision_engine, HTTPException 500 (str IndexError))
  | Some last_user =>
    let question := content last_user in
    if negb (truthy_flag (x_disable_routing request)) then
      let '(_decision_engine, engine) :=
        DecisionEngine.get_decision_engine w _decision_engine in
      match engine with
      | Raise e => (_decision_engine, HTTPException 500 (str e))
      | Ok engine =>
        let '(engine, decision) :=
          DecisionEngine.get_routing_decision settings w engine question
            (x_entity_type request)
            (min_confidence_or_default (x_min_confidence request))
            (ENABLE_HOT_RELOAD settings) in
        (Some engine,
         or_500 (
           decision ← decision;
           enhanced_messages ← enhanced_messages_for request decision;
           mret (StreamingResponse request enhanced_messages
                                   (Some decision))))
      end
    else
      (_decision_engine, Response (StreamingResponse request None None))
  end.

(** POST /v1/chat/completions *)
Definition chat_completions {A} (llm : llm_client A)
    (settings : RouterSettings) (w : DecisionEngine.World)
    (_decision_engine : option DecisionEngine.t)
    (request : ChatCompletionRequest)
    : option DecisionEngine.t * http (ChatResult A) :=
  (* handle streaming separately *)
  if truthy_flag (stream request) then
    _handle_streaming_completion settings w _decision_engine request
  (* disable routing if requested *)
  else if truthy_flag (x_disable_routing request) then
    (_decision_engine,
     or_500 (
       response ← llm request None;
       mret (Completion {| body := body response;
                           x_routing_decision := None;
                           x_enhanced_prompt_used := Some false |})))
  else
    (* step 1: the last user message *)
    if negb (truthy_list (user_messages request)) then
      (_decision_engine, HTTPException 400 (text "No user message found"))
    else
    match py_index (user_messages request) (-1) with
    | None => (_decision_engine, HTTPException 500 (str IndexError))
    | Some last_user =>
      let question := content last_user in
      (* step 2: the routing decision *)
      let '(_decision_engine, engine) :=
        DecisionEngine.get_decision_engine w _decision_engine in
      match engine with
      | Raise e => (_decision_engine, HTTPException 500 (str e))
      | Ok engine =>
        let '(engine, decision) :=
          DecisionEngine.get_routing_decision settings w engine question
            (x_entity_type request)
            (min_confidence_or_default (x_min_confidence request))
            (ENABLE_HOT_RELOAD settings) in
        (Some engine,
         or_500 (
           decision ← decision;
           (* the log line reads three keys *)
           _ ← DecisionEngine.decision_getitem decision "use_patterns";
           _ ← DecisionEngine.decision_getitem decision "rag_confidence";
           _ ← DecisionEngine.decision_getitem decision "weakness_patterns"
               ≫= DecisionEngine.len;
           (* step 3: the enhanced prompt *)
           enhanced_messages ← enhanced_messages_for request decision;
           (* step 4: the LLM *)
           response ← llm request enhanced_messages;
           (* step 5: the routing metadata *)
           mret (Completion
                   {| body := body response;
                      x_routing_decision := Some decision;
                      x_enhanced_prompt_used :=
                        Some (bool_decide (is_Some enhanced_messages)) |})))
      end
    end.

End RouterApi.

(** * Reference definitions

    The properties below compare the code with these definitions, which
    follow the wording of the specification. *)

Section Reference.
Import WeaknessMatcher.

(** The score as the specification words it: the entity-type signal,
    plus the weighted fractions of keywords and of question patterns
    found in the question; a fraction is [0] when the list is empty or
    nothing in it occurs.  The formula is evaluated in floats, from left
    to right. *)
Definition spec_fraction (xs : list pystr) (question : pystr) : spec_float :=
  let total := length xs in
  let matched := length (filter (λ x, str_in x question = true) xs) in
  if (total =? 0)%nat || (matched =? 0)%nat then float.zero
  else float.truediv (Z.of_nat matched) (Z.of_nat total).

Definition spec_entity_signal
    (entity_type : option pystr) (entity_types : list pystr) : spec_float :=
  match entity_type with
  | Some (c :: s) => if bool_decide ((c :: s) ∈ entity_types)
                     then float.of_Q 0.30 else float.zero
  | _ => float.zero
  end.

Definition spec_match_score
    (question : pystr) (weakness : Weakness) (entity_type : option pystr)
    : spec_float :=
  let tr := default no_triggers (triggers weakness) in
  float.add
    (float.add
       (spec_entity_signal entity_type (default [] (entity_types tr)))
       (float.mul (float.of_Q 0.40)
          (float.min (float.of_Q 1)
             (spec_fraction (default [] (keywords tr)) question))))
    (float.mul (float.of_Q 0.30)
       (float.min (float.of_Q 1)
          (spec_fraction (default [] (question_patterns tr)) question))).

(** A float that is zero, finite or infinite with the sign [s]: not a
    NaN. *)
Definition has_sign (s : bool) (x : spec_float) : Prop :=
  match x with
  | S754_zero s' | S754_infinity s' | S754_finite s' _ _ => s' = s
  | S754_nan => False
  end.

(** The order of the floats of one sign, read off three integers. *)
Definition rank (x : spec_float) : Z * Z * Z :=
  match x with
  | S754_zero _ => (0, 0, 0)
  | S754_finite _ m e => (1, e, Z.pos m)
  | S754_infinity _ => (2, 0, 0)
  | S754_nan => (3, 0, 0)
  end.

Definition lex_lt (a b : Z * Z * Z) : Prop :=
  a.1.1 < b.1.1
  ∨ (a.1.1 = b.1.1
     ∧ (a.1.2 < b.1.2 ∨ (a.1.2 = b.1.2 ∧ a.2 < b.2))).

(** A table entry that has every key read with [weakness[...]]. *)
Definition complete (w : Weakness) : Prop :=
  is_Some (weakness_id w) ∧ is_Some (category w)
  ∧ is_Some (subcategory w) ∧ is_Some (description w)
  ∧ is_Some (severity w) ∧ is_Some (frequency w)
  ∧ is_Some (prompt_addition w).

(** The entry a complete weakness contributes to [matches]. *)
Definition match_of (question : pystr) (entity_type : option pystr)
    (w : Weakness) : Match :=
  {| m_weakness_id := default [] (weakness_id w);
     m_category := default [] (category w);
     m_subcategory := default [] (subcategory w);
     m_description := default [] (description w);
     m_severity := default [] (severity w);
     m_frequency := default 0%Q (frequency w);
     m_prompt_addition := default [] (prompt_addition w);
     match_score := _calculate_match_score question w entity_type |}.

(** The weaknesses that are kept: frequency not below the minimum and
    a score different from [0]. *)
Definition survives (question : pystr) (entity_type : option pystr)
    (min_frequency : Q) (w : Weakness) : bool :=
  Qle_bool min_frequency (default 0%Q (frequency w))
  && negb (float.eqb (_calculate_match_score question w entity_type)
                     float.zero).

(** The descending order on the sort key [(match_score, frequency)]:
    [a] may stand before [b]. *)
Definition key_ge (a b : Match) : Prop :=
  float.ltb (match_score b) (match_score a) = true
  ∨ (float.eqb (match_score a) (match_score b) = true
     ∧ (m_frequency b <= m_frequency a)%Q).

(** A match whose score is a float of the sign [false]. *)
Definition scored (m : Match) : Prop := has_sign false (match_score m).

(** The first step of [get_routing_decision]: the engine after the
    optional hot-reload check. *)
Definition after_reload (settings : RouterSettings)
    (w : DecisionEngine.World) (self : DecisionEngine.t)
    (auto_reload : bool) : DecisionEngine.t * result bool :=
  if auto_reload && ENABLE_HOT_RELOAD settings
  then DecisionEngine.check_for_updates w self
  else (self, Ok false).

(** A data file that is missing or does not parse. *)
Definition unreadable {A} (f : option (file A)) : Prop :=
  match f with
  | None => True
  | Some f => file_contents f = Unparseable
  end.

(** The invariant of the pattern store: as many index rows as patterns. *)
Definition consistent (self : PatternStorage.t) : Prop :=
  PatternStorage.row_count self = length (PatternStorage.patterns self).

(** The stores a process can hold: the empty store of a first start,
    changed by any sequence of calls, each with any provider answers,
    any outcome of the writes, any heap and any disk. *)
Inductive reachable : PatternStorage.t → Prop :=
  | reach_empty threshold e :
      reachable (PatternStorage.empty_store threshold e)
  | reach_add_pattern get_embedding o self h disk pattern :
      reachable self →
      reachable (PatternStorage.add_pattern get_embedding o self h disk
                                            pattern).1.1
  | reach_add_patterns_batch get_embedding o self h disk new_patterns :
      reachable self →
      reachable (PatternStorage.add_patterns_batch get_embedding o self h
                                                   disk new_patterns).1.1
  | reach_retrieve_relevant np get_embedding self h question k category
                            min_severity threshold :
      reachable self →
      reachable (PatternStorage.retrieve_relevant np get_embedding self h
                   question k category min_severity threshold).1.1.

(** What [retrieve_relevant] returns for a candidate [(idx, distance)] of
    the index that it accepts: a reference [r], not on the heap [h]
    before the call, to a copy of the stored pattern at position [idx]
    with [relevance_score] set to the relevance of [distance], the copy
    passing the three filters.  [h'] is the heap after the call. *)
Definition result_of (np : numpy) (self : PatternStorage.t)
    (h h' : gmap nat PatternStorage.Pattern)
    (threshold : Q) (category : option pystr) (level : Z)
    (r : nat) (c : Z * Q) : Prop :=
  h !! r = None
  ∧ ∃ l original,
      PatternStorage.patterns self !! Z.to_nat
        (if 0 <=? c.1 then c.1
         else Z.of_nat (length (PatternStorage.patterns self)) + c.1)
      = Some l
      ∧ h' !! l = Some original
      ∧ h' !! r = Some (PatternStorage.set_relevance_score original
                          (PatternStorage.relevance np c.2))
      ∧ PatternStorage.accepted threshold category level
          (PatternStorage.set_relevance_score original
             (PatternStorage.relevance np c.2)) = true.

(** The filters, as the specification words them, on a stored pattern
    and the distance the index found for it.  With a threshold above 0,
    the relevance of the distance is not below the threshold. *)
Definition passes_threshold (np : numpy) (threshold : Q) (distance : Q)
    : Prop :=
  float.ltb float.zero (float.of_Q threshold) = true →
  float.ltb (PatternStorage.relevance np distance) (float.of_Q threshold)
  = false.

(** With a category requested, the pattern has no category, or the
    category 'general', or the one requested. *)
Definition passes_category (category : option pystr)
    (p : PatternStorage.Pattern) : Prop :=
  match category with
  | Some (c :: wanted) =>
    PatternStorage.category p = None
    ∨ PatternStorage.category p = Some (u "general")
    ∨ PatternStorage.category p = Some (c :: wanted)
  | _ => True
  end.

Definition passes_severity (min_severity : pystr)
    (p : PatternStorage.Pattern) : Prop :=
  PatternStorage.severity_level min_severity
  <= PatternStorage.severity_level
       (default (u "minor") (PatternStorage.severity p)).

Definition passes (np : numpy) (threshold : Q) (category : option pystr)
    (min_severity : pystr) (row : PatternStorage.Pattern * Q) : Prop :=
  passes_threshold np threshold row.2
  ∧ passes_category category row.1
  ∧ passes_severity min_severity row.1.

#[global] Instance passes_dec np threshold category min_severity row :
  Decision (passes np threshold category min_severity row).
Proof.
  unfold passes, passes_threshold, passes_category, passes_severity.
  destruct category as [[|c wanted]|]; apply _.
Defined.

(** The stored pattern a candidate stands for, with the candidate's
    distance: the label is a position in the pattern list, counted from
    the end when negative; a label past the list stands for nothing. *)
Definition row_of (self : PatternStorage.t)
    (h : gmap nat PatternStorage.Pattern) (c : Z * Q)
    : option (PatternStorage.Pattern * Q) :=
  if c.1 <? Z.of_nat (length (PatternStorage.patterns self)) then
    l ← py_index (PatternStorage.patterns self) c.1;
    p ← h !! l;
    Some (p, c.2)
  else None.

(** The copy returned for a row: the stored pattern with its score. *)
Definition scored_copy (np : numpy) (row : PatternStorage.Pattern * Q)
    : PatternStorage.Pattern :=
  PatternStorage.set_relevance_score
    row.1 (PatternStorage.relevance np row.2).

(** What a retrieval returns, as the specification words it: of the
    candidates, in their order, the first [k] that pass the filters. *)
Definition kept_rows (np : numpy) (self : PatternStorage.t)
    (h : gmap nat PatternStorage.Pattern) (threshold : Q)
    (category : option pystr) (min_severity : pystr) (k : Z)
    (candidates : list (Z * Q)) : list (PatternStorage.Pattern * Q) :=
  take (Z.to_nat k)
       (filter (passes np threshold category min_severity)
               (omap (row_of self h) candidates)).

(** A slot returned by [faiss.search] that stands for a stored row: its
    label is the position of a row of the index and its distance is the
    squared L2 distance from the query to that row. *)
Definition valid_slot (index : faiss.IndexFlatL2) (q : faiss.vector)
    (slot : Q * Z) : Prop :=
  0 <= slot.2
  ∧ ∃ x, faiss.xb index !! Z.to_nat slot.2 = Some x
         ∧ slot.1 = faiss.sqdist q x.

Definition dist_le (a b : Q * Z) : Prop := (a.1 <= b.1)%Q.

(** The candidates of one retrieval, in the order the index returns
    them: pairs of a label and a distance; none when the store has no
    index or the embedding or the search fails. *)
Definition search_candidates (get_embedding : Embedder.provider)
    (self : PatternStorage.t) (question : pystr) (k : Z) : list (Z * Q) :=
  match PatternStorage.index self with
  | None => []
  | Some index0 =>
    match (Embedder.embed get_embedding (PatternStorage.embedder self)
                          question).2 with
    | Raise _ => []
    | Ok query =>
      match faiss.search index0 query
              (Z.min (k * 3)
                     (Z.of_nat (length (PatternStorage.patterns self)))) with
      | Raise _ => []
      | Ok (distances, indices) => zip indices distances
      end
    end
  end.

(** The threshold a call works with. *)
Definition effective_threshold (self : PatternStorage.t)
    (threshold : option Q) : Q :=
  match threshold with
  | Some x => x
  | None => default 0%Q (PatternStorage.RAG_RELEVANCE_THRESHOLD self)
  end.

(** A search result that stands for a stored row: its metadata and text
    are those of some row [i] of the store, and its distance is the
    distance from the query to the vector of that row. *)
Definition row_result (self : VectorStore.t) (index0 : faiss.IndexFlatL2)
    (query : faiss.vector) (r : VectorStore.Result) : Prop :=
  ∃ i x,
    VectorStore.metadata self !! i = Some (VectorStore.meta r)
    ∧ VectorStore.texts self !! i = Some (VectorStore.content r)
    ∧ faiss.xb index0 !! i = Some x
    ∧ VectorStore.distance r == faiss.sqdist query x.

(** The conditions of the cascade, in the order they are tried. *)
Definition exact_match (self : DecisionEngine.t) (question : pystr) : Prop :=
  ∃ e, e ∈ DecisionEngine.all_entities_set self ∧ str_in e question = true.

Definition ood_match (self : DecisionEngine.t) (question : pystr) : Prop :=
  ∃ kw, kw ∈ DecisionEngine.ood_keywords self ∧ str_in kw question = true.

Definition prefix_match (self : DecisionEngine.t) (question : pystr) : Prop :=
  ∃ e, e ∈ DecisionEngine.all_entities_set self ∧ (3 <= length e)%nat
       ∧ str_in (take 3 e) question = true
       ∧ take 3 e ∉ map u ["检查"; "手术"; "疫苗"]%string.

(** A category keyword set is matched when one of its keywords occurs in
    the question; the matched sets are counted one per set, in the order
    of the table. *)
Definition keyword_set_matched (question : pystr)
    (entry : pystr * list pystr) : Prop :=
  Exists (λ kw, str_in kw question = true) entry.2.

#[global] Instance keyword_set_matched_dec question entry :
  Decision (keyword_set_matched question entry).
Proof. unfold keyword_set_matched. apply _. Defined.

Definition matched_sets (self : DecisionEngine.t) (question : pystr)
    : list (pystr * list pystr) :=
  filter (keyword_set_matched question)
         (DecisionEngine.category_keywords self).

End Reference.

(** * Sample data

    Concrete inputs on which the properties below are exercised. *)

Definition sample_question : pystr := u "糖尿病有什么症状".

(** The weakness of the specification's scenario. *)
Definition sample_W1 : WeaknessMatcher.Weakness :=
  {| WeaknessMatcher.weakness_id := Some (u "W1");
     WeaknessMatcher.category := Some (u "diseases");
     WeaknessMatcher.subcategory := Some (u "symptoms");
     WeaknessMatcher.description := Some (u "incomplete symptom list");
     WeaknessMatcher.severity := Some (u "major");
     WeaknessMatcher.frequency := Some 0.5%Q;
     WeaknessMatcher.prompt_addition := Some (u "list every symptom");
     WeaknessMatcher.triggers :=
       Some {| WeaknessMatcher.entity_types := None;
               WeaknessMatcher.keywords := Some [u "糖尿病"];
               WeaknessMatcher.question_patterns := None |} |}.

Definition sample_W2 : WeaknessMatcher.Weakness :=
  {| WeaknessMatcher.weakness_id := Some (u "W2");
     WeaknessMatcher.category := Some (u "diseases");
     WeaknessMatcher.subcategory := Some (u "treatment");
     WeaknessMatcher.description := Some (u "vague treatment advice");
     WeaknessMatcher.severity := Some (u "minor");
     WeaknessMatcher.frequency := Some 0.3%Q;
     WeaknessMatcher.prompt_addition := Some (u "name the treatment");
     WeaknessMatcher.triggers :=
       Some {| WeaknessMatcher.entity_types := Some [u "diseases"];
               WeaknessMatcher.keywords := Some [u "症状"; u "治疗"];
               WeaknessMatcher.question_patterns := Some [u "怎么办"] |} |}.

Definition sample_matcher : WeaknessMatcher.t :=
  {| WeaknessMatcher.weaknesses := [sample_W2; sample_W1] |}.

(** An entity file with one disease and no weakness file. *)
Definition sample_world : DecisionEngine.World :=
  {| DecisionEngine.entity_file :=
       Some {| file_mtime := 1;
               file_contents :=
                 Object [(u "diseases", DecisionEngine.Names [u "糖尿病"])] |};
     DecisionEngine.weakness_file := None;
     DecisionEngine.now := 5 |}.

(** An engine over the sample weakness table, with one entity. *)
Definition sample_engine : DecisionEngine.t :=
  {| DecisionEngine.entities_by_category :=
       DecisionEngine.EntityDict
         [(u "diseases", DecisionEngine.Names [u "糖尿病"])];
     DecisionEngine.all_entities_set := [u "糖尿病"];
     DecisionEngine.weakness_matcher := sample_matcher;
     DecisionEngine._entity_mtime := 1;
     DecisionEngine._weakness_mtime := 0;
     DecisionEngine._last_reload_check := 5;
     DecisionEngine.category_keywords := DecisionEngine.the_category_keywords;
     DecisionEngine.ood_keywords := DecisionEngine.the_ood_keywords |}.

(** Neither data file exists. *)
Definition bare_world : DecisionEngine.World :=
  {| DecisionEngine.entity_file := None;
     DecisionEngine.weakness_file := None;
     DecisionEngine.now := 0 |}.

(** A provider that embeds a text by its length, a provider that always
    fails, and an embedder with an empty cache. *)
Definition sample_provider : Embedder.provider :=
  λ text, Ok [inject_Z (Z.of_nat (length text)); 0%Q].

Definition failing_provider : Embedder.provider :=
  λ _, Raise ProviderError.

Definition sample_embedder : Embedder.t :=
  {| Embedder.cache := ∅;
     Embedder.USE_EMBEDDING_CACHE := true;
     Embedder.EMBEDDING_DIMENSION := 2 |}.

Definition sample_pattern (description category severity : string)
    : PatternStorage.Pattern :=
  {| PatternStorage.description := Some (u description);
     PatternStorage.guideline := Some (u "check the reference");
     PatternStorage.category := Some (u category);
     PatternStorage.error_type := Some (u "incomplete");
     PatternStorage.severity := Some (u severity);
     PatternStorage.frequency := Some 2;
     PatternStorage.examples := Some [];
     PatternStorage.id := None;
     PatternStorage.relevance_score := None |}.

(** Three pattern dicts, at references 0, 1 and 2. *)
Definition sample_heap : gmap nat PatternStorage.Pattern :=
  {[ 0%nat := sample_pattern "dose" "vaccines" "major";
     1%nat := sample_pattern "wound care" "surgeries" "critical";
     2%nat := sample_pattern "see a doctor soon" "general" "minor" ]}.

Definition empty_disk : PatternStorage.Disk :=
  {| PatternStorage.patterns_file := None;
     PatternStorage.index_file := None |}.

(** The store, heap and disk after the three patterns are added in one
    batch to an empty store. *)
Definition sample_added
    : PatternStorage.t * gmap nat PatternStorage.Pattern
      * PatternStorage.Disk :=
  PatternStorage.add_patterns_batch sample_provider PatternStorage.WritesSucceed
    (PatternStorage.empty_store None sample_embedder) sample_heap empty_disk
    [0; 1; 2]%nat.

Definition sample_store : PatternStorage.t := sample_added.1.1.
Definition sample_store_heap : gmap nat PatternStorage.Pattern :=
  sample_added.1.2.

(** The heap of the sample store with a fourth dict, at reference 3,
    whose description has not been embedded yet. *)
Definition sample_heap_4 : gmap nat PatternStorage.Pattern :=
  <[3%nat := sample_pattern "rest" "general" "minor"]> sample_store_heap.

(** The fourth dict is added while the index file cannot be written:
    the pattern file then lists four patterns and the index file holds
    the three rows written before. *)
Definition sample_after_failed_write
    : PatternStorage.t * gmap nat PatternStorage.Pattern
      * PatternStorage.Disk :=
  PatternStorage.add_pattern sample_provider
    (PatternStorage.IndexWriteFails false) sample_store sample_heap_4
    sample_added.2 3%nat.

(** The process is started again and finds these two files. *)
Definition sample_restarted
    : option (PatternStorage.t * gmap nat PatternStorage.Pattern) :=
  PatternStorage.__init__ None sample_embedder
    sample_after_failed_write.1.2 sample_after_failed_write.2.

(** A vector store built from one entity. *)
Definition sample_vector_store : VectorStore.t :=
  (VectorStore.build sample_provider
     {| VectorStore.embedder := sample_embedder;
        VectorStore.dimension := 2;
        VectorStore.index := None;
        VectorStore.metadata := [];
        VectorStore.texts := [] |}
     [(u "diabetes", [(u "type", u "diseases")])]).1.

(** The weakness file has been rewritten since [sample_engine] loaded
    it; the entity file is as before. *)
Definition updated_world : DecisionEngine.World :=
  {| DecisionEngine.entity_file :=
       Some {| file_mtime := 1;
               file_contents :=
                 Object [(u "diseases", DecisionEngine.Names [u "糖尿病"])] |};
     DecisionEngine.weakness_file :=
       Some {| file_mtime := 7;
               file_contents :=
                 Object (Some (WeaknessMatcher.Table [sample_W1])) |};
     DecisionEngine.now := 8 |}.

(** The weakness file has been rewritten with [null] for its table. *)
Definition null_table_world : DecisionEngine.World :=
  {| DecisionEngine.entity_file :=
       Some {| file_mtime := 1;
               file_contents :=
                 Object [(u "diseases", DecisionEngine.Names [u "糖尿病"])] |};
     DecisionEngine.weakness_file :=
       Some {| file_mtime := 7;
               file_contents := Object (Some WeaknessMatcher.NoLen) |};
     DecisionEngine.now := 8 |}.

(** The entity file has been replaced by a JSON array. *)
Definition broken_world : DecisionEngine.World :=
  {| DecisionEngine.entity_file :=
       Some {| file_mtime := 9; file_contents := NotAnObject |};
     DecisionEngine.weakness_file := None;
     DecisionEngine.now := 10 |}.

(** A chat request with a system and a user message, and an LLM
    service that always answers. *)
Definition sample_chat_request (stream : bool)
    : RouterApi.ChatCompletionRequest :=
  {| RouterApi.model := u "deepseek-chat";
     RouterApi.messages :=
       [ {| RouterApi.role := RouterApi.system;
            RouterApi.content := u "Be brief.";
            RouterApi.name := None |};
         {| RouterApi.role := RouterApi.user;
            RouterApi.content := sample_question;
            RouterApi.name := None |} ];
     RouterApi.stream := Some stream;
     RouterApi.x_entity_type := None;
     RouterApi.x_min_confidence := None;
     RouterApi.x_disable_routing := None;
     RouterApi.x_disable_weaknesses := None |}.

Definition sample_llm : RouterApi.llm_client pystr :=
  λ _ _, Ok {| RouterApi.body := u "ok";
               RouterApi.x_routing_decision := None;
               RouterApi.x_enhanced_prompt_used := None |}.

(** * Properties *)

(** ** Comparisons and strings *)

Lemma Qltb_lt x y : Qltb x y = true ↔ (x < y)%Q.
Proof.
  unfold Qltb. rewrite negb_true_iff, <- not_true_iff_false, Qle_bool_iff.
  split; [apply Qnot_le_lt | apply Qlt_not_le].
Qed.

Lemma Qltb_ge x y : Qltb x y = false ↔ (y <= x)%Q.
Proof.
  unfold Qltb. rewrite negb_false_iff. apply Qle_bool_iff.
Qed.

Lemma starts_with_spec p s :
  starts_with p s = true ↔ ∃ post, s = p ++ post.
Proof.
  revert s. induction p as [|c p IH]; intros s; simpl.
  - split; eauto.
  - destruct s as [|d s].
    + split; [discriminate | intros [post H]; discriminate].
    + rewrite andb_true_iff, N.eqb_eq, IH. split.
      * intros [-> [post ->]]. eauto.
      * intros [post H]. simplify_eq. eauto.
Qed.

Lemma str_in_spec needle hay :
  str_in needle hay = true ↔ ∃ pre post, hay = pre ++ needle ++ post.
Proof.
  induction hay as [|c hay IH]; simpl; rewrite orb_true_iff, starts_with_spec.
  - split.
    + intros [[post H]|?]; [|discriminate]. exists [], post. done.
    + intros (pre & post & H). left.
      destruct pre; [eauto | discriminate].
  - rewrite IH. split.
    + intros [[post H]|(pre & post & ->)].
      * exists [], post. done.
      * exists (c :: pre), post. done.
    + intros (pre & post & H). destruct pre as [|c' pre]; simpl in H.
      * left. eauto.
      * right. simplify_eq. eauto.
Qed.

Lemma str_in_empty hay : str_in [] hay = true.
Proof. destruct hay; reflexivity. Qed.

Lemma slice_to_length {A} (l : list A) (stop : Z) :
  0 <= stop → Z.of_nat (length (slice_to l stop)) <= stop.
Proof.
  intros H. unfold slice_to.
  destruct (Z.leb_spec 0 stop); [|lia].
  rewrite length_take. lia.
Qed.

(** ** Floats: sign and order *)

Section Rounding.
Variables prec emax : Z.

Lemma shr_1_nonneg mrs : 0 <= shr_m mrs → 0 <= shr_m (shr_1 mrs).
Proof.
  destruct mrs as [m r s]. simpl.
  destruct m as [|[p|p|]|[p|p|]]; simpl; lia.
Qed.

Lemma iter_pos_shr_1_nonneg n :
  ∀ mrs, 0 <= shr_m mrs → 0 <= shr_m (SpecFloat.iter_pos shr_1 n mrs).
Proof.
  induction n as [n IH|n IH|]; intros mrs H; simpl.
  - by apply IH, IH, shr_1_nonneg.
  - by apply IH, IH.
  - by apply shr_1_nonneg.
Qed.

Lemma shr_fexp_nonneg m e l :
  0 <= m → 0 <= shr_m (shr_fexp prec emax m e l).1.
Proof.
  intros Hm. unfold shr_fexp, shr.
  assert (H0 : 0 <= shr_m (shr_record_of_loc m l))
    by (by destruct l as [|[]]).
  destruct (fexp prec emax (Zdigits2 m + e) - e); simpl; try done.
  by apply iter_pos_shr_1_nonneg.
Qed.

Lemma round_nearest_even_nonneg m l :
  0 <= m → 0 <= round_nearest_even m l.
Proof.
  intros Hm. unfold round_nearest_even.
  destruct l as [|[]]; try done; [destruct (Z.even m)|]; lia.
Qed.

(** Rounding a mantissa that is not negative does not give a NaN, and
    gives the sign it is told. *)
Lemma binary_round_aux_sign s m e l :
  0 <= m → has_sign s (binary_round_aux prec emax s m e l).
Proof.
  intros Hm. unfold binary_round_aux.
  pose proof (shr_fexp_nonneg m e l Hm) as H1.
  destruct (shr_fexp prec emax m e l) as [mrs' e'].
  simpl in H1.
  pose proof (shr_fexp_nonneg
                (round_nearest_even (shr_m mrs') (loc_of_shr_record mrs'))
                e' loc_Exact
                (round_nearest_even_nonneg _ _ H1)) as H2.
  destruct (shr_fexp prec emax (round_nearest_even _ _) e' loc_Exact)
    as [mrs'' e''].
  simpl in H2. destruct (shr_m mrs'') as [|p|p]; [done| |lia].
  by destruct (e'' <=? emax - prec).
Qed.

Lemma binary_round_sign s m e :
  has_sign s (binary_round prec emax s m e).
Proof.
  unfold binary_round. destruct (shl_align _ _ _) as [mz ez].
  by apply binary_round_aux_sign.
Qed.

Lemma div_core_sign s m1 e1 m2 e2 :
  0 <= m1 → 0 < m2 →
  has_sign s (let '(mz, ez, lz) := SFdiv_core_binary prec emax m1 e1 m2 e2 in
              binary_round_aux prec emax s mz ez lz).
Proof.
  intros H1 H2. unfold SFdiv_core_binary.
  set (e' := Z.min _ _). set (sh := e1 - e2 - e').
  set (m' := match sh with
             | 0 => m1 | Z.pos _ => Z.shiftl m1 sh | Z.neg _ => 0
             end).
  assert (Hm' : 0 <= m').
  { unfold m'. destruct sh; [lia| |lia]. by apply Z.shiftl_nonneg. }
  pose proof (Z.div_pos m' m2 Hm' H2) as Hq.
  unfold Z.div in Hq.
  destruct (Z.div_eucl m' m2) as [q r].
  by apply binary_round_aux_sign.
Qed.

Lemma rounded_quotient_sign s a b :
  has_sign s (rounded_quotient prec emax s a b).
Proof. unfold rounded_quotient. apply div_core_sign; lia. Qed.

Lemma SFadd_sign x y :
  has_sign false x → has_sign false y → has_sign false (SFadd prec emax x y).
Proof.
  destruct x as [sx|sx| |sx mx ex], y as [sy|sy| |sy my ey]; simpl;
    try done; try (by intros -> ->).
  intros -> ->. unfold SFadd. simpl. apply binary_round_sign.
Qed.

Lemma SFdiv_sign x y :
  (∃ m e, x = S754_finite false m e) → has_sign false y →
  has_sign false (SFdiv prec emax x y).
Proof.
  intros (m & e & ->) Hy.
  destruct y as [sy|sy| |sy my ey]; simpl in *; subst; try done.
  apply div_core_sign; lia.
Qed.

End Rounding.

Section FloatFacts.

Lemma quotient_sign s a b : has_sign s (float.quotient s a b).
Proof. apply rounded_quotient_sign. Qed.

Lemma truediv_sign a b : 0 <= a → 0 < b → has_sign false (float.truediv a b).
Proof.
  intros Ha Hb. unfold float.truediv.
  destruct a as [|a|a]; [| |lia]; destruct b as [|b|b]; try lia; try done.
  apply quotient_sign.
Qed.

Lemma of_Q_sign q : (0 <= q)%Q → has_sign false (float.of_Q q).
Proof.
  intros Hq. apply truediv_sign; [|lia].
  unfold Qle in Hq. simpl in Hq. lia.
Qed.

Lemma float32_of_Q_sign q : (0 <= q)%Q → has_sign false (float32.of_Q q).
Proof.
  intros Hq. unfold float32.of_Q.
  unfold Qle in Hq. simpl in Hq.
  destruct (Qnum q) as [|a|a]; [done| |lia].
  apply rounded_quotient_sign.
Qed.

Lemma to_float_sign x : has_sign false x → has_sign false (float32.to_float x).
Proof.
  destruct x as [sx|sx| |sx mx ex]; simpl; try done.
  intros ->. simpl. apply binary_round_sign.
Qed.

Lemma add_sign x y :
  has_sign false x → has_sign false y → has_sign false (float.add x y).
Proof. apply SFadd_sign. Qed.

Lemma mul_sign x y :
  (∃ m e, x = S754_finite false m e) → has_sign false y →
  has_sign false (float.mul x y).
Proof.
  intros (m & e & ->) Hy.
  destruct y as [sy|sy| |sy my ey]; simpl in *; subst; try done.
  unfold float.mul, SFmul. by apply binary_round_aux_sign.
Qed.

Lemma min_sign x y :
  has_sign false x → has_sign false y → has_sign false (float.min x y).
Proof. intros. unfold float.min. by destruct (float.ltb y x). Qed.

(** Adding [0.0] changes nothing. *)
Lemma add_zero_r x : has_sign false x → float.add x float.zero = x.
Proof. by destruct x as [[]|[]| |[] mx ex]. Qed.

Lemma mul_zero_r x :
  (∃ m e, x = S754_finite false m e) → float.mul x float.zero = float.zero.
Proof. by intros (m & e & ->). Qed.

(** Among floats of the sign [false], [0.0 < x] says that [x] is not
    zero. *)
Lemma positive_iff_nonzero x :
  has_sign false x →
  float.ltb float.zero x = negb (float.eqb x float.zero).
Proof. by destruct x as [[]|[]| |[] mx ex]. Qed.

Lemma eqb_zero x :
  has_sign false x → float.eqb x float.zero = true ↔ x = float.zero.
Proof. by destruct x as [[]|[]| |[] mx ex]. Qed.

(** A float above [0.0] has the sign [false]. *)
Lemma positive_sign x : float.ltb float.zero x = true → has_sign false x.
Proof. by destruct x as [[]|[]| |[] mx ex]. Qed.

Lemma ltb_rank x y :
  has_sign false x → has_sign false y →
  float.ltb x y = true ↔ lex_lt (rank x) (rank y).
Proof.
  unfold float.ltb, SFltb, lex_lt.
  destruct x as [sx|sx| |sx mx ex], y as [sy|sy| |sy my ey]; simpl;
    try done; intros -> ->; simpl; try (split; [done|lia]);
    try (split; [lia|done]).
  destruct (Z.compare_spec ex ey); simpl.
  - rewrite Pos.compare_cont_spec. simpl.
    destruct (Pos.compare_spec mx my); simpl; split; try done; lia.
  - split; [lia|done].
  - split; [done|lia].
Qed.

Lemma eqb_rank x y :
  has_sign false x → has_sign false y →
  float.eqb x y = true ↔ rank x = rank y.
Proof.
  unfold float.eqb, SFeqb.
  destruct x as [sx|sx| |sx mx ex], y as [sy|sy| |sy my ey]; simpl;
    try done; intros -> ->; simpl; try (split; [done|congruence]);
    try (split; congruence).
  destruct (Z.compare_spec ex ey); simpl.
  - rewrite Pos.compare_cont_spec. simpl.
    destruct (Pos.compare_spec mx my); simpl; split; try done;
      try congruence; intros [= ?]; lia.
  - split; [done|]. intros [= ?]. lia.
  - split; [done|]. intros [= ?]. lia.
Qed.

(** Among floats of the sign [false], [x <= y] says that [y < x] does
    not hold. *)
Lemma leb_not_ltb x y :
  has_sign false x → has_sign false y →
  float.leb x y = negb (float.ltb y x).
Proof.
  unfold float.leb, float.ltb, SFleb, SFltb.
  destruct x as [sx|sx| |sx mx ex], y as [sy|sy| |sy my ey]; simpl;
    try done; intros -> ->; simpl; try done.
  rewrite (Z.compare_antisym ex ey).
  destruct (Z.compare_spec ex ey); simpl; try done.
  rewrite !Pos.compare_cont_spec. simpl.
  rewrite (Pos.compare_antisym mx my).
  by destruct (Pos.compare_spec mx my).
Qed.

(** Two floats of the sign [false] are equal or one is below the other. *)
Lemma rank_total (a b : Z * Z * Z) : lex_lt a b ∨ a = b ∨ lex_lt b a.
Proof.
  destruct a as [[a1 a2] a3], b as [[b1 b2] b3]. unfold lex_lt. simpl.
  destruct (Z.lt_trichotomy a1 b1) as [?|[->|?]]; [lia| |lia].
  destruct (Z.lt_trichotomy a2 b2) as [?|[->|?]]; [lia| |lia].
  destruct (Z.lt_trichotomy a3 b3) as [?|[->|?]]; [lia| |lia].
  right; by left.
Qed.

Lemma lex_lt_trans a b c : lex_lt a b → lex_lt b c → lex_lt a c.
Proof.
  destruct a as [[a1 a2] a3], b as [[b1 b2] b3], c as [[c1 c2] c3].
  unfold lex_lt. simpl. lia.
Qed.

Lemma lex_lt_irrefl a : ¬ lex_lt a a.
Proof. destruct a as [[a1 a2] a3]. unfold lex_lt. simpl. lia. Qed.

End FloatFacts.

(** ** Weakness matcher: the score *)

Section MatchScore.
Import WeaknessMatcher.

Lemma count_matched_filter kws question :
  count_matched kws question
  = length (filter (λ x, str_in x question = true) kws).
Proof.
  unfold count_matched. induction kws as [|kw kws IH]; [done|].
  rewrite !filter_cons. destruct (str_in kw question) eqn:E.
  - rewrite decide_True by done.
    rewrite (decide_True (P := true = true)) by done. simpl. by rewrite IH.
  - rewrite decide_False by (simpl; tauto).
    rewrite (decide_False (P := false = true)) by done. done.
Qed.

Lemma count_matched_le kws question :
  (count_matched kws question <= length kws)%nat.
Proof. unfold count_matched. apply length_filter. Qed.

(** The three literals of the score. *)
Lemma weight_finite (q : Q) :
  q = 0.30%Q ∨ q = 0.40%Q ∨ q = 1%Q →
  ∃ m e, float.of_Q q = S754_finite false m e.
Proof. intros [-> | [-> | ->]]; eexists _, _; vm_compute; reflexivity. Qed.

Lemma weight_sign (q : Q) :
  q = 0.30%Q ∨ q = 0.40%Q ∨ q = 1%Q → has_sign false (float.of_Q q).
Proof. intros H. by destruct (weight_finite q H) as (m & e & ->). Qed.

Lemma min_one_zero : float.min (float.of_Q 1) float.zero = float.zero.
Proof. vm_compute. reflexivity. Qed.

Lemma spec_fraction_sign xs question :
  has_sign false (spec_fraction xs question).
Proof.
  unfold spec_fraction.
  destruct (_ || _) eqn:E; [done|].
  apply orb_false_iff in E as [E _]. apply Nat.eqb_neq in E.
  apply truediv_sign; lia.
Qed.

Lemma weighted_term_sign (w : Q) xs question :
  w = 0.30%Q ∨ w = 0.40%Q ∨ w = 1%Q →
  has_sign false
    (float.mul (float.of_Q w)
       (float.min (float.of_Q 1) (spec_fraction xs question))).
Proof.
  intros Hw. apply mul_sign; [by apply weight_finite|].
  apply min_sign; [apply weight_sign; auto|apply spec_fraction_sign].
Qed.

(** One weighted term of the code against the same term of the formula. *)
Lemma term_formula (w : Q) (score : spec_float) xs question :
  w = 0.30%Q ∨ w = 0.40%Q ∨ w = 1%Q →
  has_sign false score →
  (if truthy_list xs then
     if (0 <? count_matched xs question)%nat then
       float.add score
         (float.mul (float.of_Q w)
            (float.min (float.of_Q 1)
               (float.truediv (Z.of_nat (count_matched xs question))
                              (Z.of_nat (length xs)))))
     else score
   else score)
  = float.add score
      (float.mul (float.of_Q w)
         (float.min (float.of_Q 1) (spec_fraction xs question))).
Proof.
  intros Hw Hs. unfold spec_fraction. rewrite <- count_matched_filter.
  assert (Habsent :
    score = float.add score
              (float.mul (float.of_Q w)
                 (float.min (float.of_Q 1) float.zero))).
  { rewrite min_one_zero, mul_zero_r by (by apply weight_finite).
    by rewrite add_zero_r. }
  destruct xs as [|x xs]; cbn [truthy_list]; [exact Habsent|].
  replace (length (x :: xs) =? 0)%nat with false by done.
  cbn [orb].
  destruct (count_matched (x :: xs) question) as [|n] eqn:E.
  - exact Habsent.
  - reflexivity.
Qed.

Lemma entity_signal_formula entity_type ets :
  (if truthy_str entity_type && truthy_list ets then
     if str_in_list (default [] entity_type) ets
     then float.add float.zero (float.of_Q 0.30) else float.zero
   else float.zero)
  = spec_entity_signal entity_type ets.
Proof.
  unfold spec_entity_signal, str_in_list.
  destruct entity_type as [[|c s]|]; cbn [truthy_str andb default]; try done.
  destruct ets as [|e ets]; cbn [truthy_list].
  - rewrite bool_decide_eq_false_2; [done|]. apply not_elem_of_nil.
  - destruct (bool_decide _); [|done]. vm_compute. reflexivity.
Qed.

Lemma spec_entity_signal_sign entity_type ets :
  has_sign false (spec_entity_signal entity_type ets).
Proof.
  unfold spec_entity_signal. destruct entity_type as [[|c s]|]; try done.
  destruct (bool_decide _); [|done]. apply weight_sign. auto.
Qed.

Lemma calculate_match_score_spec question weakness entity_type :
  _calculate_match_score question weakness entity_type
  = spec_match_score question weakness entity_type.
Proof.
  unfold _calculate_match_score, spec_match_score.
  cbv zeta.
  set (tr := default no_triggers (triggers weakness)).
  rewrite entity_signal_formula.
  rewrite (term_formula 0.40 (spec_entity_signal _ _))
    by (auto using spec_entity_signal_sign).
  rewrite (term_formula 0.30); [done|auto|].
  apply add_sign; [apply spec_entity_signal_sign|].
  apply weighted_term_sign. auto.
Qed.

(** The score is never a NaN and never negative. *)
Lemma calculate_match_score_sign question weakness entity_type :
  has_sign false (_calculate_match_score question weakness entity_type).
Proof.
  rewrite calculate_match_score_spec. unfold spec_match_score.
  apply add_sign; [apply add_sign|].
  - apply spec_entity_signal_sign.
  - apply weighted_term_sign. auto.
  - apply weighted_term_sign. auto.
Qed.

(** Claim C3: the match score is the sum of the entity-type signal
    (0.30 when a non-empty entity_type is a member of
    triggers.entity_types), 0.40 times the fraction of keywords and
    0.30 times the fraction of question patterns that occur in the raw
    question as substrings, each fraction capped at 1 and taken as 0
    for an empty list or no occurrence, the formula being evaluated in
    binary64 floats from left to right; a weakness whose only trigger
    is one keyword that occurs in the question scores exactly 0.40, the
    float 7205759403792794 / 2^54. *)
Theorem calculate_match_score_formula :
  (∀ question weakness entity_type,
     _calculate_match_score question weakness entity_type
     = spec_match_score question weakness entity_type)
  ∧ (∀ question weakness entity_type tr kw,
       triggers weakness = Some tr →
       default [] (entity_types tr) = [] →
       keywords tr = Some [kw] →
       default [] (question_patterns tr) = [] →
       str_in kw question = true →
       _calculate_match_score question weakness entity_type
       = float.of_Q 0.40)
  ∧ float.of_Q 0.40 = S754_finite false 7205759403792794 (-54).
Proof.
  split; [exact calculate_match_score_spec|]. split; [|by vm_compute].
  intros question weakness entity_type tr kw Htr Hets Hkw Hpat Hin.
  rewrite calculate_match_score_spec.
  unfold spec_match_score, spec_fraction.
  rewrite Htr. cbn [from_option id]. rewrite Hets, Hkw, Hpat.
  cbn [from_option id].
  rewrite filter_cons, decide_True by done.
  assert (He : spec_entity_signal entity_type [] = float.zero).
  { unfold spec_entity_signal. by destruct entity_type as [[|c s]|]. }
  rewrite He. vm_compute. reflexivity.
Qed.

(** Rounding is part of the score: three keywords of four give
    0.30000000000000004, the float above 0.3, which is what the entity
    signal alone gives. *)
Example three_of_four_keywords :
  let w := {| weakness_id := None; category := None; subcategory := None;
              description := None; severity := None; frequency := None;
              prompt_addition := None;
              triggers :=
                Some {| entity_types := None;
                        keywords := Some [u "a"; u "b"; u "c"; u "d"];
                        question_patterns := None |} |} in
  _calculate_match_score (u "abc") w None
  = S754_finite false 5404319552844596 (-54)
  ∧ float.of_Q 0.30 = S754_finite false 5404319552844595 (-54)
  ∧ float.ltb (float.of_Q 0.30) (_calculate_match_score (u "abc") w None)
    = true.
Proof. by vm_compute. Qed.

End MatchScore.

(** ** Weakness matcher: filtering, ordering and truncation *)

Section MatchWeaknesses.
Import WeaknessMatcher.

Lemma make_match_complete question entity_type w :
  complete w →
  make_match w (_calculate_match_score question w entity_type)
  = Ok (match_of question entity_type w).
Proof.
  intros ([a Ha] & [b Hb] & [c Hc] & [d Hd] & [e He] & [f Hf] & [g Hg]).
  unfold make_match, match_of.
  rewrite Ha, Hb, Hc, Hd, He, Hf, Hg. reflexivity.
Qed.

Lemma survives_iff question entity_type min_frequency w :
  survives question entity_type min_frequency w = true
  ↔ Qltb (default 0%Q (frequency w)) min_frequency = false
    ∧ float.ltb float.zero (_calculate_match_score question w entity_type)
      = true.
Proof.
  unfold survives.
  rewrite andb_true_iff, Qltb_ge, Qle_bool_iff.
  by rewrite positive_iff_nonzero by apply calculate_match_score_sign.
Qed.

(** Only the weaknesses that are kept are read key by key. *)
Lemma match_loop_complete ws question entity_type min_frequency acc :
  Forall complete
         (List.filter (survives question entity_type min_frequency) ws) →
  match_loop ws question entity_type min_frequency acc
  = Ok (acc ++ map (match_of question entity_type)
                   (List.filter (survives question entity_type min_frequency)
                                ws)).
Proof.
  revert acc. induction ws as [|w ws IH]; intros acc Hws; simpl.
  - by rewrite app_nil_r.
  - simpl in Hws.
    destruct (survives question entity_type min_frequency w) eqn:Es.
    + apply Forall_cons in Hws as [Hw Hws].
      apply survives_iff in Es as [-> ->].
      rewrite make_match_complete by done.
      change (Ok ?m ≫= ?k) with (k m). cbv beta.
      rewrite IH by done. by rewrite <- app_assoc.
    + destruct (Qltb (default 0%Q (frequency w)) min_frequency) eqn:E1;
        [by apply IH|].
      destruct (float.ltb float.zero
                  (_calculate_match_score question w entity_type))
        eqn:E2; [|by apply IH].
      assert (survives question entity_type min_frequency w = true)
        by (by apply survives_iff).
      congruence.
Qed.

Lemma key_lt_true a b :
  scored a → scored b → key_lt a b = true → key_ge b a.
Proof.
  unfold key_lt, key_ge, scored. intros Ha Hb.
  rewrite orb_true_iff, andb_true_iff, Qltb_lt.
  intros [?|[He ?]]; [by left|right].
  split; [|by apply Qlt_le_weak].
  apply eqb_rank; [done|done|]. symmetry. by apply eqb_rank.
Qed.

Lemma key_lt_false a b :
  scored a → scored b → key_lt a b = false → key_ge a b.
Proof.
  unfold key_lt, key_ge, scored. intros Ha Hb.
  rewrite orb_false_iff, andb_false_iff, Qltb_ge.
  rewrite <- !not_true_iff_false.
  rewrite !ltb_rank, !eqb_rank by done.
  intros [H1 H2].
  destruct (rank_total (rank (match_score a)) (rank (match_score b)))
    as [?|[He|?]]; [done| |by left].
  right. split; [done|]. by destruct H2.
Qed.

Lemma key_ge_trans a b c :
  scored a → scored b → scored c → key_ge a b → key_ge b c → key_ge a c.
Proof.
  unfold key_ge, scored. intros Ha Hb Hc.
  rewrite !ltb_rank, !eqb_rank by done.
  intros [H1|[H1 F1]] [H2|[H2 F2]].
  - left. by eapply lex_lt_trans.
  - left. by rewrite <- H2.
  - left. by rewrite H1.
  - right. split; [congruence|]. by eapply Qle_trans.
Qed.

Lemma insert_desc_perm x l : insert_desc x l ≡ₚ x :: l.
Proof.
  induction l as [|y l IH]; simpl; [done|].
  destruct (key_lt x y); [|done].
  rewrite IH. apply Permutation_swap.
Qed.

Lemma sort_desc_perm l : sort_desc l ≡ₚ l.
Proof.
  induction l as [|x l IH]; simpl; [done|].
  fold (sort_desc l). by rewrite insert_desc_perm, IH.
Qed.

Lemma insert_desc_sorted x l :
  scored x → Forall scored l →
  StronglySorted key_ge l → StronglySorted key_ge (insert_desc x l).
Proof.
  intros Hx Hl Hs. induction Hs as [|y l Hs IH Hy]; simpl.
  - repeat constructor.
  - apply Forall_cons in Hl as [Hsy Hl].
    destruct (key_lt x y) eqn:E.
    + constructor; [by apply IH|].
      rewrite insert_desc_perm. constructor; [|done].
      by apply key_lt_true.
    + apply key_lt_false in E; [|done|done].
      constructor; [by constructor|].
      constructor; [done|].
      rewrite Forall_forall in Hy, Hl. apply Forall_forall.
      intros z Hz. eapply key_ge_trans; [| | |exact E|by apply Hy]; auto.
Qed.

Lemma sort_desc_sorted l :
  Forall scored l → StronglySorted key_ge (sort_desc l).
Proof.
  induction 1 as [|x l Hx Hl IH]; simpl; [constructor|].
  apply insert_desc_sorted; [done| |done].
  fold (sort_desc l). by rewrite sort_desc_perm.
Qed.

Lemma survives_spec question entity_type min_frequency w :
  survives question entity_type min_frequency w = true
  ↔ (min_frequency <= default 0%Q (frequency w))%Q
    ∧ _calculate_match_score question w entity_type ≠ float.zero.
Proof.
  unfold survives.
  rewrite andb_true_iff, negb_true_iff, <- not_true_iff_false, Qle_bool_iff.
  by rewrite eqb_zero by apply calculate_match_score_sign.
Qed.

(** With a minimum above every frequency of the table nothing is kept,
    whatever the entries lack. *)
Lemma match_loop_all_below ws question entity_type min_frequency acc :
  Forall (λ w, (default 0%Q (frequency w) < min_frequency)%Q) ws →
  match_loop ws question entity_type min_frequency acc = Ok acc.
Proof.
  induction 1 as [|w ws Hw _ IH]; simpl; [done|].
  apply Qltb_lt in Hw. by rewrite Hw.
Qed.

Lemma match_weaknesses_all_below self question entity_type top_k
    min_frequency :
  Forall (λ w, (default 0%Q (frequency w) < min_frequency)%Q)
         (weaknesses self) →
  match_weaknesses self question entity_type top_k min_frequency = Ok [].
Proof.
  intros H. unfold match_weaknesses.
  rewrite match_loop_all_below by done.
  simpl. unfold slice_to. by destruct (0 <=? top_k); rewrite take_nil.
Qed.

(** Claim C4: for a count top_k (not negative) and a table in which the
    weaknesses that are kept have the keys the result is built from,
    match_weaknesses returns the first top_k entries of a list that holds
    exactly the weaknesses with a frequency of at least min_frequency
    and a score other than 0, ordered descending by
    (match_score, frequency), so at most top_k entries; with
    min_frequency = 1.1, above every frequency of the table, the result
    is empty for every question. *)
Theorem match_weaknesses_top_k
    self question entity_type top_k min_frequency :
  0 <= top_k →
  Forall complete
         (List.filter (survives question entity_type min_frequency)
                      (weaknesses self)) →
  ∃ sorted,
    match_weaknesses self question entity_type top_k min_frequency
    = Ok (take (Z.to_nat top_k) sorted)
    ∧ sorted ≡ₚ map (match_of question entity_type)
                    (List.filter
                       (survives question entity_type min_frequency)
                       (weaknesses self))
    ∧ (∀ w, survives question entity_type min_frequency w = true
            ↔ (min_frequency <= default 0%Q (frequency w))%Q
              ∧ _calculate_match_score question w entity_type
                ≠ float.zero)
    ∧ StronglySorted key_ge sorted
    ∧ Z.of_nat (length (take (Z.to_nat top_k) sorted)) <= top_k
    ∧ (min_frequency = 1.1%Q →
       Forall (λ w, (default 0%Q (frequency w) < 1.1)%Q) (weaknesses self) →
       ∀ question',
         match_weaknesses self question' entity_type top_k min_frequency
         = Ok []).
Proof.
  intros Hk Hws.
  exists (sort_desc (map (match_of question entity_type)
                         (List.filter
                            (survives question entity_type min_frequency)
                            (weaknesses self)))).
  assert (Hrun :
    match_weaknesses self question entity_type top_k min_frequency
    = Ok (take (Z.to_nat top_k)
            (sort_desc (map (match_of question entity_type)
               (List.filter (survives question entity_type min_frequency)
                            (weaknesses self)))))).
  { unfold match_weaknesses. rewrite match_loop_complete by done.
    simpl. unfold slice_to. destruct (Z.leb_spec 0 top_k); [done|lia]. }
  split; [exact Hrun|].
  split; [apply sort_desc_perm|].
  split; [intros w; apply survives_spec|].
  split.
  { apply sort_desc_sorted, Forall_forall. intros m Hm.
    apply list_elem_of_fmap in Hm as (w & -> & _).
    apply calculate_match_score_sign. }
  split; [rewrite length_take; lia|].
  intros -> Hfreq question'. by apply match_weaknesses_all_below.
Qed.

(** The scenario of the specification: one keyword, found in the
    question. *)
Example scenario_W1_score :
  _calculate_match_score sample_question sample_W1 None = float.of_Q 0.40.
Proof. by vm_compute. Qed.

Example scenario_W1_in_top_2 :
  ∃ m rest,
    match_weaknesses sample_matcher sample_question None 2 0.15%Q
    = Ok (m :: rest)
    ∧ m_weakness_id m = u "W1" ∧ match_score m = float.of_Q 0.40.
Proof. do 2 eexists. split; [vm_compute; reflexivity|]. by vm_compute. Qed.

(** A table may hold an entry without the keys of a match, as long as
    the entry is not kept: here it has no trigger, so its score is 0. *)
Example incomplete_entry_filtered :
  let bare := {| weakness_id := None; category := None; subcategory := None;
                 description := None; severity := None; frequency := Some 1%Q;
                 prompt_addition := None; triggers := None |} in
  ∃ m, match_weaknesses {| weaknesses := [bare; sample_W1] |}
         sample_question None 2 0.15%Q = Ok [m]
       ∧ m_weakness_id m = u "W1".
Proof. eexists. split; [vm_compute; reflexivity|]. by vm_compute. Qed.

(** Rounding decides the order: three keywords of four score
    0.30000000000000004, above the 0.3 of an entity-type match, so the
    first weakness comes first although its frequency is the lower. *)
Example rounding_decides_the_order :
  let by_keywords :=
    {| weakness_id := Some (u "A"); category := Some []; subcategory := Some [];
       description := Some []; severity := Some []; frequency := Some 0.2%Q;
       prompt_addition := Some [];
       triggers :=
         Some {| entity_types := None;
                 keywords := Some [u "a"; u "b"; u "c"; u "d"];
                 question_patterns := None |} |} in
  let by_entity_type :=
    {| weakness_id := Some (u "B"); category := Some []; subcategory := Some [];
       description := Some []; severity := Some []; frequency := Some 0.9%Q;
       prompt_addition := Some [];
       triggers :=
         Some {| entity_types := Some [u "diseases"];
                 keywords := None;
                 question_patterns := None |} |} in
  (m ← match_weaknesses {| weaknesses := [by_entity_type; by_keywords] |}
         (u "abc") (Some (u "diseases")) 2 0.15%Q;
   mret (map m_weakness_id m))
  = Ok [u "A"; u "B"].
Proof. by vm_compute. Qed.

(** A negative top_k is a slice bound that counts from the end: the
    last matches are dropped. *)
Example negative_top_k_counts_from_the_end :
  (m ← match_weaknesses sample_matcher sample_question None (-1) 0.15%Q;
   mret (map m_weakness_id m))
  = Ok [u "W1"].
Proof. by vm_compute. Qed.

Lemma match_weaknesses_top_k_witness :
  ∃ sorted,
    match_weaknesses sample_matcher sample_question None 2 0.15%Q
    = Ok (take (Z.to_nat 2) sorted)
    ∧ sorted ≡ₚ map (match_of sample_question None)
                    (List.filter (survives sample_question None 0.15%Q)
                                 (weaknesses sample_matcher))
    ∧ StronglySorted key_ge sorted
    ∧ length sorted = 2%nat.
Proof.
  assert (H1 : 0 <= 2) by lia.
  assert (H2 : Forall complete
                 (List.filter (survives sample_question None 0.15%Q)
                              (weaknesses sample_matcher))).
  { vm_compute. repeat constructor; eexists; reflexivity. }
  destruct (match_weaknesses_top_k sample_matcher sample_question None 2
              0.15%Q H1 H2) as (sorted & Hrun & Hperm & _ & Hsorted & _).
  exists sorted. split; [exact Hrun|]. split; [exact Hperm|].
  split; [exact Hsorted|].
  rewrite Hperm. by vm_compute.
Defined.

End MatchWeaknesses.

(** ** Decision engine: the RAG gate *)

Section ShouldUseRag.
Import DecisionEngine.

Lemma find_Some_elem {A} (f : A → bool) (l : list A) x :
  List.find f l = Some x → x ∈ l ∧ f x = true.
Proof.
  intros H. apply find_some in H as [H1 H2].
  split; [by apply list_elem_of_In|done].
Qed.

Lemma find_None_elem {A} (f : A → bool) (l : list A) :
  List.find f l = None → ∀ x, x ∈ l → f x = false.
Proof.
  intros H x Hx. eapply find_none; [exact H|]. by apply list_elem_of_In.
Qed.

Lemma find_is_Some {A} (f : A → bool) (l : list A) x :
  x ∈ l → f x = true → is_Some (List.find f l).
Proof.
  intros Hx Hf. destruct (List.find f l) eqn:E; [eauto|].
  rewrite (find_None_elem f l E x Hx) in Hf. discriminate.
Qed.

Lemma category_hit_spec question entry :
  category_hit question entry = true
  ↔ ∃ kw, kw ∈ entry.2 ∧ str_in kw question = true.
Proof.
  unfold category_hit. rewrite existsb_exists.
  split; intros (kw & H1 & H2); exists kw; split; try done;
    by apply list_elem_of_In.
Qed.

Lemma matched_categories_spec self question c :
  c ∈ matched_categories self question
  ↔ ∃ kws, (c, kws) ∈ category_keywords self
           ∧ ∃ kw, kw ∈ kws ∧ str_in kw question = true.
Proof.
  unfold matched_categories. rewrite list_elem_of_fmap. split.
  - intros ([c' kws] & -> & H). apply list_elem_of_In, filter_In in H.
    destruct H as [H1 H2]. exists kws. split; [by apply list_elem_of_In|].
    by apply category_hit_spec in H2.
  - intros (kws & H1 & H2). exists (c, kws). split; [done|].
    apply list_elem_of_In, filter_In. split; [by apply list_elem_of_In|].
    by apply category_hit_spec.
Qed.

Lemma partial_hit_spec question e :
  partial_hit question e = true
  ↔ (3 <= length e)%nat ∧ str_in (take 3 e) question = true
    ∧ take 3 e ∉ map u ["检查"; "手术"; "疫苗"]%string.
Proof.
  unfold partial_hit, str_in_list.
  rewrite !andb_true_iff, negb_true_iff, bool_decide_eq_false, !Nat.leb_le.
  split.
  - intros (H3 & (_ & Hin) & Hnot).
    rewrite Nat.min_l in Hin, Hnot by done. done.
  - intros (H3 & Hin & Hnot). rewrite Nat.min_l by done.
    repeat split; try done. rewrite length_take. lia.
Qed.

Lemma find_exact_None self question :
  ¬ exact_match self question →
  List.find (λ e, str_in e question) (all_entities_set self) = None.
Proof.
  intros H. destruct (List.find _ _) as [e|] eqn:E; [|done].
  apply find_Some_elem in E as [? ?]. exfalso. apply H. by exists e.
Qed.

Lemma find_ood_None self question :
  ¬ ood_match self question →
  List.find (λ kw, str_in kw question) (ood_keywords self) = None.
Proof.
  intros H. destruct (List.find _ _) as [e|] eqn:E; [|done].
  apply find_Some_elem in E as [? ?]. exfalso. apply H. by exists e.
Qed.

Lemma category_hit_matched question entry :
  category_hit question entry = true ↔ keyword_set_matched question entry.
Proof.
  unfold keyword_set_matched. rewrite category_hit_spec, Exists_exists.
  done.
Qed.

(** The list the code collects has one name per matched keyword set. *)
Lemma matched_categories_sets self question :
  matched_categories self question = (matched_sets self question).*1.
Proof.
  unfold matched_categories, matched_sets.
  induction (category_keywords self) as [|entry l IH]; [done|].
  rewrite filter_cons. simpl.
  destruct (category_hit question entry) eqn:E.
  - rewrite decide_True by (by apply category_hit_matched).
    simpl. by rewrite IH.
  - rewrite decide_False; [done|].
    rewrite <- category_hit_matched. by rewrite E.
Qed.

(** Claim C2: should_use_rag is a first-match-wins cascade over exact
    entity names (0.95), out-of-domain keywords (false, 0.90), two or
    more matched category keyword sets (0.75), exactly one (0.65), a
    3-character prefix of an entity name outside the blocklist (0.60) and
    the default (0.50); the matched categories are the names of the
    keyword sets with a keyword in the question, one per set and in the
    order of the table, so their number is the number of matched sets;
    the confidence is one of these six values and the result does not
    depend on min_confidence. *)
Theorem should_use_rag_cascade (self : t) (question : pystr)
    (min_confidence : Q) :
  let r := should_use_rag self question min_confidence in
  let cats := matched_categories self question in
  (exact_match self question →
   ∃ e, e ∈ all_entities_set self ∧ str_in e question = true
        ∧ r = (true, u "Exact match: '" ++ e ++ u "'", 0.95%Q))
  ∧ (¬ exact_match self question → ood_match self question →
     ∃ kw, kw ∈ ood_keywords self ∧ str_in kw question = true
           ∧ r = (false, u "Known OOD topic: '" ++ kw ++ u "'", 0.90%Q))
  ∧ (∀ c, c ∈ cats
          ↔ ∃ kws, (c, kws) ∈ category_keywords self
                   ∧ ∃ kw, kw ∈ kws ∧ str_in kw question = true)
  ∧ cats = (matched_sets self question).*1
  ∧ length cats = length (matched_sets self question)
  ∧ (¬ exact_match self question → ¬ ood_match self question →
     (2 <= length (matched_sets self question))%nat →
     r = (true,
          u "Multiple category matches: "
            ++ join (u ", ") (matched_sets self question).*1,
          0.75%Q))
  ∧ (¬ exact_match self question → ¬ ood_match self question →
     ∀ c kws, matched_sets self question = [(c, kws)] →
     r = (true, u "Category match: " ++ c, 0.65%Q))
  ∧ (¬ exact_match self question → ¬ ood_match self question →
     (2 <= length cats)%nat →
     r = (true, u "Multiple category matches: " ++ join (u ", ") cats,
          0.75%Q))
  ∧ (¬ exact_match self question → ¬ ood_match self question →
     ∀ c, cats = [c] → r = (true, u "Category match: " ++ c, 0.65%Q))
  ∧ (¬ exact_match self question → ¬ ood_match self question →
     cats = [] → prefix_match self question →
     ∃ e, e ∈ all_entities_set self ∧ (3 <= length e)%nat
          ∧ str_in (take 3 e) question = true
          ∧ (take 3 e ∉ map u ["检查"; "手术"; "疫苗"]%string)
          ∧ r = (true, u "Partial match: '" ++ e ++ u "'", 0.60%Q))
  ∧ (¬ exact_match self question → ¬ ood_match self question →
     cats = [] → ¬ prefix_match self question →
     r = (true, u "Uncertain - defer to threshold filter", 0.50%Q))
  ∧ (r.2 ∈ [0.95%Q; 0.90%Q; 0.75%Q; 0.65%Q; 0.60%Q; 0.50%Q])
  ∧ (∀ other_confidence, should_use_rag self question other_confidence = r).
Proof.
  cbv zeta. repeat apply conj.
  - intros (e & He & Hin). unfold should_use_rag.
    destruct (find_is_Some (λ e, str_in e question) _ e He Hin) as [e' E].
    rewrite E. apply find_Some_elem in E as [? ?]. by exists e'.
  - intros HE (kw & Hkw & Hin). unfold should_use_rag.
    rewrite find_exact_None by done.
    destruct (find_is_Some (λ e, str_in e question) _ kw Hkw Hin) as [kw' E].
    rewrite E. apply find_Some_elem in E as [? ?]. by exists kw'.
  - apply matched_categories_spec.
  - apply matched_categories_sets.
  - by rewrite matched_categories_sets, length_fmap.
  - intros HE HO Hlen. unfold should_use_rag.
    rewrite find_exact_None, find_ood_None by done.
    rewrite matched_categories_sets, length_fmap.
    apply Nat.leb_le in Hlen. by rewrite Hlen.
  - intros HE HO c kws Hc. unfold should_use_rag.
    rewrite find_exact_None, find_ood_None by done.
    by rewrite matched_categories_sets, Hc.
  - intros HE HO Hlen. unfold should_use_rag.
    rewrite find_exact_None, find_ood_None by done.
    apply Nat.leb_le in Hlen. by rewrite Hlen.
  - intros HE HO c Hc. unfold should_use_rag.
    rewrite find_exact_None, find_ood_None by done. by rewrite Hc.
  - intros HE HO Hc (e & He & H3 & Hin & Hnot). unfold should_use_rag.
    rewrite find_exact_None, find_ood_None by done. rewrite Hc. simpl.
    destruct (find_is_Some (partial_hit question) _ e He) as [e' E].
    { by apply partial_hit_spec. }
    rewrite E. apply find_Some_elem in E as [? E].
    apply partial_hit_spec in E as (? & ? & ?). by exists e'.
  - intros HE HO Hc HP. unfold should_use_rag.
    rewrite find_exact_None, find_ood_None by done. rewrite Hc. simpl.
    destruct (List.find (partial_hit question) _) as [e|] eqn:E; [|done].
    apply find_Some_elem in E as [? E].
    apply partial_hit_spec in E as (? & ? & ?).
    exfalso. apply HP. by exists e.
  - unfold should_use_rag.
    repeat (first [destruct (List.find _ _) | destruct (_ <=? _)%nat
                   | destruct (matched_categories _ _) as [|? [|? ?]]];
            simpl; try (set_solver)).
  - done.
Qed.

(** The scenarios of the specification. *)
Example scenario_exact_match :
  ∃ self, __init__ sample_world = Ok self
    ∧ should_use_rag self sample_question 0.70%Q
      = (true, u "Exact match: '糖尿病'", 0.95%Q).
Proof. eexists. split; [reflexivity|]. vm_compute. reflexivity. Qed.

(** One keyword set with two of its keywords in the question is one
    matched category. *)
Example scenario_one_set_two_keywords :
  ∃ self, __init__ bare_world = Ok self
    ∧ should_use_rag self (u "疾病的症状") 0.70%Q
      = (true, u "Category match: diseases", 0.65%Q).
Proof. eexists. split; [reflexivity|]. vm_compute. reflexivity. Qed.

Example scenario_ood :
  ∃ self, __init__ sample_world = Ok self
    ∧ ∃ reason, should_use_rag self (u "血管瘤怎么办") 0.70%Q
                = (false, reason, 0.90%Q).
Proof. eexists. split; [reflexivity|]. eexists. vm_compute. reflexivity. Qed.

End ShouldUseRag.

(** ** Decision engine: the routing decision *)

Section RoutingDecision.
Import DecisionEngine.

Lemma get_routing_decision_unfold
    settings w self question entity_type min_confidence auto_reload :
  get_routing_decision settings w self question entity_type min_confidence
                       auto_reload
  = let '(self, checked) := after_reload settings w self auto_reload in
    match checked with
    | Raise e => (self, Raise e)
    | Ok _ =>
      match WeaknessMatcher.match_weaknesses
              (weakness_matcher self) question entity_type
              (WEAKNESS_TOP_K settings) (WEAKNESS_MIN_FREQUENCY settings) with
      | Raise e => (self, Raise e)
      | Ok [] =>
        let '(use_rag, rag_reason, rag_confidence) :=
          should_use_rag self question min_confidence in
        (self,
         Ok {| use_rag := use_rag; rag_reason := rag_reason;
               rag_confidence := rag_confidence; weakness_patterns := [];
               has_weaknesses := false;
               routing_tier := if use_rag then u "rag" else u "baseline";
               last_reload_check := _last_reload_check self |})
      | Ok (first :: rest) =>
        (self,
         Ok {| use_rag := true;
               rag_reason := u "Supplemental context for weakness: "
                               ++ WeaknessMatcher.m_weakness_id first;
               rag_confidence := 0.85%Q;
               weakness_patterns := first :: rest;
               has_weaknesses := true;
               routing_tier := u "weakness";
               last_reload_check := _last_reload_check self |})
      end
    end.
Proof.
  unfold get_routing_decision, after_reload.
  destruct (if auto_reload && ENABLE_HOT_RELOAD settings
            then check_for_updates w self else (self, Ok false))
    as [self' [b|e]]; [|done].
  destruct (WeaknessMatcher.match_weaknesses _ _ _ _ _) as [[|m ms]|e];
    [|done|done].
  simpl. by destruct (should_use_rag self' question min_confidence)
    as [[? ?] ?].
Qed.

(** Claim C1: once the reload check and the matcher have returned, the
    decision carries the matches; with a non-empty list it has
    use_rag = true, rag_confidence = 0.85, routing_tier 'weakness' and a
    reason that contains the first match's weakness_id; with the empty
    list (use_rag, rag_reason, rag_confidence) is the result of
    should_use_rag and routing_tier is 'rag' if use_rag else 'baseline'. *)
Theorem get_routing_decision_tiers
    settings w self question entity_type min_confidence auto_reload
    self' reloaded ws :
  after_reload settings w self auto_reload = (self', Ok reloaded) →
  WeaknessMatcher.match_weaknesses
    (weakness_matcher self') question entity_type
    (WEAKNESS_TOP_K settings) (WEAKNESS_MIN_FREQUENCY settings) = Ok ws →
  ∃ d,
    get_routing_decision settings w self question entity_type
                         min_confidence auto_reload = (self', Ok d)
    ∧ weakness_patterns d = ws
    ∧ (has_weaknesses d = true ↔ ws ≠ [])
    ∧ (ws ≠ [] →
       use_rag d = true ∧ rag_confidence d = 0.85%Q
       ∧ routing_tier d = u "weakness"
       ∧ ∃ first, head ws = Some first
           ∧ rag_reason d = u "Supplemental context for weakness: "
                              ++ WeaknessMatcher.m_weakness_id first
           ∧ str_in (WeaknessMatcher.m_weakness_id first) (rag_reason d)
             = true)
    ∧ (ws = [] →
       (use_rag d, rag_reason d, rag_confidence d)
       = should_use_rag self' question min_confidence
       ∧ routing_tier d = if use_rag d then u "rag" else u "baseline").
Proof.
  intros Hreload Hmatch.
  rewrite get_routing_decision_unfold, Hreload, Hmatch.
  destruct ws as [|first rest].
  - destruct (should_use_rag self' question min_confidence)
      as [[use reason] conf] eqn:E.
    eexists. split; [reflexivity|].
    cbn [use_rag rag_reason rag_confidence weakness_patterns
         has_weaknesses routing_tier].
    repeat split; done.
  - eexists. split; [reflexivity|].
    cbn [use_rag rag_reason rag_confidence weakness_patterns
         has_weaknesses routing_tier].
    split; [done|]. split; [done|]. split; [|done].
    intros _. do 3 (split; [done|]).
    exists first. do 2 (split; [done|]).
    apply str_in_spec. eexists _, []. by rewrite app_nil_r.
Qed.

Lemma get_routing_decision_tiers_witness :
  ∃ d,
    get_routing_decision default_router_settings sample_world sample_engine
                         sample_question None 0.70%Q false
    = (sample_engine, Ok d)
    ∧ routing_tier d = u "weakness"
    ∧ rag_confidence d = 0.85%Q.
Proof.
  eassert (H2 : WeaknessMatcher.match_weaknesses
                  (weakness_matcher sample_engine) sample_question None
                  (WEAKNESS_TOP_K default_router_settings)
                  (WEAKNESS_MIN_FREQUENCY default_router_settings) = Ok _)
    by (vm_compute; reflexivity).
  destruct (get_routing_decision_tiers default_router_settings sample_world
              sample_engine sample_question None 0.70%Q false
              sample_engine false _ eq_refl H2)
    as (d & Hd & _ & _ & Hweak & _).
  exists d. split; [exact Hd|].
  destruct Hweak as (_ & Hc & Ht & _); [discriminate|]. by split.
Defined.

(** A failure of the reload check or of the matcher is passed on. *)
Lemma get_routing_decision_raises
    settings w self question entity_type min_confidence auto_reload self' e :
  after_reload settings w self auto_reload = (self', Raise e) →
  get_routing_decision settings w self question entity_type min_confidence
                       auto_reload = (self', Raise e).
Proof. intros H. by rewrite get_routing_decision_unfold, H. Qed.

End RoutingDecision.

(** ** Construction with a missing or unreadable data file *)

Section Construction.
Import DecisionEngine.

Lemma load_weaknesses_unreadable (f : WeaknessMatcher.weakness_file) :
  unreadable f →
  WeaknessMatcher._load_weaknesses f = WeaknessMatcher.Table [].
Proof.
  destruct f as [f|]; simpl; [|done]. by intros ->.
Qed.

Lemma matcher_init_unreadable (f : WeaknessMatcher.weakness_file) :
  unreadable f →
  WeaknessMatcher.__init__ f = Ok {| WeaknessMatcher.weaknesses := [] |}.
Proof.
  intros H. unfold WeaknessMatcher.__init__.
  by rewrite load_weaknesses_unreadable.
Qed.

Lemma load_entities_unreadable w :
  unreadable (entity_file w) → _load_entities w = empty_entities.
Proof.
  unfold _load_entities. destruct (entity_file w) as [f|]; simpl; [|done].
  by intros ->.
Qed.

(** Claim C8, amended: a missing or unparseable weakness file gives a
    matcher with the empty table; a missing or unparseable entity file
    gives an engine with four empty categories and the empty entity set
    whenever the construction of its matcher returns, and the matcher's
    exception otherwise; with both files missing or unparseable the
    engine is constructed with the empty entity set and the empty
    table. *)
Theorem construction_degrades_to_empty (w : World) :
  (unreadable (weakness_file w) →
   WeaknessMatcher.__init__ (weakness_file w)
   = Ok {| WeaknessMatcher.weaknesses := [] |})
  ∧ (unreadable (entity_file w) →
     (∀ m, WeaknessMatcher.__init__ (weakness_file w) = Ok m →
        ∃ self, __init__ w = Ok self
          ∧ entities_by_category self = empty_entities
          ∧ all_entities_set self = []
          ∧ weakness_matcher self = m
          ∧ _entity_mtime self = _get_mtime (entity_file w)
          ∧ _weakness_mtime self = _get_mtime (weakness_file w))
     ∧ (∀ e, WeaknessMatcher.__init__ (weakness_file w) = Raise e →
          __init__ w = Raise e))
  ∧ (unreadable (entity_file w) → unreadable (weakness_file w) →
     ∃ self, __init__ w = Ok self
       ∧ entities_by_category self = empty_entities
       ∧ all_entities_set self = []
       ∧ WeaknessMatcher.weaknesses (weakness_matcher self) = []).
Proof.
  split; [|split].
  - apply matcher_init_unreadable.
  - intros H. split.
    + intros m Hm. unfold __init__.
      rewrite load_entities_unreadable by done. simpl. rewrite Hm.
      eexists. split; [reflexivity|]. done.
    + intros e He. unfold __init__.
      rewrite load_entities_unreadable by done. simpl. by rewrite He.
  - intros He Hw. unfold __init__.
    rewrite load_entities_unreadable by done. simpl.
    rewrite matcher_init_unreadable by done.
    eexists. split; [reflexivity|]. done.
Qed.

(** Claim C8 as stated fails: with neither file on disk the engine is
    constructed, with the empty table and the empty entity set. *)
Lemma construction_succeeds_without_files :
  ∃ self, __init__ bare_world = Ok self
    ∧ WeaknessMatcher.weaknesses (weakness_matcher self) = []
    ∧ all_entities_set self = [].
Proof. eexists. split; [reflexivity|]. done. Qed.

(** Construction does fail on files that parse: on an entity file that
    holds something other than an object, on a category that cannot be
    iterated, and on a weakness table without a length. *)
Lemma construction_fails_on_non_object w f :
  entity_file w = Some f → file_contents f = NotAnObject →
  __init__ w = Raise AttributeError.
Proof.
  intros Hf Hc. unfold __init__, _load_entities. by rewrite Hf, Hc.
Qed.

Lemma construction_fails_on_null_table w f :
  unreadable (entity_file w) →
  weakness_file w = Some f →
  file_contents f = Object (Some WeaknessMatcher.NoLen) →
  __init__ w = Raise TypeError.
Proof.
  intros He Hf Hc. unfold __init__.
  rewrite load_entities_unreadable by done. simpl.
  unfold WeaknessMatcher.__init__, WeaknessMatcher._load_weaknesses.
  by rewrite Hf, Hc.
Qed.

Lemma construction_fails_on_null_category w f d1 category d2 :
  entity_file w = Some f →
  file_contents f = Object (d1 ++ (category, NotIterable) :: d2) →
  __init__ w = Raise TypeError.
Proof.
  intros Hf Hc. unfold __init__, _load_entities. rewrite Hf, Hc.
  cbn [_build_entity_set]. clear Hf Hc.
  assert (H : ∀ acc, update_all (d1 ++ (category, NotIterable) :: d2) acc
                     = Raise TypeError).
  { induction d1 as [|[c [names| |n]] d1 IH]; intros acc; simpl; done. }
  by rewrite H.
Qed.

End Construction.

(** ** Pattern store: index rows and patterns stay in step *)

Section StoreInvariant.
Import PatternStorage.

Lemma np_array_rows rows x : faiss.np_array rows = Ok x → x.2 = rows.
Proof.
  unfold faiss.np_array. destruct rows as [|r rows]; [by intros [= <-]|].
  destruct (forallb _ _); [by intros [= <-]|done].
Qed.

Lemma faiss_add_ntotal i x i' :
  faiss.add i x = Ok i' →
  faiss.ntotal i' = (faiss.ntotal i + length x.2)%nat.
Proof.
  unfold faiss.add. destruct x.1 as [cols|]; [|done].
  destruct (cols =? faiss.d i)%nat; [|done].
  intros [= <-]. unfold faiss.ntotal. simpl. apply length_app.
Qed.

Lemma embed_batch_length get_embedding e texts :
  length (Embedder.embed_batch get_embedding e texts).2 = length texts.
Proof.
  revert e. induction texts as [|text texts IH]; intros e; simpl; [done|].
  destruct (match Embedder.cache_hit e (Embedder._truncate_text text) with
            | Some v => (e, v)
            | None => _
            end) as [e1 v].
  specialize (IH e1).
  destruct (Embedder.embed_batch get_embedding e1 texts) as [e2 vs].
  simpl in *. by rewrite IH.
Qed.

Lemma descriptions_of_length h ps ds :
  descriptions_of h ps = Ok ds → length ds = length ps.
Proof.
  revert ds. induction ps as [|l ps IH]; intros ds; simpl.
  - by intros [= <-].
  - destruct (deref h l) as [p|]; [|done]. simpl.
    destruct (getitem "description" (description p)) as [text|]; [|done].
    simpl. destruct (descriptions_of h ps) as [rest|]; [|done]. simpl.
    intros [= <-]. simpl. by rewrite (IH rest).
Qed.

Lemma append_all_patterns self h i ps :
  patterns (append_all self h i ps).1 = patterns self ++ ps
  ∧ index (append_all self h i ps).1 = index self.
Proof.
  revert self h i. induction ps as [|p ps IH]; intros self h i; simpl.
  - by rewrite app_nil_r.
  - destruct (IH (with_patterns self (patterns self ++ [p]))
                 (alter (λ q, set_id q (Z.of_nat (length (patterns self))
                                        + Z.of_nat i)) p h) (S i))
      as [-> ->].
    simpl. by rewrite <- app_assoc.
Qed.

(** A call adds as many rows as patterns: one of each, or none. *)
Lemma add_pattern_body_step get_embedding o self h disk pattern :
  let self' := (add_pattern_body get_embedding o self h disk pattern).1.1.1 in
  (row_count self' + length (patterns self)
   = row_count self + length (patterns self'))%nat.
Proof.
  cbv zeta. unfold add_pattern_body.
  destruct (deref h pattern ≫= _) as [text|]; [|done].
  destruct (Embedder.embed get_embedding (embedder self) text) as [e [v|]];
    [|done].
  set (index0 := match index (with_embedder self e) with
                 | Some i => i
                 | None => faiss.new (length v)
                 end).
  assert (Hrows : faiss.ntotal index0 = row_count self).
  { subst index0. unfold row_count. simpl. by destruct (index self). }
  destruct (faiss.np_array [v] ≫= _) as [i|] eqn:Eadd.
  - simpl in Eadd. rewrite Nat.eqb_refl in Eadd. simpl in Eadd.
    apply faiss_add_ntotal in Eadd.
    unfold row_count at 1. simpl. rewrite Eadd, Hrows, length_app. simpl.
    lia.
  - unfold row_count at 1. simpl. by rewrite Hrows.
Qed.

Lemma add_patterns_batch_body_step
    get_embedding o self h disk new_patterns :
  let self' :=
    (add_patterns_batch_body get_embedding o self h disk
                             new_patterns).1.1.1 in
  (row_count self' + length (patterns self)
   = row_count self + length (patterns self'))%nat.
Proof.
  cbv zeta. unfold add_patterns_batch_body.
  destruct (descriptions_of h new_patterns) as [ds|] eqn:Hds; [|done].
  apply descriptions_of_length in Hds.
  pose proof (embed_batch_length get_embedding (embedder self) ds) as Hlen.
  destruct (Embedder.embed_batch get_embedding (embedder self) ds)
    as [e vs].
  simpl in Hlen.
  destruct (match index (with_embedder self e) with
            | Some i => Ok i
            | None => _
            end) as [index0|] eqn:Hindex; [|done].
  assert (Hrows : faiss.ntotal index0 = row_count self).
  { unfold row_count. simpl in Hindex.
    destruct (index self).
    - by injection Hindex as <-.
    - destruct (py_index vs 0); [|done]. by injection Hindex as <-. }
  destruct (faiss.np_array vs ≫= _) as [i|] eqn:Eadd.
  2:{ unfold row_count at 1. simpl. by rewrite Hrows. }
  destruct (faiss.np_array vs) as [x|] eqn:Enp; [|done].
  simpl in Eadd. apply faiss_add_ntotal in Eadd.
  apply np_array_rows in Enp. rewrite Enp in Eadd.
  destruct (append_all_patterns
              (with_index (with_index (with_embedder self e) index0) i)
              h 0 new_patterns) as [Hp Hi].
  destruct (append_all _ h 0 new_patterns) as [self' h'].
  simpl in *. unfold row_count at 1. rewrite Hp, Hi.
  rewrite Eadd, Hrows, length_app. lia.
Qed.

Lemma add_pattern_step get_embedding o self h disk pattern :
  let self' := (add_pattern get_embedding o self h disk pattern).1.1 in
  (row_count self' + length (patterns self)
   = row_count self + length (patterns self'))%nat.
Proof. apply add_pattern_body_step. Qed.

Lemma add_patterns_batch_step get_embedding o self h disk new_patterns :
  let self' :=
    (add_patterns_batch get_embedding o self h disk new_patterns).1.1 in
  (row_count self' + length (patterns self)
   = row_count self + length (patterns self'))%nat.
Proof.
  cbv zeta. unfold add_patterns_batch.
  destruct (negb (truthy_list new_patterns)); [done|].
  apply add_patterns_batch_body_step.
Qed.

Lemma retrieve_relevant_store np get_embedding self h question k category
    min_severity threshold :
  let self' := (retrieve_relevant np get_embedding self h question k
                                  category min_severity threshold).1.1 in
  patterns self' = patterns self ∧ index self' = index self.
Proof.
  cbv zeta. unfold retrieve_relevant.
  destruct (index self) as [index0|] eqn:Hi; [|done].
  destruct (length (patterns self) =? 0)%nat; [done|].
  unfold retrieve_relevant_body.
  destruct (Embedder.embed get_embedding (embedder self) question)
    as [e [v|]]; [|done].
  destruct (faiss.search index0 v _) as [[ds ids]|]; [|done].
  by destruct (retrieve_loop _ _ _ _ _ _ _ _ _) as [h' [res|]].
Qed.

Lemma add_pattern_consistent get_embedding o self h disk pattern :
  consistent self →
  consistent (add_pattern get_embedding o self h disk pattern).1.1.
Proof.
  unfold consistent. intros H.
  pose proof (add_pattern_step get_embedding o self h disk pattern) as Hs.
  cbv zeta in Hs. lia.
Qed.

Lemma add_patterns_batch_consistent get_embedding o self h disk new_patterns :
  consistent self →
  consistent
    (add_patterns_batch get_embedding o self h disk new_patterns).1.1.
Proof.
  unfold consistent. intros H.
  pose proof (add_patterns_batch_step get_embedding o self h disk
                new_patterns) as Hs.
  cbv zeta in Hs. lia.
Qed.

Lemma reachable_consistent self : reachable self → consistent self.
Proof.
  induction 1 as [threshold e| | |np get_embedding self h question k
                                   category min_severity threshold _ IH].
  - reflexivity.
  - by apply add_pattern_consistent.
  - by apply add_patterns_batch_consistent.
  - destruct (retrieve_relevant_store np get_embedding self h question k
                category min_severity threshold) as [Hp Hi].
    unfold consistent, row_count in *. by rewrite Hp, Hi.
Qed.

(** Claim C6 as stated fails: a store started from the files a save
    left behind when its index write failed holds three rows and four
    patterns, and the next [add_pattern], which goes through, returns
    with four rows and five patterns. *)
Lemma add_pattern_after_restart_out_of_step :
  ∃ self h,
    sample_restarted = Some (self, h)
    ∧ row_count self = 3%nat
    ∧ length (patterns self) = 4%nat
    ∧ ∃ self',
        (add_pattern sample_provider WritesSucceed self h
                     sample_after_failed_write.2 3%nat).1.1 = self'
        ∧ row_count self' = 4%nat
        ∧ length (patterns self') = 5%nat.
Proof.
  eexists _, _. split; [vm_compute; reflexivity|].
  split; [by vm_compute|]. split; [by vm_compute|].
  eexists. split; [reflexivity|]. by vm_compute.
Qed.

(** Claim C6, amended: add_pattern and add_patterns_batch add as many
    index rows as patterns, whatever the provider answers and however
    the writes end; so they keep the row count of the index equal to
    the length of the pattern list when the two were equal before the
    call, as they are after every call on a store that started empty,
    and they keep the difference of a store that was loaded with one. *)
Theorem add_keeps_rows_and_patterns_in_step :
  (∀ get_embedding o self h disk pattern,
     consistent self →
     row_count (add_pattern get_embedding o self h disk pattern).1.1
     = length (patterns
                 (add_pattern get_embedding o self h disk pattern).1.1))
  ∧ (∀ get_embedding o self h disk new_patterns,
       consistent self →
       row_count
         (add_patterns_batch get_embedding o self h disk new_patterns).1.1
       = length (patterns
                   (add_patterns_batch get_embedding o self h disk
                                       new_patterns).1.1))
  ∧ (∀ self, reachable self → row_count self = length (patterns self))
  ∧ (∀ get_embedding o self h disk pattern,
       let self' := (add_pattern get_embedding o self h disk pattern).1.1 in
       (row_count self' + length (patterns self)
        = row_count self + length (patterns self'))%nat)
  ∧ (∀ get_embedding o self h disk new_patterns,
       let self' :=
         (add_patterns_batch get_embedding o self h disk
                             new_patterns).1.1 in
       (row_count self' + length (patterns self)
        = row_count self + length (patterns self'))%nat).
Proof.
  split_and!.
  - intros. by apply add_pattern_consistent.
  - intros. by apply add_patterns_batch_consistent.
  - apply reachable_consistent.
  - apply add_pattern_step.
  - apply add_patterns_batch_step.
Qed.

(** The sample store holds three rows and three patterns.  A call whose
    embedding fails (the description is not in the cache, so the
    provider is asked) adds nothing, and a batch whose index write fails
    adds two rows and two patterns. *)
Lemma add_keeps_rows_and_patterns_in_step_witness :
  consistent sample_store
  ∧ Embedder.cache (embedder sample_store) !! u "rest" = None
  ∧ row_count (add_pattern failing_provider WritesSucceed sample_store
                           sample_heap_4 empty_disk 3%nat).1.1
    = length (patterns
                (add_pattern failing_provider WritesSucceed sample_store
                             sample_heap_4 empty_disk 3%nat).1.1)
  ∧ length (patterns
              (add_pattern failing_provider WritesSucceed sample_store
                           sample_heap_4 empty_disk 3%nat).1.1) = 3%nat
  ∧ row_count (add_patterns_batch sample_provider (IndexWriteFails false)
                 sample_store sample_store_heap empty_disk [0; 2]%nat).1.1
    = length (patterns
                (add_patterns_batch sample_provider (IndexWriteFails false)
                   sample_store sample_store_heap empty_disk
                   [0; 2]%nat).1.1)
  ∧ length (patterns
              (add_patterns_batch sample_provider (IndexWriteFails false)
                 sample_store sample_store_heap empty_disk
                 [0; 2]%nat).1.1) = 5%nat.
Proof.
  assert (H : consistent sample_store) by (vm_compute; reflexivity).
  destruct add_keeps_rows_and_patterns_in_step as (H1 & H2 & _).
  split; [exact H|]. split; [by vm_compute|].
  split; [by apply H1|]. split; [by vm_compute|].
  split; [by apply H2|]. by vm_compute.
Defined.

Example sample_store_rows :
  row_count sample_store = 3%nat ∧ patterns sample_store = [0; 1; 2]%nat.
Proof. vm_compute. done. Qed.

End StoreInvariant.

(** ** The flat index: what a search returns *)

Section FlatIndex.

Lemma insert_asc_perm x l : faiss.insert_asc x l ≡ₚ x :: l.
Proof.
  induction l as [|y l IH]; simpl; [done|].
  destruct (Qltb y.1 x.1); [|done].
  rewrite IH. apply Permutation_swap.
Qed.

Lemma sort_asc_perm l : faiss.sort_asc l ≡ₚ l.
Proof.
  induction l as [|x l IH]; simpl; [done|].
  fold (faiss.sort_asc l). by rewrite insert_asc_perm, IH.
Qed.

Lemma insert_asc_sorted x l :
  StronglySorted dist_le l → StronglySorted dist_le (faiss.insert_asc x l).
Proof.
  induction 1 as [|y l Hl IH Hy]; simpl.
  - repeat constructor.
  - destruct (Qltb y.1 x.1) eqn:E.
    + apply Qltb_lt in E. constructor; [done|].
      rewrite insert_asc_perm. constructor; [|done].
      by apply Qlt_le_weak.
    + apply Qltb_ge in E.
      constructor; [by constructor|].
      constructor; [done|].
      eapply Forall_impl; [exact Hy|].
      intros z Hz. unfold dist_le in *. by eapply Qle_trans.
Qed.

Lemma sort_asc_sorted l : StronglySorted dist_le (faiss.sort_asc l).
Proof.
  induction l as [|x l IH]; simpl; [constructor|].
  by apply insert_asc_sorted.
Qed.

Lemma Forall_sublist {A} (P : A → Prop) l1 l2 :
  l1 `sublist_of` l2 → Forall P l2 → Forall P l1.
Proof.
  rewrite !Forall_forall. intros Hsub H x Hx.
  apply H. by eapply elem_of_sublist.
Qed.

Lemma StronglySorted_take {A} (R : relation A) n l :
  StronglySorted R l → StronglySorted R (take n l).
Proof.
  intros H. revert n. induction H as [|x l Hl IH Hx]; intros [|n]; simpl;
    try constructor; [apply IH|].
  eapply Forall_sublist; [apply sublist_take|exact Hx].
Qed.

Lemma StronglySorted_sublist {A} (R : relation A) l1 l2 :
  l1 `sublist_of` l2 → StronglySorted R l2 → StronglySorted R l1.
Proof.
  induction 1 as [|x l1 l2 Hsub IH|x l1 l2 Hsub IH]; intros Hs.
  - constructor.
  - apply StronglySorted_inv in Hs as [Hs Hx]. constructor; [by apply IH|].
    by eapply Forall_sublist.
  - apply StronglySorted_inv in Hs as [Hs _]. by apply IH.
Qed.

Lemma zip_fst_snd_swap (slots : list (Q * Z)) :
  zip (map snd slots) (map fst slots) = map (λ s, (s.2, s.1)) slots.
Proof. induction slots as [|[a b] slots IH]; simpl; [done|]. by rewrite IH. Qed.

Lemma zip_fst_snd_id (slots : list (Q * Z)) :
  zip (map fst slots) (map snd slots) = slots.
Proof. induction slots as [|[a b] slots IH]; simpl; [done|]. by rewrite IH. Qed.

(** Every search returns [k] slots: first the nearest rows, by ascending
    distance, each one a stored row; then, when the index has fewer than
    [k] rows, slots with label [-1] and distance [FLT_MAX]. *)
Lemma faiss_search_slots index q k distances indices :
  faiss.search index q k = Ok (distances, indices) →
  ∃ hits,
    zip distances indices
    = hits ++ replicate (Z.to_nat k - faiss.ntotal index)
                        (faiss.FLT_MAX, -1)
    ∧ 0 < k
    ∧ length hits = Nat.min (Z.to_nat k) (faiss.ntotal index)
    ∧ StronglySorted dist_le hits
    ∧ Forall (valid_slot index q) hits.
Proof.
  unfold faiss.search.
  destruct (Z.leb_spec k 0); [done|].
  destruct (negb _); [done|].
  set (scored := imap (λ i x, (faiss.sqdist q x, Z.of_nat i))
                      (faiss.xb index)).
  set (hits := take (Z.to_nat k) (faiss.sort_asc scored)).
  assert (Hlen : length hits = Nat.min (Z.to_nat k) (faiss.ntotal index)).
  { unfold hits. rewrite length_take, (Permutation_length (sort_asc_perm _)).
    unfold scored. by rewrite length_imap. }
  intros [= <- <-]. exists hits. rewrite zip_fst_snd_id.
  split.
  { f_equal. f_equal. rewrite Hlen. lia. }
  split; [lia|]. split; [done|].
  split; [apply StronglySorted_take, sort_asc_sorted|].
  apply Forall_forall. intros slot Hslot.
  eapply elem_of_sublist in Hslot; [|apply sublist_take].
  rewrite sort_asc_perm in Hslot.
  unfold scored in Hslot. apply elem_of_lookup_imap in Hslot
    as (i & x & -> & Hx).
  split; simpl; [lia|]. exists x. by rewrite Nat2Z.id.
Qed.

End FlatIndex.

(** ** Pattern store: retrieval *)

Section Retrieval.
Import PatternStorage.

Lemma fresh_lookup_None (h : gmap nat Pattern) : h !! fresh (dom h) = None.
Proof. apply not_elem_of_dom, is_fresh. Qed.

Lemma insert_fresh_subseteq (h : gmap nat Pattern) p :
  h ⊆ <[fresh (dom h) := p]> h.
Proof. apply insert_subseteq, fresh_lookup_None. Qed.

(** The loop only adds objects to the heap. *)
Lemma retrieve_loop_heap np self k threshold category level candidates :
  ∀ h results h' outcome,
    retrieve_loop np self k threshold category level candidates h results
    = (h', outcome) →
    h ⊆ h'.
Proof.
  induction candidates as [|[idx distance] rest IH];
    intros h results h' outcome; simpl.
  - by intros [= <- _].
  - destruct (idx <? Z.of_nat (length (patterns self))); [|apply IH].
    destruct (_ ≫= deref h) as [original|]; [|by intros [= <- _]].
    set (h1 := <[fresh (dom h) := _]> h).
    assert (h ⊆ h1) by apply insert_fresh_subseteq.
    destruct (accepted _ _ _ _).
    + destruct (_ >=? k).
      * by intros [= <- _].
      * intros Hrec. apply IH in Hrec. by etrans.
    + intros Hrec. apply IH in Hrec. by etrans.
Qed.

Lemma retrieve_relevant_heap np get_embedding self h question k category
    min_severity threshold :
  h ⊆ (retrieve_relevant np get_embedding self h question k category
                         min_severity threshold).1.2.
Proof.
  unfold retrieve_relevant.
  destruct (index self) as [index0|]; [|done].
  destruct (length (patterns self) =? 0)%nat; [done|].
  unfold retrieve_relevant_body.
  destruct (Embedder.embed get_embedding (embedder self) question)
    as [e [v|]]; [|done].
  destruct (faiss.search index0 v _) as [[ds ids]|]; [|done].
  destruct (retrieve_loop _ _ _ _ _ _ _ _ _) as [h' outcome] eqn:E.
  apply retrieve_loop_heap in E. by destruct outcome.
Qed.

(** Claim C9: when the embedding call raises, retrieve_relevant returns
    the empty list, as it does for any exception raised in its try block,
    for a store without index and for a store without patterns. *)
Theorem retrieve_relevant_empty_on_failure np get_embedding self h question
    k category min_severity threshold :
  let results := (retrieve_relevant np get_embedding self h question k
                                    category min_severity threshold).2 in
  (∀ e exn,
     Embedder.embed get_embedding (embedder self) question = (e, Raise exn) →
     results = [])
  ∧ (∀ index0 self' h' exn,
       index self = Some index0 →
       retrieve_relevant_body np get_embedding self h index0 question k
         category min_severity
         (match threshold with
          | Some x => x
          | None => default 0%Q (RAG_RELEVANCE_THRESHOLD self)
          end)
       = (self', h', Raise exn) →
       results = [])
  ∧ (index self = None → results = [])
  ∧ (patterns self = [] → results = []).
Proof.
  cbv zeta. unfold retrieve_relevant. repeat apply conj.
  - intros e exn He.
    destruct (index self) as [index0|]; [|done].
    destruct (length (patterns self) =? 0)%nat; [done|].
    unfold retrieve_relevant_body. by rewrite He.
  - intros index0 self' h' exn -> Hbody.
    destruct (length (patterns self) =? 0)%nat; [done|].
    by rewrite Hbody.
  - by intros ->.
  - intros ->. by destruct (index self).
Qed.

Lemma py_index_lookup {A} (l : list A) (i : Z) x :
  py_index l i = Some x →
  l !! Z.to_nat (if 0 <=? i then i else Z.of_nat (length l) + i) = Some x.
Proof.
  unfold py_index. destruct (0 <=? i); [done|].
  by destruct (0 <=? Z.of_nat (length l) + i).
Qed.

Lemma py_index_in_range {A} (l : list A) (i : Z) :
  - Z.of_nat (length l) <= i < Z.of_nat (length l) →
  ∃ x, py_index l i = Some x ∧ x ∈ l.
Proof.
  intros Hi. unfold py_index.
  destruct (Z.leb_spec 0 i).
  - destruct (lookup_lt_is_Some_2 l (Z.to_nat i)) as [x Hx]; [lia|].
    exists x. split; [done|]. by eapply list_elem_of_lookup_2.
  - destruct (Z.leb_spec 0 (Z.of_nat (length l) + i)); [|lia].
    destruct (lookup_lt_is_Some_2 l (Z.to_nat (Z.of_nat (length l) + i)))
      as [x Hx]; [lia|].
    exists x. split; [done|]. by eapply list_elem_of_lookup_2.
Qed.

Lemma result_of_weaken np self h h1 h2 threshold category level r c :
  h1 ⊆ h2 →
  result_of np self h h1 threshold category level r c →
  result_of np self h h2 threshold category level r c.
Proof.
  intros Hsub (Hr & l & original & Hl & Ho & Hc & Hacc).
  split; [done|]. exists l, original.
  repeat split; try done; by eapply lookup_weaken.
Qed.

(** The loop, when it ends normally: the references it adds to
    [results] stand, in order, for accepted candidates taken in the
    order of the candidate list, and it stops at [k] results. *)
Lemma retrieve_loop_results np self k threshold category level candidates :
  ∀ h0 h results h' out,
    h0 ⊆ h →
    retrieve_loop np self k threshold category level candidates h results
    = (h', Ok out) →
    ∃ new acc,
      out = results ++ new
      ∧ acc `sublist_of` candidates
      ∧ Forall2 (result_of np self h0 h' threshold category level) new acc
      ∧ (Z.of_nat (length results) < k → Z.of_nat (length out) <= k).
Proof.
  induction candidates as [|[idx distance] rest IH];
    intros h0 h results h' out Hsub; simpl.
  - intros [= <- <-]. exists [], []. rewrite app_nil_r.
    repeat split; [done|constructor|lia].
  - destruct (idx <? Z.of_nat (length (patterns self))).
    2:{ intros Hrec.
        destruct (IH _ _ _ _ _ Hsub Hrec) as (new & acc & ? & ? & ? & ?).
        exists new, acc. repeat split; try done. by apply sublist_cons. }
    destruct (py_index (patterns self) idx) as [l|] eqn:Hidx; [|done].
    simpl. unfold deref.
    destruct (h !! l) as [original|] eqn:Hl; [|done].
    set (copy := fresh (dom h)).
    set (pattern := set_relevance_score original (relevance np distance)).
    set (h1 := <[copy := pattern]> h).
    assert (Hsub1 : h ⊆ h1) by apply insert_fresh_subseteq.
    assert (Hsub01 : h0 ⊆ h1) by (by etrans).
    assert (Hcopy : h0 !! copy = None).
    { destruct (h0 !! copy) as [p|] eqn:E; [|done].
      eapply lookup_weaken in E; [|exact Hsub].
      unfold copy in E. by rewrite fresh_lookup_None in E. }
    destruct (accepted threshold category level pattern) eqn:Hacc.
    2:{ intros Hrec.
        destruct (IH _ _ _ _ _ Hsub01 Hrec) as (new & acc & ? & ? & ? & ?).
        exists new, acc. repeat split; try done. by apply sublist_cons. }
    assert (Hhead : ∀ h2, h1 ⊆ h2 →
              result_of np self h0 h2 threshold category level copy
                        (idx, distance)).
    { intros h2 Hsub2. split; [done|]. exists l, original.
      split; [by apply py_index_lookup|].
      split; [eapply lookup_weaken; [exact Hl|by etrans]|].
      split; [|done].
      eapply lookup_weaken; [|exact Hsub2]. apply lookup_insert_eq. }
    destruct (Z.of_nat (length (results ++ [copy])) >=? k) eqn:Hk.
    + intros [= <- <-]. exists [copy], [(idx, distance)].
      split; [done|]. split; [apply sublist_skip, sublist_nil_l|].
      split; [constructor; [by apply Hhead|constructor]|].
      rewrite length_app. simpl. lia.
    + intros Hrec.
      pose proof (retrieve_loop_heap _ _ _ _ _ _ _ _ _ _ _ Hrec).
      destruct (IH _ _ _ _ _ Hsub01 Hrec) as (new & acc & -> & ? & ? & Hlen).
      exists (copy :: new), ((idx, distance) :: acc).
      split; [by rewrite <- app_assoc|].
      split; [by apply sublist_skip|].
      split; [constructor; [by apply Hhead|done]|].
      intros _. apply Hlen. lia.
Qed.

Lemma retrieve_relevant_results np get_embedding self h question k category
    min_severity threshold :
  let out := retrieve_relevant np get_embedding self h question k category
                               min_severity threshold in
  ∃ acc,
    acc `sublist_of` search_candidates get_embedding self question k
    ∧ Forall2 (result_of np self h out.1.2
                 (effective_threshold self threshold) category
                 (severity_level min_severity)) out.2 acc
    ∧ (length out.2 <= Z.to_nat k)%nat.
Proof.
  cbv zeta. unfold retrieve_relevant, search_candidates.
  fold (effective_threshold self threshold).
  destruct (index self) as [index0|];
    [|exists []; repeat split; [done|constructor|simpl; lia]].
  destruct (length (patterns self) =? 0)%nat;
    [exists []; repeat split; [apply sublist_nil_l|constructor|simpl; lia]|].
  unfold retrieve_relevant_body.
  destruct (Embedder.embed get_embedding (embedder self) question)
    as [e [query|]];
    [|exists []; repeat split; [done|constructor|simpl; lia]].
  cbn [snd].
  destruct (faiss.search index0 query _) as [[distances indices]|] eqn:Es;
    [|exists []; repeat split; [done|constructor|simpl; lia]].
  apply faiss_search_slots in Es as (_ & _ & Hk & _).
  destruct (retrieve_loop _ _ _ _ _ _ _ _ _) as [h' [results|]] eqn:Eloop;
    [|exists []; repeat split; [apply sublist_nil_l|constructor|simpl; lia]].
  eapply (retrieve_loop_results _ _ _ _ _ _ _ h) in Eloop as
    (new & acc & -> & Hsub & Hres & Hlen); [|done].
  exists acc. cbn [fst snd app] in *.
  repeat split; [done|done|]. simpl in Hlen. lia.
Qed.

Lemma zip_swap {A B} (l1 : list A) (l2 : list B) :
  zip l2 l1 = map (λ s, (s.2, s.1)) (zip l1 l2).
Proof.
  revert l2. induction l1 as [|a l1 IH]; intros [|b l2]; simpl; try done.
  by rewrite IH.
Qed.

Lemma StronglySorted_swap (hits : list (Q * Z)) :
  StronglySorted dist_le hits →
  StronglySorted (λ a b : Z * Q, (a.2 <= b.2)%Q)
                 (map (λ s, (s.2, s.1)) hits).
Proof.
  induction 1 as [|x l Hl IH Hx]; simpl; constructor; [done|].
  apply Forall_forall. intros y Hy.
  apply list_elem_of_fmap in Hy as (z & -> & Hz).
  rewrite Forall_forall in Hx. by apply Hx.
Qed.

(** On a store whose index has a row for every pattern the candidates
    come by ascending distance. *)
Lemma search_candidates_sorted get_embedding self question k :
  consistent self →
  StronglySorted (λ a b : Z * Q, (a.2 <= b.2)%Q)
                 (search_candidates get_embedding self question k).
Proof.
  unfold consistent, row_count, search_candidates. intros Hinv.
  destruct (index self) as [index0|]; [|constructor].
  destruct (Embedder.embed _ _ _).2 as [query|]; [|constructor].
  destruct (faiss.search index0 query _) as [[distances indices]|] eqn:Es;
    [|constructor].
  apply faiss_search_slots in Es as (hits & Hzip & _ & _ & Hsorted & _).
  rewrite zip_swap, Hzip.
  replace (Z.to_nat _ - faiss.ntotal index0)%nat with 0%nat by lia.
  simpl. rewrite app_nil_r. by apply StronglySorted_swap.
Qed.

Lemma sqdist_nonneg x y : (0 <= faiss.sqdist x y)%Q.
Proof.
  unfold faiss.sqdist. revert y.
  induction x as [|a x IH]; intros [|b y]; simpl; try done.
  assert (H : (0 <= (a - b) * (a - b))%Q).
  { generalize (a - b)%Q. intros q. unfold Qle. simpl. nia. }
  pose proof (IH y) as H2.
  replace 0%Q with (0 + 0)%Q by done. by apply Qplus_le_compat.
Qed.

(** The labels of the candidates are positions of rows, or [-1]; their
    distances are not negative. *)
Lemma search_candidates_bounds get_embedding self question k :
  Forall (λ c : Z * Q, -1 <= c.1 ∧ (0 <= c.2)%Q)
         (search_candidates get_embedding self question k).
Proof.
  unfold search_candidates.
  destruct (index self) as [index0|]; [|constructor].
  destruct (Embedder.embed _ _ _).2 as [query|]; [|constructor].
  destruct (faiss.search index0 query _) as [[distances indices]|] eqn:Es;
    [|constructor].
  apply faiss_search_slots in Es as (hits & Hzip & _ & _ & _ & Hvalid).
  rewrite zip_swap, Hzip, map_app. apply Forall_app. split.
  - apply Forall_forall. intros c Hc.
    apply list_elem_of_fmap in Hc as (slot & -> & Hslot).
    rewrite Forall_forall in Hvalid.
    destruct (Hvalid _ Hslot) as (H0 & x & _ & ->). simpl.
    split; [lia|apply sqdist_nonneg].
  - apply Forall_forall. intros c Hc.
    apply list_elem_of_fmap in Hc as (slot & -> & Hslot).
    apply elem_of_replicate in Hslot as [-> _]. simpl.
    split; [lia|by vm_compute].
Qed.

Lemma category_filter_iff category p :
  truthy_str category
  && negb (bool_decide
             (Some (default (u "general") (PatternStorage.category p))
              = category))
  && negb (bool_decide
             (default (u "general") (PatternStorage.category p)
              = u "general")) = false
  ↔ passes_category category p.
Proof.
  unfold passes_category.
  destruct category as [[|c wanted]|]; cbn [truthy_str andb];
    try (split; done).
  rewrite andb_false_iff, !negb_false_iff, !bool_decide_eq_true.
  destruct (PatternStorage.category p) as [x|]; simpl.
  - split.
    + intros [H|H]; [by right; right|right; left; by rewrite H].
    + intros [H|[H|H]]; [done|right; by injection H|by left].
  - split; [by left|]. intros _. by right.
Qed.

(** The filters of the code are the filters of the specification. *)
Lemma accepted_iff np threshold category min_severity original distance :
  accepted threshold category (severity_level min_severity)
           (set_relevance_score original (relevance np distance)) = true
  ↔ passes np threshold category min_severity (original, distance).
Proof.
  unfold accepted, passes, passes_threshold, passes_severity.
  cbn [relevance_score set_relevance_score PatternStorage.category severity
       fst snd].
  change (default float.zero (Some (relevance np distance)))
    with (relevance np distance).
  rewrite <- category_filter_iff.
  destruct (float.ltb float.zero (float.of_Q threshold));
    destruct (float.ltb (relevance np distance) (float.of_Q threshold));
    cbn [andb]; try (split; [done|by intros [H _]; specialize (H eq_refl)]).
  all: destruct (truthy_str category && _ && _);
    try (split; [done|by intros (_ & ? & _)]).
  all: destruct (Z.ltb_spec
                   (severity_level
                      (default (u "minor") (severity original)))
                   (severity_level min_severity));
    try (split; [done|intros (_ & _ & ?); lia]);
    (split; [intros _; by split_and!|done]).
Qed.

(** The loop on candidates that all stand for a stored dict: it ends
    normally, and what it adds to [results] are new references to the
    scored copies of the rows that pass the filters, in the order of the
    candidates, as long as [results] has fewer than [k] entries. *)
Lemma retrieve_loop_exact np self k threshold category min_severity
    candidates :
  ∀ h0 h results,
    h0 ⊆ h →
    Forall (λ l, is_Some (h0 !! l)) (patterns self) →
    Forall (λ c : Z * Q, - Z.of_nat (length (patterns self)) <= c.1)
           candidates →
    Z.of_nat (length results) < k →
    ∃ h' new,
      retrieve_loop np self k threshold category
        (severity_level min_severity) candidates h results
      = (h', Ok (results ++ new))
      ∧ h ⊆ h'
      ∧ Forall2 (λ r row, h !! r = None
                          ∧ h' !! r = Some (scored_copy np row))
          new
          (take (Z.to_nat k - length results)
                (filter (passes np threshold category min_severity)
                        (omap (row_of self h0) candidates))).
Proof.
  induction candidates as [|[idx distance] rest IH];
    intros h0 h results Hsub Hheap Hcands Hk.
  - exists h, []. cbn [retrieve_loop omap list_omap]. rewrite app_nil_r.
    rewrite filter_nil, take_nil.
    split; [done|]. split; [done|constructor].
  - apply Forall_cons in Hcands as [Hidx Hcands]. simpl in Hidx.
    cbn [retrieve_loop omap list_omap]. unfold row_of at 1. cbn [fst snd].
    destruct (Z.ltb_spec idx (Z.of_nat (length (patterns self))))
      as [Hlt|Hge].
    2:{ destruct (IH h0 h results Hsub Hheap Hcands Hk)
          as (h' & new & Hrun & Hh & Hnew).
        exists h', new. by split. }
    destruct (py_index_in_range (patterns self) idx) as (l & Hl & Hin);
      [lia|].
    rewrite Hl. cbn [mbind option_bind result_bind].
    rewrite Forall_forall in Hheap.
    destruct (Hheap l Hin) as [original Ho].
    rewrite Ho. cbn [mbind option_bind].
    change (Ok l ≫= deref h) with (deref h l). unfold deref.
    rewrite (lookup_weaken _ _ _ _ Ho Hsub).
    set (copy := fresh (dom h)).
    set (pattern := set_relevance_score original (relevance np distance)).
    set (h1 := <[copy := pattern]> h).
    assert (Hsub1 : h ⊆ h1) by apply insert_fresh_subseteq.
    assert (Hsub01 : h0 ⊆ h1) by (by etrans).
    assert (Hfresh : h !! copy = None) by apply fresh_lookup_None.
    rewrite filter_cons.
    destruct (accepted threshold category (severity_level min_severity)
                       pattern) eqn:Hacc.
    + rewrite decide_True by (by apply accepted_iff).
      destruct (Z.geb_spec (Z.of_nat (length (results ++ [copy]))) k)
        as [Hfull|Hmore].
      * rewrite length_app in Hfull. simpl in Hfull.
        exists h1, [copy]. split; [done|]. split; [done|].
        replace (Z.to_nat k - length results)%nat with 1%nat by lia.
        simpl. rewrite take_0. constructor; [|constructor].
        split; [done|]. apply lookup_insert_eq.
      * rewrite length_app in Hmore. simpl in Hmore.
        destruct (IH h0 h1 (results ++ [copy]) Hsub01)
          as (h' & new & Hrun & Hh & Hnew).
        { by apply Forall_forall. }
        { done. }
        { rewrite length_app. simpl. lia. }
        exists h', (copy :: new).
        split; [by rewrite Hrun, <- app_assoc|].
        split; [by etrans|].
        replace (Z.to_nat k - length results)%nat
          with (S (Z.to_nat k - length (results ++ [copy])))%nat
          by (rewrite length_app; simpl; lia).
        simpl. constructor.
        -- split; [done|]. eapply lookup_weaken; [|exact Hh].
           apply lookup_insert_eq.
        -- eapply Forall2_impl; [exact Hnew|].
           intros r row [Hr1 Hr2]. split; [|done].
           destruct (h !! r) as [p|] eqn:E; [|done].
           pose proof (lookup_weaken _ _ _ _ E Hsub1) as E1.
           exact (eq_trans (eq_sym E1) Hr1).
    + rewrite decide_False.
      2:{ rewrite <- accepted_iff. fold pattern. by rewrite Hacc. }
      destruct (IH h0 h1 results Hsub01) as (h' & new & Hrun & Hh & Hnew).
      { by apply Forall_forall. }
      { done. }
      { done. }
      exists h', new. split; [done|]. split; [by etrans|].
      eapply Forall2_impl; [exact Hnew|].
      intros r row [Hr1 Hr2]. split; [|done].
      destruct (h !! r) as [p|] eqn:E; [|done].
      pose proof (lookup_weaken _ _ _ _ E Hsub1) as E1.
      exact (eq_trans (eq_sym E1) Hr1).
Qed.

(** The relevance of a distance that is not negative is a float of the
    sign [false]: not a NaN. *)
Lemma relevance_sign np distance :
  (0 <= distance)%Q → has_sign false (relevance np distance).
Proof.
  intros Hd. unfold relevance.
  pose proof (float32_of_Q_sign distance Hd) as H32.
  destruct np.
  - apply SFdiv_sign; [by eexists _, _; vm_compute|].
    apply SFadd_sign; [done|]. by apply to_float_sign.
  - apply to_float_sign. apply SFdiv_sign; [by eexists _, _; vm_compute|].
    by apply SFadd_sign.
Qed.

Lemma kept_rows_elem np self h threshold category min_severity k candidates
    row :
  row ∈ kept_rows np self h threshold category min_severity k candidates →
  passes np threshold category min_severity row
  ∧ ∃ c, c ∈ candidates ∧ row_of self h c = Some row.
Proof.
  unfold kept_rows. intros Hrow.
  eapply elem_of_sublist in Hrow; [|apply sublist_take].
  apply list_elem_of_filter in Hrow as [Hp Hrow].
  split; [done|].
  apply list_elem_of_omap in Hrow as (c & Hc & Hrow). by exists c.
Qed.

Lemma row_of_distance self h c row : row_of self h c = Some row → row.2 = c.2.
Proof.
  unfold row_of. destruct (_ <? _); [|done].
  destruct (py_index _ _) as [l|]; [|done]. simpl.
  destruct (h !! l); [|done]. simpl. by intros [= <-].
Qed.

Lemma kept_rows_distances np self h threshold category min_severity k
    candidates :
  (snd <$> kept_rows np self h threshold category min_severity k candidates)
  `sublist_of` (snd <$> candidates).
Proof.
  unfold kept_rows.
  etrans; [apply (fmap_sublist snd), sublist_take|].
  etrans; [apply (fmap_sublist snd), sublist_filter|].
  induction candidates as [|c candidates IH]; [done|].
  cbn [omap list_omap].
  destruct (row_of self h c) as [row|] eqn:E.
  - simpl. rewrite (row_of_distance _ _ _ _ E). by apply sublist_skip.
  - simpl. by apply sublist_cons.
Qed.

Ltac empty_result :=
  cbn [omap list_omap fst snd]; rewrite ?filter_nil, ?take_nil; constructor.



Example severity_ordering :
  severity_level (u "minor") < severity_level (u "major")
  ∧ severity_level (u "major") < severity_level (u "critical").
Proof. by vm_compute. Qed.

(** The scenario of the specification: with category 'vaccines' the
    'surgeries' pattern is left out and the 'general' pattern is
    returned. *)
Example scenario_category_filter :
  let out := retrieve_relevant NumPy2 sample_provider sample_store
               sample_store_heap (u "dose?") 5 (Some (u "vaccines"))
               (u "minor") (Some 0%Q) in
  map (λ r, p ← out.1.2 !! r; category p) out.2
  = [Some (u "vaccines"); Some (u "general")].
Proof. by vm_compute. Qed.

(** Rounding decides at the threshold: at distance 49 the relevance is
    the float32 below 0.02 under NumPy 2, which the threshold 0.02
    rejects, and the float 0.02 itself before NumPy 2, which it keeps. *)
Example relevance_at_the_threshold :
  relevance NumPy2 49 = S754_finite false 5764607394185216 (-58)
  ∧ relevance NumPy1 49 = float.of_Q 0.02
  ∧ passes_threshold NumPy1 0.02 49
  ∧ ¬ passes_threshold NumPy2 0.02 49.
Proof.
  split; [by vm_compute|]. split; [by vm_compute|].
  split; [by vm_compute|]. intros H. specialize (H eq_refl).
  by vm_compute in H.
Qed.

(** Claim C10: retrieve_relevant leaves the pattern list as it was, with
    the same references in the same order, and every object that was on
    the heap before the call, the stored records among them, is the same
    afterwards: no stored record gains a relevance_score.  The scores
    are written to copies allocated during the call: every reference
    returned is new and holds a record with a relevance_score. *)
Theorem retrieve_relevant_frame np get_embedding self h question k category
    min_severity threshold :
  let out := retrieve_relevant np get_embedding self h question k category
                               min_severity threshold in
  patterns out.1.1 = patterns self
  ∧ length (patterns out.1.1) = length (patterns self)
  ∧ (∀ l p, h !! l = Some p → out.1.2 !! l = Some p)
  ∧ (∀ l p, l ∈ patterns self → h !! l = Some p →
            ∃ p', out.1.2 !! l = Some p'
                  ∧ relevance_score p' = relevance_score p)
  ∧ Forall (λ r, h !! r = None
                 ∧ ∃ p score, out.1.2 !! r = Some p
                              ∧ relevance_score p = Some score) out.2.
Proof.
  cbv zeta.
  destruct (retrieve_relevant_store np get_embedding self h question k
              category min_severity threshold) as [Hp _].
  pose proof (retrieve_relevant_heap np get_embedding self h question k
                category min_severity threshold) as Hh.
  split; [done|]. split; [by rewrite Hp|].
  split; [|split].
  - intros l p Hl. by eapply lookup_weaken.
  - intros l p _ Hl. exists p. split; [|done]. by eapply lookup_weaken.
  - destruct (retrieve_relevant_results np get_embedding self h question k
                category min_severity threshold) as (acc & _ & Hres & _).
    induction Hres as [|r c rs cs Hr _ IH]; constructor; [|done].
    destruct Hr as (Hnew & l & original & _ & _ & Hcopy & _).
    split; [done|]. by eexists _, _.
Qed.

End Retrieval.

(** ** Vector store: search *)

Section VectorSearch.
Import VectorStore.

Lemma format_results_length self slots :
  ∀ acc out,
    format_results self slots acc = Ok out →
    (length out <= length acc + length slots)%nat.
Proof.
  induction slots as [|[dist idx] slots IH]; intros acc out; simpl.
  - intros [= <-]. lia.
  - destruct (idx <? _).
    + destruct (py_index (metadata self) idx) as [m|]; [|done].
      destruct (py_index (texts self) idx) as [text|]; [|done].
      intros H. apply IH in H. rewrite length_app in H. simpl in H. lia.
    + intros H. apply IH in H. lia.
Qed.

(** A search never returns more than [k] results. *)
Lemma vector_store_search_at_most_k get_embedding self query k self' results :
  search get_embedding self query k = (self', Ok results) →
  (length results <= Z.to_nat k)%nat.
Proof.
  unfold search. destruct (index self) as [index0|]; [|done].
  destruct (Embedder.embed get_embedding (embedder self) query)
    as [e [v|]]; [|done].
  destruct (faiss.search index0 v k) as [[distances indices]|] eqn:Es;
    [|done].
  intros [= _ Hf]. apply format_results_length in Hf. simpl in Hf.
  apply faiss_search_slots in Es as (hits & Hzip & Hk & Hlen & _).
  rewrite Hzip, length_app, length_replicate in Hf. lia.
Qed.

(** Slots that stand for stored rows are turned into results one by
    one, in order. *)
Lemma format_results_valid self index0 query slots :
  length (metadata self) = faiss.ntotal index0 →
  length (texts self) = faiss.ntotal index0 →
  Forall (valid_slot index0 query) slots →
  ∀ acc, ∃ new,
    format_results self slots acc = Ok (acc ++ new)
    ∧ map distance new = map fst slots
    ∧ Forall (row_result self index0 query) new.
Proof.
  intros Hm Ht. induction 1 as [|[dist idx] slots Hslot _ IH]; intros acc.
  - exists []. by rewrite app_nil_r.
  - destruct Hslot as (Hpos & x & Hx & Hd). simpl in *.
    pose proof (lookup_lt_Some _ _ _ Hx) as Hlt.
    unfold faiss.ntotal in *.
    destruct (Z.ltb_spec idx (Z.of_nat (length (metadata self)))); [|lia].
    unfold py_index. destruct (Z.leb_spec 0 idx); [|lia].
    destruct (lookup_lt_is_Some_2 (metadata self) (Z.to_nat idx)) as [m Hmeta];
      [lia|].
    destruct (lookup_lt_is_Some_2 (texts self) (Z.to_nat idx)) as [t Htext];
      [lia|].
    rewrite Hmeta, Htext.
    destruct (IH (acc ++ [{| meta := m; content := t; distance := dist;
                             similarity := similarity_of dist |}]))
      as (new & -> & Hdist & Hrows).
    eexists (_ :: new). rewrite <- app_assoc. split; [done|].
    split; [simpl; by rewrite Hdist|].
    constructor; [|done].
    exists (Z.to_nat idx), x. simpl. by rewrite Hd.
Qed.

(** While [k] does not exceed the number of rows, a search returns [k]
    results, each a stored row, by non-decreasing distance. *)
Lemma vector_store_search_within_rows
    get_embedding self index0 e query_embedding query k :
  index self = Some index0 →
  length (metadata self) = faiss.ntotal index0 →
  length (texts self) = faiss.ntotal index0 →
  Embedder.embed get_embedding (embedder self) query
  = (e, Ok query_embedding) →
  length query_embedding = faiss.d index0 →
  1 <= k <= Z.of_nat (faiss.ntotal index0) →
  ∃ results,
    search get_embedding self query k = (with_embedder self e, Ok results)
    ∧ length results = Z.to_nat k
    ∧ Forall (row_result self index0 query_embedding) results
    ∧ StronglySorted (λ a b, (a <= b)%Q) (map distance results).
Proof.
  intros Hi Hm Ht He Hd Hk. unfold search. rewrite Hi, He.
  destruct (faiss.search index0 query_embedding k)
    as [[distances indices]|] eqn:Es.
  2:{ unfold faiss.search in Es. destruct (Z.leb_spec k 0); [lia|].
      rewrite Hd, Nat.eqb_refl in Es. done. }
  apply faiss_search_slots in Es as (hits & -> & _ & Hlen & Hsorted & Hvalid).
  replace (Z.to_nat k - faiss.ntotal index0)%nat with 0%nat by lia.
  simpl. rewrite app_nil_r.
  destruct (format_results_valid self index0 query_embedding hits Hm Ht
              Hvalid []) as (new & Hf & Hdist & Hrows).
  simpl in Hf. exists new.
  assert (Hf' : format_results (with_embedder self e) hits [] = Ok new).
  { rewrite <- Hf. clear. generalize (@nil Result).
    induction hits as [|[dist idx] hits IH]; intros acc; simpl; [done|].
    destruct (idx <? _); [|apply IH].
    destruct (py_index (metadata self) idx); [|done].
    destruct (py_index (texts self) idx); [|done]. apply IH. }
  rewrite Hf'. split; [done|].
  split.
  { rewrite <- (length_map distance), Hdist, length_map, Hlen. lia. }
  split; [done|].
  rewrite Hdist. clear -Hsorted.
  induction Hsorted as [|x l Hl IH Hx]; simpl; constructor; [done|].
  apply Forall_forall. intros y Hy.
  apply list_elem_of_fmap in Hy as (z & -> & Hz).
  rewrite Forall_forall in Hx. by apply Hx.
Qed.

(** Claim C7 fails beyond the stored rows: on a store built from one
    entity, a search with k = 2 returns two results; the second repeats
    the last row with the distance FLT_MAX, which is the distance of no
    stored row. *)
Lemma vector_store_search_beyond_rows :
  ∃ index0 r1 r2,
    index sample_vector_store = Some index0
    ∧ faiss.ntotal index0 = 1%nat
    ∧ (search sample_provider sample_vector_store (u "flu") 2).2
      = Ok [r1; r2]
    ∧ row_result sample_vector_store index0 [3%Q; 0%Q] r1
    ∧ meta r2 = meta r1 ∧ content r2 = content r1
    ∧ distance r2 = faiss.FLT_MAX
    ∧ ¬ row_result sample_vector_store index0 [3%Q; 0%Q] r2.
Proof.
  eexists _, _, _. split; [vm_compute; reflexivity|].
  split; [reflexivity|].
  split; [vm_compute; reflexivity|].
  split.
  { exists 0%nat, [8%Q; 0%Q]. by vm_compute. }
  do 3 (split; [reflexivity|]).
  intros (i & x & _ & _ & Hx & Hd).
  destruct i as [|i]; [|by destruct i].
  injection Hx as <-. vm_compute in Hd. discriminate.
Qed.

Lemma vector_store_search_at_most_k_witness :
  ∃ self' results,
    search sample_provider sample_vector_store (u "flu") 2
    = (self', Ok results)
    ∧ (length results <= Z.to_nat 2)%nat.
Proof.
  eexists _, _.
  eassert (H : search sample_provider sample_vector_store (u "flu") 2
               = (_, Ok _)) by (vm_compute; reflexivity).
  split; [exact H|].
  exact (vector_store_search_at_most_k _ _ _ _ _ _ H).
Defined.

Lemma vector_store_search_within_rows_witness :
  ∃ results,
    (search sample_provider sample_vector_store (u "flu") 1).2 = Ok results
    ∧ length results = 1%nat
    ∧ StronglySorted (λ a b, (a <= b)%Q) (map distance results).
Proof.
  eassert (Hi : index sample_vector_store = Some _)
    by (vm_compute; reflexivity).
  eassert (He : Embedder.embed sample_provider (embedder sample_vector_store)
                               (u "flu") = (_, Ok _))
    by (vm_compute; reflexivity).
  destruct (vector_store_search_within_rows sample_provider
              sample_vector_store _ _ _ (u "flu") 1 Hi eq_refl eq_refl He
              eq_refl)
    as (results & Hs & Hlen & _ & Hsorted).
  { vm_compute. split; discriminate. }
  exists results. rewrite Hs. by repeat split.
Defined.

End VectorSearch.

(** ** Embedder: the cache and the batch path *)

Section EmbedderFacts.
Import Embedder.

Lemma limit_5500 : 5500%nat = Z.to_nat 5500.
Proof. vm_compute. reflexivity. Qed.

Lemma truncate_text_short text :
  Z.of_nat (length text) <= 5500 → _truncate_text text = text.
Proof.
  intros H. unfold _truncate_text. rewrite limit_5500.
  destruct (Nat.leb_spec (length text) (Z.to_nat 5500)); [done|lia].
Qed.

Lemma truncate_text_long text :
  5500 < Z.of_nat (length text) →
  _truncate_text text = take 5500 text ++ u "...".
Proof.
  intros H. unfold _truncate_text. rewrite limit_5500.
  destruct (Nat.leb_spec (length text) (Z.to_nat 5500)); [lia|done].
Qed.

Lemma length_dots : length (u "...") = 3%nat.
Proof. reflexivity. Qed.

(** [_truncate_text] keeps a text of at most 5500 characters, cuts a
    longer one to its first 5500 characters followed by three dots, and
    truncating twice is truncating once: the cache key of a text is
    stable. *)
Theorem truncate_text_stable (text : pystr) :
  (Z.of_nat (length text) <= 5500 → _truncate_text text = text)
  ∧ (5500 < Z.of_nat (length text) →
     _truncate_text text = take 5500 text ++ u "..."
     ∧ Z.of_nat (length (_truncate_text text)) = 5503)
  ∧ take 5500 (_truncate_text text) = take 5500 text
  ∧ _truncate_text (_truncate_text text) = _truncate_text text.
Proof.
  split; [apply truncate_text_short|]. split.
  { intros H. split; [by apply truncate_text_long|].
    rewrite truncate_text_long by done.
    rewrite length_app, length_take, length_dots, limit_5500. lia. }
  destruct (Z.le_gt_cases (Z.of_nat (length text)) 5500) as [Hle|Hgt].
  - by rewrite !truncate_text_short.
  - assert (Hcut : take 5500 (take 5500 text ++ u "...") = take 5500 text).
    { rewrite take_app_le by (rewrite length_take, limit_5500; lia).
      by rewrite take_take, Nat.min_id. }
    rewrite (truncate_text_long text Hgt). split; [done|].
    rewrite truncate_text_long.
    + by rewrite Hcut.
    + rewrite length_app, length_take, length_dots, limit_5500. lia.
Qed.

Lemma cache_hit_store self key v :
  USE_EMBEDDING_CACHE self = true →
  cache_hit (store self key v) key = Some v.
Proof.
  intros H. unfold cache_hit, store. simpl. rewrite H.
  apply lookup_insert_eq.
Qed.


(** What the batch path may hand out for a key, seen from the embedder
    [self0] the batch started with: a vector cached in [self0] or an
    answer of the provider. *)
Lemma embed_batch_items_from get_embedding self0 texts :
  ∀ self,
    EMBEDDING_DIMENSION self = EMBEDDING_DIMENSION self0 →
    USE_EMBEDDING_CACHE self = USE_EMBEDDING_CACHE self0 →
    (∀ k v, cache_hit self k = Some v →
            cache_hit self0 k = Some v ∨ get_embedding k = Ok v) →
    ∀ i text v,
      texts !! i = Some text →
      (embed_batch get_embedding self texts).2 !! i = Some v →
      cache_hit self0 (_truncate_text text) = Some v
      ∨ get_embedding (_truncate_text text) = Ok v
      ∨ (v = replicate (EMBEDDING_DIMENSION self0) 0%Q
         ∧ ∃ exn, get_embedding (_truncate_text text) = Raise exn).
Proof.
  induction texts as [|t texts IH]; intros self Hdim Huse Hinv i text v;
    [done|].
  simpl.
  destruct (cache_hit self (_truncate_text t)) as [c|] eqn:Hc.
  - destruct (embed_batch get_embedding self texts) as [e vs] eqn:Eb.
    destruct i as [|i]; simpl.
    + intros [= <-] [= <-]. destruct (Hinv _ _ Hc); auto.
    + intros Ht Hv. eapply (IH self); try done. by rewrite Eb.
  - destruct (get_embedding (_truncate_text t)) as [w|exn] eqn:Hg.
    + set (self1 := if USE_EMBEDDING_CACHE self
                    then store self (_truncate_text t) w else self).
      destruct (embed_batch get_embedding self1 texts) as [e vs] eqn:Eb.
      destruct i as [|i]; simpl.
      * intros [= <-] [= <-]. auto.
      * intros Ht Hv. eapply (IH self1); try done.
        -- rewrite <- Hdim. unfold self1.
           by destruct (USE_EMBEDDING_CACHE self).
        -- rewrite <- Huse. unfold self1.
           by destruct (USE_EMBEDDING_CACHE self) eqn:E.
        -- intros k x. unfold self1.
           destruct (USE_EMBEDDING_CACHE self) eqn:Eu; [|apply Hinv].
           unfold cache_hit, store. simpl. rewrite Eu.
           destruct (decide (k = _truncate_text t)) as [->|Hne].
           ++ rewrite lookup_insert_eq. intros [= <-]. auto.
           ++ rewrite lookup_insert_ne by done. intros Hk.
              apply Hinv. unfold cache_hit. by rewrite Eu.
        -- by rewrite Eb.
    + destruct (embed_batch get_embedding self texts) as [e vs] eqn:Eb.
      destruct i as [|i]; simpl.
      * intros [= <-] [= <-]. right; right. rewrite Hdim. eauto.
      * intros Ht Hv. eapply (IH self); try done. by rewrite Eb.
Qed.


End EmbedderFacts.

(** ** Weakness matcher: prompt additions and statistics *)

Section MatcherReports.
Import WeaknessMatcher.

Lemma tally_from {A} (key : A → pystr) (l : list A) (c : pystr) :
  ∀ d : gmap pystr nat,
    default 0%nat
      (foldl (λ d x, <[key x := (default 0%nat (d !! key x) + 1)%nat]> d)
             d l !! c)
    = (default 0%nat (d !! c) + length (filter (λ x, key x = c) l))%nat.
Proof.
  induction l as [|x l IH]; intros d; simpl.
  - lia.
  - rewrite IH, filter_cons. destruct (decide (key x = c)) as [->|Hne].
    + rewrite lookup_insert_eq. simpl. lia.
    + rewrite lookup_insert_ne by done. lia.
Qed.

Lemma tally_lookup {A} (key : A → pystr) (l : list A) (c : pystr) :
  default 0%nat (tally key l !! c) = length (filter (λ x, key x = c) l).
Proof. unfold tally. by rewrite tally_from, lookup_empty. Qed.

Lemma foldl_Qplus_from (a : Q) (l : list Q) :
  foldl Qplus a l == (a + foldl Qplus 0 l)%Q.
Proof.
  revert a. induction l as [|x l IH]; intros a; simpl; [ring|].
  rewrite (IH (a + x)%Q), (IH (0 + x)%Q). ring.
Qed.


Lemma join_contains sep parts x :
  x ∈ parts → str_in x (join sep parts) = true.
Proof.
  intros Hx. apply str_in_spec.
  induction parts as [|p parts IH]; [by apply elem_of_nil in Hx|].
  apply elem_of_cons in Hx as [->|Hx].
  - destruct parts as [|q parts].
    + exists [], []. by rewrite app_nil_r.
    + exists [], (sep ++ join sep (q :: parts)). done.
  - destruct (IH Hx) as (pre & post & Hj).
    destruct parts as [|q parts]; [by apply elem_of_nil in Hx|].
    exists (p ++ sep ++ pre), post.
    change (join sep (p :: q :: parts))
      with (p ++ sep ++ join sep (q :: parts)).
    rewrite Hj. by rewrite <- !app_assoc.
Qed.

(** [get_prompt_additions]: when the matcher (called with its default
    minimum frequency 0.15, not the configured one) finds nothing the
    result is the empty string; otherwise it is the section header
    followed by the prompt additions of the matches, in match order and
    separated by newlines, so it is never empty and holds every
    addition. *)
Theorem get_prompt_additions_section self question entity_type top_k
    matches :
  match_weaknesses self question entity_type top_k 0.15%Q = Ok matches →
  ∃ text,
    get_prompt_additions self question entity_type top_k = Ok text
    ∧ (matches = [] → text = [])
    ∧ (matches ≠ [] →
       text = prompt_header ++ join nl (map m_prompt_addition matches)
       ∧ text ≠ []
       ∧ ∀ m, m ∈ matches → str_in (m_prompt_addition m) text = true).
Proof.
  intros Hm. unfold get_prompt_additions. rewrite Hm.
  change (Ok matches ≫= ?k) with (k matches). cbv beta.
  destruct matches as [|m ms]; cbn [truthy_list negb map].
  - exists []. by repeat split.
  - eexists. split; [reflexivity|]. split; [done|]. intros _.
    split; [done|]. split; [done|].
    intros m' Hin. apply str_in_spec.
    assert (Hj : str_in (m_prompt_addition m')
                        (join nl (map m_prompt_addition (m :: ms))) = true).
    { apply join_contains. by apply list_elem_of_fmap_2. }
    apply str_in_spec in Hj as (pre & post & Hj).
    exists (prompt_header ++ pre), post.
    change (m_prompt_addition m :: map m_prompt_addition ms)
      with (map m_prompt_addition (m :: ms)).
    rewrite Hj. by rewrite <- !app_assoc.
Qed.

Lemma get_prompt_additions_section_witness :
  ∃ text,
    get_prompt_additions sample_matcher sample_question None 2 = Ok text
    ∧ str_in (u "list every symptom") text = true.
Proof.
  eassert (Hm : match_weaknesses sample_matcher sample_question None 2
                                 0.15%Q = Ok _) by (vm_compute; reflexivity).
  destruct (get_prompt_additions_section _ _ _ _ _ Hm)
    as (text & Ht & _ & Hne).
  exists text. split; [exact Ht|].
  destruct Hne as (_ & _ & Hall); [discriminate|].
  apply (Hall (match_of sample_question None sample_W1)).
  vm_compute. apply list_elem_of_here.
Defined.

End MatcherReports.

(** ** Prompt builder *)

Section PromptFacts.
Import PromptBuilder.

Lemma add_reminders_app (a b : pystr) patterns :
  add_reminders (a ++ b) patterns = a ++ add_reminders b patterns.
Proof.
  revert b. induction patterns as [|p ps IH]; intros b; cbn [add_reminders];
    [done|].
  destruct (truthy_list (default [] (prompt_addition p))); [|apply IH].
  by rewrite <- IH, <- !app_assoc.
Qed.

Lemma add_reminders_from (prompt : pystr) patterns :
  add_reminders prompt patterns = prompt ++ add_reminders [] patterns.
Proof. by rewrite <- add_reminders_app, app_nil_r. Qed.

Lemma add_reminders_contains patterns p addition :
  p ∈ patterns → prompt_addition p = Some addition →
  str_in addition (add_reminders [] patterns) = true.
Proof.
  intros Hp Ha. apply str_in_spec.
  induction patterns as [|q qs IH]; [by apply elem_of_nil in Hp|].
  cbn [add_reminders]. apply elem_of_cons in Hp as [<-|Hp].
  - rewrite Ha. cbn [default from_option id].
    destruct addition as [|c addition]; cbn [truthy_list].
    + exists [], (add_reminders [] qs). done.
    + rewrite add_reminders_from, app_nil_l.
      exists nl, (nl ++ add_reminders [] qs). by rewrite <- !app_assoc.
  - destruct (IH Hp) as (pre & post & Hq).
    destruct (truthy_list (default [] (prompt_addition q))).
    + rewrite add_reminders_from, Hq.
      exists (([] ++ nl ++ default [] (prompt_addition q) ++ nl) ++ pre),
             post.
      by rewrite <- !app_assoc.
    + by exists pre, post.
Qed.

(** [build_prompt] only appends: the result begins with the base prompt,
    which is the default prompt when none or an empty one is given, and
    with neither retrieval context nor patterns it is the base prompt
    itself. *)
Theorem build_prompt_keeps_base
    (base_prompt : option pystr) (patterns : option (list WeaknessDict))
    (rag_context : option pystr) :
  (∃ suffix,
     build_prompt base_prompt patterns rag_context
     = base_or_default base_prompt ++ suffix)
  ∧ build_prompt base_prompt None None = base_or_default base_prompt
  ∧ build_prompt base_prompt (Some []) (Some [])
    = base_or_default base_prompt
  ∧ (∀ c text, base_prompt = Some (c :: text) →
               base_or_default base_prompt = c :: text)
  ∧ (base_prompt = None ∨ base_prompt = Some [] →
     base_or_default base_prompt = DEFAULT_BASE_PROMPT).
Proof.
  split; [|split; [done|split; [done|split]]].
  - unfold build_prompt. cbv zeta.
    set (base := base_or_default base_prompt).
    destruct (truthy_str rag_context).
    + destruct patterns as [[|p ps]|]; [by eexists| |by eexists].
      rewrite add_reminders_from, <- !app_assoc. by eexists.
    + destruct patterns as [[|p ps]|];
        [exists []; by rewrite app_nil_r|
        |exists []; by rewrite app_nil_r].
      rewrite add_reminders_from, <- !app_assoc. by eexists.
  - by intros c text ->.
  - by intros [->| ->].
Qed.

Lemma section_title_split :
  section_title = u "## ⚠️ 针对该问题类型的" ++ u "特别提醒" ++ nl.
Proof. vm_compute. reflexivity. Qed.

(** With at least one pattern the prompt holds the reminder section,
    even when no pattern has an addition to print, so [get_prompt_stats]
    reports it; and every addition of a pattern is part of the prompt. *)
Theorem build_prompt_has_weakness_section
    (base_prompt rag_context : option pystr)
    (p : WeaknessDict) (ps : list WeaknessDict) :
  let prompt := build_prompt base_prompt (Some (p :: ps)) rag_context in
  has_weakness_section (get_prompt_stats prompt) = true
  ∧ str_in section_title prompt = true
  ∧ ∀ q addition, q ∈ p :: ps → prompt_addition q = Some addition →
                  str_in addition prompt = true.
Proof.
  cbv zeta. unfold build_prompt. cbv zeta.
  set (prompt0 := if truthy_str rag_context then _ else _).
  rewrite add_reminders_from.
  split; [|split].
  - cbn [get_prompt_stats has_weakness_section]. apply str_in_spec.
    exists (prompt0 ++ nl ++ nl ++ u "## ⚠️ 针对该问题类型的"),
           (nl ++ add_reminders [] (p :: ps)).
    rewrite section_title_split. by rewrite <- !app_assoc.
  - apply str_in_spec.
    exists (prompt0 ++ nl ++ nl), (add_reminders [] (p :: ps)).
    by rewrite <- !app_assoc.
  - intros q addition Hq Ha.
    pose proof (add_reminders_contains _ _ _ Hq Ha) as Hin.
    apply str_in_spec in Hin as (pre & post & ->). apply str_in_spec.
    exists ((prompt0 ++ nl ++ nl ++ section_title) ++ pre), post.
    by rewrite <- !app_assoc.
Qed.

(** The two builders and the section formatter agree: without category
    rules [build_multipart_prompt] is [build_prompt], and the reminder
    part of a prompt is two newlines followed by
    [format_weakness_section], which is empty for no pattern. *)
Theorem prompt_builders_agree
    (base_prompt rag_context : option pystr)
    (patterns : option (list WeaknessDict)) :
  build_multipart_prompt base_prompt None rag_context patterns
  = build_prompt base_prompt patterns rag_context
  ∧ build_multipart_prompt base_prompt (Some []) rag_context patterns
    = build_prompt base_prompt patterns rag_context
  ∧ format_weakness_section [] = []
  ∧ ∀ p ps,
      build_prompt base_prompt (Some (p :: ps)) rag_context
      = build_prompt base_prompt None rag_context
        ++ nl ++ nl ++ format_weakness_section (p :: ps).
Proof.
  split; [done|]. split; [done|]. split; [done|].
  intros p ps. unfold build_prompt, format_weakness_section. cbv zeta.
  cbn [truthy_list negb].
  set (prompt0 := if truthy_str rag_context then _ else _).
  rewrite (add_reminders_from section_title), add_reminders_from.
  by rewrite <- !app_assoc.
Qed.

Lemma split_on_length (sep : pychar) (text : list pychar) :
  length (split_on sep text)
  = S (length (filter (λ c, c = sep) text)).
Proof.
  induction text as [|c text IH]; [done|].
  rewrite filter_cons. cbn [split_on].
  destruct (N.eqb_spec c sep) as [->|Hne].
  - rewrite decide_True by done. cbn [length]. by rewrite IH.
  - rewrite decide_False by done.
    destruct (split_on sep text) as [|piece pieces]; [done|].
    cbn [length] in *. done.
Qed.

(** [get_prompt_stats] counts one line more than there are newline
    characters, so one line for the empty prompt, and estimates the
    tokens as half the length, rounded down. *)
Theorem get_prompt_stats_counts (prompt : list pychar) :
  line_count (get_prompt_stats prompt)
  = S (length (filter (λ c, c = 10%N) prompt))
  ∧ line_count (get_prompt_stats []) = 1%nat
  ∧ total_length (get_prompt_stats prompt) = length prompt
  ∧ (2 * estimated_tokens (get_prompt_stats prompt) <= length prompt
     < 2 * estimated_tokens (get_prompt_stats prompt) + 2)%nat.
Proof.
  split; [apply split_on_length|]. split; [done|]. split; [done|].
  cbn [get_prompt_stats estimated_tokens].
  pose proof (Nat.div_mod_eq (length prompt) 2).
  pose proof (Nat.mod_upper_bound (length prompt) 2). lia.
Qed.

End PromptFacts.

(** ** Decision engine: hot reload *)

Section ReloadFacts.
Import DecisionEngine.

Lemma Qltb_irrefl x : Qltb x x = false.
Proof. apply Qltb_ge, Qle_refl. Qed.

(** What a call that returns leaves behind. *)
Lemma check_for_updates_returns w self self1 b :
  check_for_updates w self = (self1, Ok b) →
  let entity_newer := Qltb (_entity_mtime self) (_get_mtime (entity_file w)) in
  let weakness_newer :=
    Qltb (_weakness_mtime self) (_get_mtime (weakness_file w)) in
  b = entity_newer || weakness_newer
  ∧ _last_reload_check self1 = now w
  ∧ category_keywords self1 = category_keywords self
  ∧ ood_keywords self1 = ood_keywords self
  ∧ (if entity_newer
     then entities_by_category self1 = _load_entities w
          ∧ _build_entity_set (_load_entities w)
            = Ok (all_entities_set self1)
          ∧ _entity_mtime self1 = _get_mtime (entity_file w)
     else entities_by_category self1 = entities_by_category self
          ∧ all_entities_set self1 = all_entities_set self
          ∧ _entity_mtime self1 = _entity_mtime self)
  ∧ (if weakness_newer
     then WeaknessMatcher.__init__ (weakness_file w)
          = Ok (weakness_matcher self1)
          ∧ _weakness_mtime self1 = _get_mtime (weakness_file w)
     else weakness_matcher self1 = weakness_matcher self
          ∧ _weakness_mtime self1 = _weakness_mtime self).
Proof.
  unfold check_for_updates. cbv zeta.
  destruct (Qltb (_entity_mtime self) (_get_mtime (entity_file w))) eqn:Ee.
  - cbn [entities_by_category set_entities].
    destruct (_build_entity_set (_load_entities w)) as [s|] eqn:Eb; [|done].
    cbn [_weakness_mtime set_entity_set set_entities].
    destruct (Qltb (_weakness_mtime self) (_get_mtime (weakness_file w)));
      [destruct (WeaknessMatcher.__init__ (weakness_file w)) eqn:Em;
       [|done]|];
      cbv beta iota; intros [= <- <-]; by repeat split.
  - destruct (Qltb (_weakness_mtime self) (_get_mtime (weakness_file w)));
      [destruct (WeaknessMatcher.__init__ (weakness_file w)) eqn:Em;
       [|done]|];
      cbv beta iota; intros [= <- <-]; by repeat split.
Qed.

Lemma matcher_init_ok f m :
  WeaknessMatcher.__init__ f = Ok m →
  WeaknessMatcher._load_weaknesses f
  = WeaknessMatcher.Table (WeaknessMatcher.weaknesses m).
Proof.
  unfold WeaknessMatcher.__init__.
  destruct (WeaknessMatcher._load_weaknesses f); [|done].
  by intros [= <-].
Qed.

Lemma matcher_init_raises f e :
  WeaknessMatcher.__init__ f = Raise e →
  e = TypeError
  ∧ WeaknessMatcher._load_weaknesses f = WeaknessMatcher.NoLen.
Proof.
  unfold WeaknessMatcher.__init__.
  destruct (WeaknessMatcher._load_weaknesses f); [done|].
  by intros [= <-].
Qed.

(** After [check_for_updates] has returned, a reloaded table is the one
    of the file ([match_weaknesses] then works on it), a file that is
    not newer leaves its data alone, and the call reports a reload
    exactly when a file was newer than at the last load. *)
Theorem check_for_updates_reflects_files w self self1 b :
  check_for_updates w self = (self1, Ok b) →
  (b = true ↔ (_entity_mtime self < _get_mtime (entity_file w))%Q
              ∨ (_weakness_mtime self < _get_mtime (weakness_file w))%Q)
  ∧ ((_weakness_mtime self < _get_mtime (weakness_file w))%Q →
     WeaknessMatcher._load_weaknesses (weakness_file w)
     = WeaknessMatcher.Table
         (WeaknessMatcher.weaknesses (weakness_matcher self1)))
  ∧ ((_get_mtime (weakness_file w) <= _weakness_mtime self)%Q →
     weakness_matcher self1 = weakness_matcher self)
  ∧ ((_entity_mtime self < _get_mtime (entity_file w))%Q →
     entities_by_category self1 = _load_entities w
     ∧ _build_entity_set (_load_entities w) = Ok (all_entities_set self1))
  ∧ ((_get_mtime (entity_file w) <= _entity_mtime self)%Q →
     entities_by_category self1 = entities_by_category self
     ∧ all_entities_set self1 = all_entities_set self).
Proof.
  intros H. apply check_for_updates_returns in H.
  cbv zeta in H. destruct H as (Hb & _ & _ & _ & He & Hw).
  rewrite <- !Qltb_lt, <- !Qltb_ge.
  destruct (Qltb (_entity_mtime self) _), (Qltb (_weakness_mtime self) _);
    simpl in Hb; subst b; destruct He as (? & ? & ?), Hw as (Hw & ?);
    try apply matcher_init_ok in Hw;
    repeat split; try done; try (intros [?|?]; done); try (by left);
    try (by right).
Qed.

Lemma check_for_updates_reflects_files_witness :
  ∃ self1,
    check_for_updates updated_world sample_engine = (self1, Ok true)
    ∧ WeaknessMatcher.weaknesses (weakness_matcher self1) = [sample_W1]
    ∧ all_entities_set self1 = all_entities_set sample_engine.
Proof.
  eassert (H : check_for_updates updated_world sample_engine = (_, Ok true))
    by (vm_compute; reflexivity).
  eexists. split; [exact H|].
  destruct (check_for_updates_reflects_files _ _ _ _ H)
    as (_ & Hw & _ & _ & He).
  split.
  - by vm_compute.
  - apply He. by vm_compute.
Defined.

(** A second check against the same files reloads nothing: it returns
    False and changes only the time of the last check. *)
Theorem check_for_updates_twice w w2 self self1 b :
  check_for_updates w self = (self1, Ok b) →
  entity_file w2 = entity_file w →
  weakness_file w2 = weakness_file w →
  check_for_updates w2 self1 = (set_last_check self1 (now w2), Ok false).
Proof.
  intros H He2 Hw2. apply check_for_updates_returns in H.
  cbv zeta in H. destruct H as (_ & _ & _ & _ & He & Hw).
  assert (Ee : Qltb (_entity_mtime self1) (_get_mtime (entity_file w))
               = false).
  { destruct (Qltb (_entity_mtime self) _) eqn:E.
    - destruct He as (_ & _ & ->). apply Qltb_irrefl.
    - destruct He as (_ & _ & ->). done. }
  assert (Ew : Qltb (_weakness_mtime self1) (_get_mtime (weakness_file w))
               = false).
  { destruct (Qltb (_weakness_mtime self) _) eqn:E.
    - destruct Hw as (_ & ->). apply Qltb_irrefl.
    - destruct Hw as (_ & ->). done. }
  unfold check_for_updates. cbv zeta. rewrite He2, Hw2, Ee, Ew. done.
Qed.

Lemma check_for_updates_twice_witness :
  ∃ self1,
    check_for_updates updated_world sample_engine = (self1, Ok true)
    ∧ check_for_updates updated_world self1
      = (set_last_check self1 (now updated_world), Ok false).
Proof.
  eassert (H : check_for_updates updated_world sample_engine = (_, Ok true))
    by (vm_compute; reflexivity).
  eexists. split; [exact H|].
  exact (check_for_updates_twice _ updated_world _ _ _ H eq_refl eq_refl).
Defined.

(** A check that raises leaves the matcher, the time of the weakness
    file and the time of the last check as they were, and the failure
    sticks: a later check on the same files raises the same exception and
    changes nothing.  The exception comes from rebuilding the entity
    set, with only [entities_by_category] replaced, or it is the
    [TypeError] of the matcher's constructor, raised after the entity
    data were either left alone or replaced as a whole.  When the newer
    entity file holds something other than an object the exception is
    [AttributeError] and [get_stats] raises it as well. *)
Theorem check_for_updates_failure_sticks w self self1 e :
  check_for_updates w self = (self1, Raise e) →
  check_for_updates w self1 = (self1, Raise e)
  ∧ weakness_matcher self1 = weakness_matcher self
  ∧ _weakness_mtime self1 = _weakness_mtime self
  ∧ _last_reload_check self1 = _last_reload_check self
  ∧ (((_entity_mtime self < _get_mtime (entity_file w))%Q
      ∧ _build_entity_set (_load_entities w) = Raise e
      ∧ self1 = set_entities self (_load_entities w))
     ∨ ((_weakness_mtime self < _get_mtime (weakness_file w))%Q
        ∧ WeaknessMatcher.__init__ (weakness_file w) = Raise e
        ∧ e = TypeError
        ∧ (((_get_mtime (entity_file w) <= _entity_mtime self)%Q
            ∧ self1 = self)
           ∨ ((_entity_mtime self < _get_mtime (entity_file w))%Q
              ∧ ∃ s, _build_entity_set (_load_entities w) = Ok s
                  ∧ self1 = set_entity_set
                              (set_entities self (_load_entities w)) s
                              (_get_mtime (entity_file w))))))
  ∧ ((_entity_mtime self < _get_mtime (entity_file w))%Q →
     _load_entities w = EntityOther →
     e = AttributeError
     ∧ self1 = set_entities self EntityOther
     ∧ get_stats self1 = Raise AttributeError).
Proof.
  rewrite <- !Qltb_lt, <- !Qltb_ge.
  unfold check_for_updates at 1. cbv zeta.
  destruct (Qltb (_entity_mtime self) (_get_mtime (entity_file w))) eqn:Ee.
  - cbn [entities_by_category set_entities].
    destruct (_build_entity_set (_load_entities w)) as [s|e1] eqn:Eb.
    + cbn [_weakness_mtime set_entity_set set_entities].
      destruct (Qltb (_weakness_mtime self) (_get_mtime (weakness_file w)))
        eqn:Ew; [|done].
      destruct (WeaknessMatcher.__init__ (weakness_file w)) as [m|e2] eqn:Em;
        [done|].
      intros [= <- <-].
      destruct (matcher_init_raises _ _ Em) as [-> _].
      split.
      { unfold check_for_updates. cbv zeta.
        cbn [_entity_mtime set_entity_set set_entities].
        rewrite Qltb_irrefl.
        cbn [_weakness_mtime set_entity_set set_entities].
        by rewrite Ew, Em. }
      split_and!; try done.
      * right. split_and!; try done. right. split; [done|]. by exists s.
      * intros _ El. rewrite El in Eb. discriminate Eb.
    + intros [= <- <-].
      split.
      { unfold check_for_updates. cbv zeta.
        cbn [_entity_mtime set_entities entities_by_category].
        by rewrite Ee, Eb. }
      split_and!; try done.
      * by left.
      * intros _ El. rewrite El in Eb |- *. by injection Eb as <-.
  - destruct (Qltb (_weakness_mtime self) (_get_mtime (weakness_file w)))
      eqn:Ew; [|done].
    destruct (WeaknessMatcher.__init__ (weakness_file w)) as [m|e2] eqn:Em;
      [done|].
    intros [= <- <-].
    destruct (matcher_init_raises _ _ Em) as [-> _].
    split.
    { unfold check_for_updates. cbv zeta. by rewrite Ee, Ew, Em. }
    split_and!; try done.
    right. split_and!; try done. by left.
Qed.

Lemma check_for_updates_failure_sticks_witness :
  check_for_updates broken_world sample_engine
  = (set_entities sample_engine EntityOther, Raise AttributeError)
  ∧ check_for_updates broken_world (set_entities sample_engine EntityOther)
    = (set_entities sample_engine EntityOther, Raise AttributeError)
  ∧ get_stats (set_entities sample_engine EntityOther)
    = Raise AttributeError.
Proof.
  assert (H : check_for_updates broken_world sample_engine
              = (set_entities sample_engine EntityOther,
                 Raise AttributeError)) by (vm_compute; reflexivity).
  split; [exact H|].
  destruct (check_for_updates_failure_sticks _ _ _ _ H)
    as (H2 & _ & _ & _ & _ & H3).
  split; [exact H2|].
  apply H3; by vm_compute.
Defined.

(** A weakness file whose table is null: the check raises [TypeError]
    with the engine as it was, and [get_stats] goes on returning. *)
Example check_for_updates_null_table :
  check_for_updates null_table_world sample_engine
  = (sample_engine, Raise TypeError)
  ∧ ∃ stats, get_stats sample_engine = Ok stats.
Proof. split; [by vm_compute|]. eexists. by vm_compute. Qed.

End ReloadFacts.

(** ** The HTTP handlers *)

Section ApiFacts.
Import DecisionEngine RouterApi.

(** The decision dict has no key [use_patterns]. *)
Lemma route_response_raises decision :
  route_response decision = Raise (KeyError "use_patterns").
Proof. reflexivity. Qed.

Lemma decision_matches decision :
  decision_getitem decision "weakness_patterns" ≫= iter_matches
  = Ok (weakness_patterns decision).
Proof. reflexivity. Qed.

(** POST /api/v1/route never answers: every request ends in an
    [HTTPException] with status 500.  When the engine has produced its
    decision, the exception is the [KeyError] of reading
    [decision['use_patterns']], a key the decision does not have; the
    engine is left as the routing call left it. *)
Theorem route_question_always_500 settings w g request :
  ∃ g' e,
    route_question settings w g request = (g', HTTPException 500 (str e))
    ∧ ∀ engine engine' decision,
        (get_decision_engine w g).2 = Ok engine →
        get_routing_decision settings w engine
          (rq_question request) (rq_entity_type request)
          (min_confidence_or_default (rq_min_confidence request))
          (ENABLE_HOT_RELOAD settings) = (engine', Ok decision) →
        e = KeyError "use_patterns" ∧ g' = Some engine'.
Proof.
  unfold route_question.
  destruct (get_decision_engine w g) as [g1 [engine|e]].
  - destruct (get_routing_decision settings w engine _ _ _ _)
      as [engine' [decision|e]] eqn:Er.
    + exists (Some engine'), (KeyError "use_patterns").
      split; [done|]. intros ? ? ? [= <-] Hr. rewrite Er in Hr.
      by injection Hr as <- <-.
    + exists (Some engine'), e. split; [done|].
      intros ? ? ? [= <-] Hr. by rewrite Er in Hr.
  - exists g1, e. split; [done|]. by intros ? ? ? [=].
Qed.

(** POST /api/v1/prompt never answers either: the prompt is built and
    then lost to the same [KeyError]. *)
Theorem get_enhanced_prompt_always_500 settings w g request :
  ∃ g' e,
    get_enhanced_prompt settings w g request = (g', HTTPException 500 (str e))
    ∧ ∀ engine engine' decision,
        (get_decision_engine w g).2 = Ok engine →
        get_routing_decision settings w engine
          (pq_question request) (pq_entity_type request) 0.70%Q
          (ENABLE_HOT_RELOAD settings) = (engine', Ok decision) →
        e = KeyError "use_patterns" ∧ g' = Some engine'.
Proof.
  unfold get_enhanced_prompt.
  destruct (get_decision_engine w g) as [g1 [engine|e]].
  - destruct (get_routing_decision settings w engine _ _ _ _)
      as [engine' [decision|e]] eqn:Er.
    + exists (Some engine'), (KeyError "use_patterns").
      split; [done|]. intros ? ? ? [= <-] Hr. rewrite Er in Hr.
      by injection Hr as <- <-.
    + exists (Some engine'), e. split; [done|].
      intros ? ? ? [= <-] Hr. by rewrite Er in Hr.
  - exists g1, e. split; [done|]. by intros ? ? ? [=].
Qed.

Lemma get_stats_counts engine stats :
  get_stats engine = Ok stats →
  total_entities stats = length (all_entities_set engine)
  ∧ s_weakness_patterns stats
    = length (WeaknessMatcher.weaknesses (weakness_matcher engine)).
Proof.
  unfold get_stats, category_size.
  destruct (entities_by_category engine) as [d|]; [|done].
  destruct (assoc_get (u "diseases") _ d); [|done|];
    (destruct (assoc_get (u "examinations") _ d); [|done|]);
    (destruct (assoc_get (u "surgeries") _ d); [|done|]);
    (destruct (assoc_get (u "vaccines") _ d); [|done|]);
    by intros [= <-].
Qed.

Lemma get_stats_last_check engine stats :
  get_stats engine = Ok stats →
  s_last_reload_check stats = _last_reload_check engine.
Proof.
  unfold get_stats, category_size.
  destruct (entities_by_category engine) as [d|]; [|done].
  destruct (assoc_get (u "diseases") _ d); [|done|];
    (destruct (assoc_get (u "examinations") _ d); [|done|]);
    (destruct (assoc_get (u "surgeries") _ d); [|done|]);
    (destruct (assoc_get (u "vaccines") _ d); [|done|]);
    by intros [= <-].
Qed.

Lemma update_all_raises d acc e :
  update_all d acc = Raise e → e = TypeError.
Proof.
  revert acc. induction d as [|[c [names| |n]] d IH]; intros acc; simpl.
  - done.
  - apply IH.
  - by intros [= <-].
  - by intros [= <-].
Qed.

Lemma build_entity_set_raises x e :
  _build_entity_set x = Raise e →
  (e = AttributeError ∧ x = EntityOther) ∨ e = TypeError.
Proof.
  destruct x as [d|]; simpl.
  - destruct (update_all d []) as [s|e1] eqn:Eu; [done|].
    intros [= <-]. right. by eapply update_all_raises.
  - intros [= <-]. by left.
Qed.

(** What a check that raises has not touched, and what it raised. *)
Lemma check_for_updates_raises_frame w self self1 e :
  check_for_updates w self = (self1, Raise e) →
  weakness_matcher self1 = weakness_matcher self
  ∧ _last_reload_check self1 = _last_reload_check self
  ∧ ((e = AttributeError ∧ self1 = set_entities self EntityOther)
     ∨ e = TypeError).
Proof.
  unfold check_for_updates. cbv zeta.
  destruct (Qltb (_entity_mtime self) (_get_mtime (entity_file w))).
  - cbn [entities_by_category set_entities].
    destruct (_build_entity_set (_load_entities w)) as [s|e1] eqn:Eb.
    + cbn [_weakness_mtime set_entity_set set_entities].
      destruct (Qltb (_weakness_mtime self) (_get_mtime (weakness_file w)));
        [|done].
      destruct (WeaknessMatcher.__init__ (weakness_file w)) as [m|e2] eqn:Em;
        [done|].
      intros [= <- <-]. apply matcher_init_raises in Em as [-> _].
      split_and!; try done. by right.
    + intros [= <- <-]. split_and!; try done.
      destruct (build_entity_set_raises _ _ Eb) as [[-> ->] | ->];
        [by left|by right].
  - destruct (Qltb (_weakness_mtime self) (_get_mtime (weakness_file w)));
      [|done].
    destruct (WeaknessMatcher.__init__ (weakness_file w)) as [m|e2] eqn:Em;
      [done|].
    intros [= <- <-]. apply matcher_init_raises in Em as [-> _].
    split_and!; try done. by right.
Qed.

(** POST /api/v1/reload, when it answers, always says that the data was
    reloaded: the message for no updates is never sent.  The engine left
    in the global is the one whose counts are reported; when no file was
    newer it is a new engine, built from the files. *)
Theorem force_reload_always_reloaded w g g' r :
  force_reload w g = (g', Response r) →
  reloaded r = true
  ∧ message r = u "Data reloaded successfully"
  ∧ ∃ engine0 engine,
      (get_decision_engine w g).2 = Ok engine0
      ∧ g' = Some engine
      ∧ entities_loaded r = length (all_entities_set engine)
      ∧ weaknesses_loaded r
        = length (WeaknessMatcher.weaknesses (weakness_matcher engine))
      ∧ ((check_for_updates w engine0).2 = Ok false →
         __init__ w = Ok engine).
Proof.
  unfold force_reload.
  destruct (get_decision_engine w g) as [g1 [engine0|e]]; [|done].
  destruct (check_for_updates w engine0) as [engine1 [[|]|e]] eqn:Ec;
    [| |done].
  - cbn [negb]. cbv beta iota.
    change (Ok engine1 ≫= ?k) with (k engine1). cbv beta.
    destruct (get_stats engine1) as [stats|e] eqn:Es; [|done].
    intros [= <- <-]. apply get_stats_counts in Es as [? ?].
    repeat split. exists engine0, engine1. rewrite Ec.
    by repeat split.
  - cbn [negb]. unfold reload_decision_engine.
    destruct (__init__ w) as [fresh|e]; [|done].
    change (Ok fresh ≫= ?k) with (k fresh). cbv beta iota.
    destruct (get_stats fresh) as [stats|e] eqn:Es; [|done].
    intros [= <- <-]. apply get_stats_counts in Es as [? ?].
    repeat split. exists engine0, fresh. by repeat split.
Qed.

Lemma force_reload_always_reloaded_witness :
  ∃ g' r,
    force_reload sample_world (Some sample_engine) = (g', Response r)
    ∧ reloaded r = true
    ∧ message r = u "Data reloaded successfully".
Proof.
  eassert (H : force_reload sample_world (Some sample_engine)
               = (_, Response _)) by (vm_compute; reflexivity).
  eexists _, _. split; [exact H|].
  destruct (force_reload_always_reloaded _ _ _ _ H) as (H1 & H2 & _).
  by split.
Defined.

(** After a reload that failed with [AttributeError], the entity file
    holding something other than an object, the health check reports
    [unhealthy] with zero counts at every later call, whatever the files
    then hold: it takes the engine from the global, reloads nothing, and
    the statistics of that engine raise.  After a reload that failed
    and left an engine whose statistics return, the exception was a
    [TypeError] and the health check goes on answering [healthy] or
    [degraded], with the size of the table loaded before the failure. *)
Theorem health_check_after_failed_reload w self self1 e settings w2 :
  check_for_updates w self = (self1, Raise e) →
  (e = AttributeError →
   health_check settings w2 (Some self1)
   = (Some self1,
      {| status := u "unhealthy";
         version := u "1.0.0";
         h_entities_loaded := 0;
         h_weaknesses_loaded := 0;
         hot_reload_enabled := false;
         h_last_reload_check := now w2 |}))
  ∧ (∀ stats, get_stats self1 = Ok stats →
       e = TypeError
       ∧ health_check settings w2 (Some self1)
         = (Some self1,
            {| status :=
                 if (length (all_entities_set self1) =? 0)%nat
                    || (length (WeaknessMatcher.weaknesses
                                  (weakness_matcher self)) =? 0)%nat
                 then u "degraded" else u "healthy";
               version := u "1.0.0";
               h_entities_loaded := length (all_entities_set self1);
               h_weaknesses_loaded :=
                 length (WeaknessMatcher.weaknesses (weakness_matcher self));
               hot_reload_enabled := ENABLE_HOT_RELOAD settings;
               h_last_reload_check := _last_reload_check self |})).
Proof.
  intros H.
  destruct (check_for_updates_raises_frame _ _ _ _ H) as (Hm & Hl & He).
  split.
  - intros ->. destruct He as [[_ ->]|?]; [|done].
    unfold health_check. cbn [get_decision_engine].
    change (Ok ?x ≫= ?k) with (k x). cbv beta.
    done.
  - intros stats Hs.
    assert (e = TypeError) as ->.
    { destruct He as [[_ ->]|?]; [|done]. discriminate Hs. }
    split; [done|].
    unfold health_check. cbn [get_decision_engine].
    change (Ok self1 ≫= ?k) with (k self1). cbv beta.
    rewrite Hs. change (Ok stats ≫= ?k) with (k stats). cbv beta.
    destruct (get_stats_counts _ _ Hs) as [-> ->].
    by rewrite (get_stats_last_check _ _ Hs), Hm, Hl.
Qed.

Lemma health_check_after_failed_reload_witness :
  status (health_check default_router_settings sample_world
            (Some (set_entities sample_engine EntityOther))).2
  = u "unhealthy"
  ∧ status (health_check default_router_settings sample_world
              (Some sample_engine)).2
    = u "healthy".
Proof.
  assert (H : check_for_updates broken_world sample_engine
              = (set_entities sample_engine EntityOther,
                 Raise AttributeError)) by (vm_compute; reflexivity).
  assert (H2 : check_for_updates null_table_world sample_engine
               = (sample_engine, Raise TypeError))
    by (vm_compute; reflexivity).
  split.
  - destruct (health_check_after_failed_reload _ _ _ _
                default_router_settings sample_world H) as [Hu _].
    by rewrite (Hu eq_refl).
  - by vm_compute.
Defined.

End ApiFacts.

(** ** Pattern storage: reports, batches and restarts *)

Section StorageReports.
Import PatternStorage.

Lemma deref_all_spec h ls stored :
  deref_all h ls = Ok stored →
  map fst stored = ls ∧ Forall (λ lp, h !! lp.1 = Some lp.2) stored.
Proof.
  revert stored. induction ls as [|l ls IH]; intros stored; simpl.
  - intros [= <-]. by split.
  - unfold deref. destruct (h !! l) as [p|] eqn:El; [|done].
    change (Ok p ≫= ?k) with (k p). cbv beta.
    destruct (deref_all h ls) as [rest|]; [|done].
    intros [= <-]. destruct (IH rest eq_refl) as [IH1 IH2].
    split; [simpl; by rewrite IH1|]. by constructor.
Qed.

Lemma insert_by_frequency_perm x l : insert_by_frequency x l ≡ₚ x :: l.
Proof.
  induction l as [|y l IH]; simpl; [done|].
  destruct (frequency_or_0 x.2 <? frequency_or_0 y.2); [|done].
  rewrite IH. apply perm_swap.
Qed.

Lemma sorted_by_frequency_perm l : sorted_by_frequency l ≡ₚ l.
Proof.
  induction l as [|x l IH]; simpl; [done|].
  by rewrite insert_by_frequency_perm, IH.
Qed.

Definition frequency_ge (a b : loc * Pattern) : Prop :=
  frequency_or_0 b.2 <= frequency_or_0 a.2.

Lemma insert_by_frequency_sorted x l :
  StronglySorted frequency_ge l →
  StronglySorted frequency_ge (insert_by_frequency x l).
Proof.
  induction 1 as [|y l Hl IH Hy]; simpl.
  - repeat constructor.
  - destruct (Z.ltb_spec (frequency_or_0 x.2) (frequency_or_0 y.2)).
    + constructor; [done|].
      rewrite insert_by_frequency_perm. constructor; [|done].
      unfold frequency_ge. lia.
    + constructor; [by constructor|].
      constructor; [unfold frequency_ge; lia|].
      eapply Forall_impl; [exact Hy|].
      unfold frequency_ge. intros z Hz. lia.
Qed.

Lemma sorted_by_frequency_sorted l :
  StronglySorted frequency_ge (sorted_by_frequency l).
Proof.
  induction l as [|x l IH]; simpl; [constructor|].
  by apply insert_by_frequency_sorted.
Qed.

(** [get_top_patterns] with [n >= 0]: the result is the first [n] of the
    stored patterns that have at least the minimum frequency (0 when
    the key is absent) and, when a category is given, exactly that
    category; they are the stored dicts themselves, arranged by
    descending frequency. *)
Theorem get_top_patterns_top_n self h n category min_frequency stored :
  deref_all h (patterns self) = Ok stored →
  0 <= n →
  ∃ sorted,
    get_top_patterns self h n category min_frequency
    = Ok (map fst (take (Z.to_nat n) sorted))
    ∧ sorted ≡ₚ List.filter
                  (λ lp, is_top_candidate category min_frequency lp.2)
                  stored
    ∧ (∀ p, is_top_candidate category min_frequency p = true
            ↔ min_frequency <= default 0 (frequency p)
              ∧ (category = None ∨ PatternStorage.category p = category))
    ∧ StronglySorted frequency_ge sorted
    ∧ Z.of_nat (length (take (Z.to_nat n) sorted)) <= n
    ∧ Forall (λ lp, lp.1 ∈ patterns self ∧ h !! lp.1 = Some lp.2) sorted.
Proof.
  intros Hs Hn.
  exists (sorted_by_frequency
            (List.filter
               (λ lp, is_top_candidate category min_frequency lp.2) stored)).
  split.
  { unfold get_top_patterns. rewrite Hs.
    change (Ok stored ≫= ?k) with (k stored). cbv beta zeta.
    unfold slice_to. by destruct (Z.leb_spec 0 n); [|lia]. }
  split; [apply sorted_by_frequency_perm|].
  split.
  { intros p. unfold is_top_candidate, frequency_or_0.
    rewrite andb_true_iff, Z.leb_le.
    destruct category as [c|].
    - rewrite bool_decide_eq_true. split.
      + intros [? ?]. split; [done|by right].
      + intros [? [?|?]]; done.
    - split; [intros [? _]; split; [done|by left]|by intros [? _]]. }
  split; [apply sorted_by_frequency_sorted|].
  split; [rewrite length_take; lia|].
  destruct (deref_all_spec _ _ _ Hs) as [Hfst Hall].
  rewrite sorted_by_frequency_perm.
  apply Forall_forall. intros lp Hin.
  apply list_elem_of_In, filter_In in Hin as [Hin _].
  apply list_elem_of_In in Hin.
  split.
  - rewrite <- Hfst. by apply list_elem_of_fmap_2.
  - by apply (proj1 (Forall_forall _ _) Hall).
Qed.

Lemma get_top_patterns_top_n_witness :
  ∃ sorted : list (loc * Pattern),
    get_top_patterns sample_store sample_store_heap 2 None 2
    = Ok (map fst (take 2 sorted))
    ∧ length sorted = 3%nat.
Proof.
  eassert (Hs : deref_all sample_store_heap (patterns sample_store) = Ok _)
    by (vm_compute; reflexivity).
  destruct (get_top_patterns_top_n sample_store sample_store_heap 2 None 2
              _ Hs ltac:(lia)) as (sorted & Hrun & Hperm & _).
  exists sorted. split; [exact Hrun|].
  by rewrite Hperm.
Defined.

Lemma descriptions_of_allocated h ps ds :
  descriptions_of h ps = Ok ds → Forall (λ l, is_Some (h !! l)) ps.
Proof.
  revert ds. induction ps as [|l ps IH]; intros ds; simpl; [done|].
  unfold deref. destruct (h !! l) as [p|] eqn:El; [|done].
  change (Ok p ≫= ?k) with (k p). cbv beta.
  destruct (getitem "description" (description p)) as [text|]; [|done].
  change (Ok text ≫= ?k) with (k text). cbv beta.
  destruct (descriptions_of h ps) as [rest|]; [|done].
  intros _. constructor; [by rewrite El|]. by eapply IH.
Qed.

Lemma append_all_spec ps :
  ∀ self h i self' h',
    append_all self h i ps = (self', h') →
    patterns self' = patterns self ++ ps
    ∧ index self' = index self
    ∧ embedder self' = embedder self
    ∧ (∀ l, l ∉ ps → h' !! l = h !! l)
    ∧ (NoDup ps →
       ∀ j l, ps !! j = Some l →
         h' !! l
         = (λ p, set_id p (Z.of_nat (length (patterns self)) + Z.of_nat i
                           + 2 * Z.of_nat j)) <$> h !! l).
Proof.
  induction ps as [|pattern ps IH]; intros self h i self' h'; simpl.
  - intros [= <- <-]. rewrite app_nil_r. by repeat split.
  - intros Hrun. apply IH in Hrun as (Hp & Hi & He & Hframe & Hids).
    cbn [patterns index embedder with_patterns] in *.
    split; [by rewrite Hp, <- app_assoc|].
    split; [done|]. split; [done|]. split.
    + intros l Hl. apply not_elem_of_cons in Hl as [Hne Hl].
      rewrite (Hframe l Hl). by rewrite lookup_alter_ne.
    + intros Hnd. apply NoDup_cons in Hnd as [Hnotin Hnd].
      intros [|j] l; simpl.
      * intros [= <-]. rewrite (Hframe _ Hnotin), lookup_alter_eq.
        destruct (h !! pattern); simpl; [|done]. do 2 f_equal. lia.
      * intros Hj. rewrite (Hids Hnd j l Hj).
        assert (l ≠ pattern).
        { intros ->. apply Hnotin. by eapply list_elem_of_lookup_2. }
        rewrite lookup_alter_ne by done.
        destruct (h !! l); simpl; [|done]. do 2 f_equal.
        rewrite length_app. simpl. lia.
Qed.

(** A batch that goes through appends the new patterns in order, but
    numbers them two apart: the pattern at place [i] of the batch gets
    the id [len + 2 * i], [len] being the number of patterns stored
    before, while its place in the list is [len + i].  Nothing else in
    the heap changes. *)
Theorem add_patterns_batch_ids
    get_embedding o self h disk new_patterns self' h' disk' :
  add_patterns_batch_body get_embedding o self h disk new_patterns
  = (self', h', disk', Ok ()) →
  NoDup new_patterns →
  patterns self' = patterns self ++ new_patterns
  ∧ (∀ i l, new_patterns !! i = Some l →
       patterns self' !! (length (patterns self) + i)%nat = Some l
       ∧ ∃ p, h !! l = Some p
              ∧ h' !! l
                = Some (set_id p (Z.of_nat (length (patterns self))
                                  + 2 * Z.of_nat i)))
  ∧ (∀ l, l ∉ new_patterns → h' !! l = h !! l).
Proof.
  unfold add_patterns_batch_body.
  destruct (descriptions_of h new_patterns) as [ds|] eqn:Ed; [|done].
  apply descriptions_of_allocated in Ed.
  destruct (Embedder.embed_batch get_embedding (embedder self) ds)
    as [e embeddings].
  match goal with
  | |- context [match ?x with Ok _ => _ | Raise _ => _ end = _] =>
      destruct x as [index0|]; [|done]
  end.
  match goal with
  | |- context [match ?x with Ok _ => _ | Raise _ => _ end = _] =>
      destruct x as [i1|]; [|done]
  end.
  destruct (append_all _ h 0 new_patterns) as [self1 h1] eqn:Ea.
  intros [= <- <- _] Hnd.
  apply append_all_spec in Ea as (Hp & _ & _ & Hframe & Hids).
  cbn [patterns with_index with_embedder] in Hp, Hids.
  split; [done|]. split; [|done].
  intros i l Hi. split.
  - rewrite Hp, lookup_app_r by lia.
    by replace (length (patterns self) + i - length (patterns self))%nat
      with i by lia.
  - destruct (proj1 (Forall_forall _ _) Ed l) as [p Hp'].
    { by eapply list_elem_of_lookup_2. }
    exists p. split; [done|].
    rewrite (Hids Hnd i l Hi), Hp'. simpl. do 2 f_equal. lia.
Qed.

Lemma add_patterns_batch_ids_witness :
  patterns sample_store = [0; 1; 2]%nat
  ∧ id <$> sample_store_heap !! 1%nat = Some (Some 2)
  ∧ id <$> sample_store_heap !! 2%nat = Some (Some 4).
Proof.
  eassert (H : add_patterns_batch_body sample_provider WritesSucceed
                 (empty_store None sample_embedder) sample_heap empty_disk
                 [0; 1; 2]%nat
               = (sample_store, sample_store_heap, _, Ok ()))
    by (vm_compute; reflexivity).
  assert (Hnd : NoDup [0; 1; 2]%nat)
    by (apply (bool_decide_unpack _); by vm_compute).
  destruct (add_patterns_batch_ids _ _ _ _ _ _ _ _ _ H Hnd)
    as (Hp & Hids & _).
  split; [exact Hp|].
  destruct (Hids 1%nat 1%nat eq_refl) as (_ & p1 & _ & Hh1).
  destruct (Hids 2%nat 2%nat eq_refl) as (_ & p2 & _ & Hh2).
  split; [exact (f_equal (fmap id) Hh1)|exact (f_equal (fmap id) Hh2)].
Defined.

End StorageReports.

Section StorageRestart.
Import PatternStorage.

(** [get_stats] of the store: the total is the number of stored
    patterns, and each of the three dicts counts, for every name, the
    stored patterns carrying it, a pattern without the key under
    'unknown'; an empty store gives zero and three empty dicts. *)
Theorem storage_get_stats_counts self h stored :
  deref_all h (patterns self) = Ok stored →
  ∃ stats,
    get_stats self h = Ok stats
    ∧ total_patterns stats = length stored
    ∧ (∀ c, default 0%nat (by_category stats !! c)
            = length (filter
                (λ lp, default (u "unknown") (category lp.2) = c) stored))
    ∧ (∀ c, default 0%nat (by_severity stats !! c)
            = length (filter
                (λ lp, default (u "unknown") (severity lp.2) = c) stored))
    ∧ (∀ c, default 0%nat (by_error_type stats !! c)
            = length (filter
                (λ lp, default (u "unknown") (error_type lp.2) = c) stored))
    ∧ (patterns self = [] →
       by_category stats = ∅ ∧ by_severity stats = ∅
       ∧ by_error_type stats = ∅).
Proof.
  intros Hs. destruct (deref_all_spec _ _ _ Hs) as [Hfst _].
  assert (Hlen : length (patterns self) = length stored)
    by (by rewrite <- Hfst, length_map).
  assert (Hcount : ∀ (key : Pattern → pystr) c,
    default 0%nat (tally key (map snd stored) !! c)
    = length (filter (λ lp : loc * Pattern, key lp.2 = c) stored)).
  { intros key c. rewrite tally_lookup.
    clear. induction stored as [|lp stored IH]; [done|].
    simpl. rewrite !filter_cons. simpl.
    destruct (decide (key lp.2 = c)); simpl; by rewrite IH. }
  unfold get_stats. destruct (patterns self) as [|l ls] eqn:Ep.
  - destruct stored; [|done]. cbn [truthy_list negb].
    eexists. split; [reflexivity|]. by repeat split.
  - cbn [truthy_list negb]. rewrite Hs.
    change (Ok stored ≫= ?k) with (k stored). cbv beta zeta.
    eexists. split; [reflexivity|].
    cbn [total_patterns by_category by_severity by_error_type].
    split; [done|]. split; [apply Hcount|]. split; [apply Hcount|].
    split; [apply Hcount|]. done.
Qed.

Lemma storage_get_stats_counts_witness :
  ∃ stats,
    get_stats sample_store sample_store_heap = Ok stats
    ∧ total_patterns stats = 3%nat
    ∧ default 0%nat (by_category stats !! u "general") = 1%nat.
Proof.
  eassert (Hs : deref_all sample_store_heap (patterns sample_store) = Ok _)
    by (vm_compute; reflexivity).
  destruct (storage_get_stats_counts _ _ _ Hs)
    as (stats & Hrun & Htotal & Hcat & _).
  exists stats. split; [exact Hrun|]. split; [exact Htotal|].
  rewrite Hcat. by vm_compute.
Defined.

Lemma alloc_all_spec ps :
  ∀ h h2 ls,
    alloc_all h ps = (h2, ls) →
    h ⊆ h2
    ∧ (λ l, h2 !! l) <$> ls = Some <$> ps
    ∧ Forall (λ l, h !! l = None) ls
    ∧ NoDup ls.
Proof.
  induction ps as [|p ps IH]; intros h h2 ls; simpl.
  - intros [= <- <-]. repeat split; [done|constructor|constructor].
  - destruct (alloc_all (<[fresh (dom h) := p]> h) ps) as [h1 ls1] eqn:Ea.
    intros [= <- <-].
    apply IH in Ea as (Hsub & Hval & Hfresh & Hnd).
    assert (Hl : h !! fresh (dom h) = None).
    { apply not_elem_of_dom. apply is_fresh. }
    assert (Hsub0 : h ⊆ <[fresh (dom h) := p]> h)
      by (by apply insert_subseteq).
    split; [by etrans|].
    split.
    { simpl. f_equal; [|done].
      eapply lookup_weaken; [|exact Hsub]. by rewrite lookup_insert_eq. }
    split.
    { constructor; [done|]. eapply Forall_impl; [exact Hfresh|].
      intros l Hnone. cbv beta in Hnone.
      destruct (h !! l) as [q|] eqn:E; [|done].
      pose proof (lookup_weaken _ _ _ _ E Hsub0) as Hq.
      exact (eq_trans (eq_sym Hq) Hnone). }
    constructor; [|done].
    intros Hin. apply (proj1 (Forall_forall _ _) Hfresh) in Hin.
    cbv beta in Hin.
    pose proof (lookup_insert_eq h (fresh (dom h)) p) as Hq.
    discriminate (eq_trans (eq_sym Hq) Hin).
Qed.

(** A store written in full and started again holds, in new dicts, the
    patterns it held by value and in order, and the same index; the
    dicts of the old heap are not touched. *)
Theorem restart_after_save threshold e self h disk i :
  index self = Some i →
  ∃ self2 h2,
    __init__ threshold e h (_save WritesSucceed self h disk)
    = Some (self2, h2)
    ∧ (λ l, h2 !! l) <$> patterns self2
      = Some <$> omap (λ l, h !! l) (patterns self)
    ∧ index self2 = Some i
    ∧ row_count self2 = row_count self
    ∧ h ⊆ h2
    ∧ Forall (λ l, h !! l = None) (patterns self2)
    ∧ NoDup (patterns self2).
Proof.
  intros Hi. unfold __init__, _load, _save, row_count. rewrite Hi.
  cbn [patterns_file index_file].
  destruct (alloc_all h (omap (λ l, h !! l) (patterns self)))
    as [h2 ls] eqn:Ea.
  apply alloc_all_spec in Ea as (Hsub & Hval & Hfresh & Hnd).
  exists (with_index (with_patterns (empty_store threshold e) ls) i), h2.
  by repeat split.
Qed.

Lemma restart_after_save_witness :
  ∃ self2 h2,
    __init__ None sample_embedder sample_store_heap
      (_save WritesSucceed sample_store sample_store_heap empty_disk)
    = Some (self2, h2)
    ∧ length (patterns self2) = 3%nat
    ∧ row_count self2 = 3%nat.
Proof.
  eassert (Hi : index sample_store = Some _) by (vm_compute; reflexivity).
  destruct (restart_after_save None sample_embedder sample_store
              sample_store_heap empty_disk _ Hi)
    as (self2 & h2 & Hrun & Hval & _ & Hrows & _).
  exists self2, h2. split; [exact Hrun|]. split.
  - apply (f_equal length) in Hval. rewrite !length_fmap in Hval.
    rewrite Hval. by vm_compute.
  - rewrite Hrows. by vm_compute.
Defined.

(** A save that fails is what the next start finds.  When the pattern
    file cannot be opened, both files are as before and the start loads
    what it would have loaded without the save.  When the dump breaks
    off, or the index write leaves a damaged file, the start drops
    everything, the index on disk included.  When the index write fails
    and leaves the index file alone, the start pairs the new pattern list
    with the index written before, so the two need not have the same
    size; when no index was ever written, nothing is loaded. *)
Theorem restart_after_failed_save threshold e self h disk :
  __init__ threshold e h (_save PatternsOpenFails self h disk)
  = __init__ threshold e h disk
  ∧ __init__ threshold e h (_save PatternsDumpFails self h disk)
    = Some (empty_store threshold e, h)
  ∧ (is_Some (index self) →
     __init__ threshold e h (_save (IndexWriteFails true) self h disk)
     = Some (empty_store threshold e, h))
  ∧ (∀ old, index_file disk = Some (Written old) →
       ∃ self2 h2,
         __init__ threshold e h (_save (IndexWriteFails false) self h disk)
         = Some (self2, h2)
         ∧ (λ l, h2 !! l) <$> patterns self2
           = Some <$> omap (λ l, h !! l) (patterns self)
         ∧ index self2 = Some old
         ∧ row_count self2 = faiss.ntotal old)
  ∧ (index_file disk = None →
     ∀ damaged, index self = None ∨ damaged = false →
       __init__ threshold e h (_save (IndexWriteFails damaged) self h disk)
       = Some (empty_store threshold e, h)).
Proof.
  split_and!.
  - done.
  - unfold __init__, _load, _save. cbn [patterns_file index_file].
    by destruct (index_file disk).
  - intros [i Hi]. unfold __init__, _load, _save.
    cbn [patterns_file index_file]. by rewrite Hi.
  - intros old Hold. unfold __init__, _load, _save.
    cbn [patterns_file index_file]. rewrite Hold.
    replace (match index self with
             | Some _ => Some (Written old)
             | None => Some (Written old)
             end) with (Some (Written old)) by (by destruct (index self)).
    destruct (alloc_all h (omap (λ l, h !! l) (patterns self)))
      as [h2 ls] eqn:Ea.
    apply alloc_all_spec in Ea as (_ & Hval & _).
    by exists (with_index (with_patterns (empty_store threshold e) ls)
                          old), h2.
  - intros Hnone damaged Hd. unfold __init__, _load, _save.
    cbn [patterns_file index_file]. rewrite Hnone.
    destruct Hd as [->| ->]; [done|]. by destruct (index self).
Qed.

(** The sample store after an [add_pattern] whose index write failed:
    the next start finds four patterns and three rows. *)
Example restart_after_failed_index_write :
  ∃ self h, sample_restarted = Some (self, h)
    ∧ length (patterns self) = 4%nat ∧ row_count self = 3%nat.
Proof. eexists _, _. split; [vm_compute; reflexivity|]. by vm_compute. Qed.

End StorageRestart.

(** ** Vector store: building the index *)

Section BuildFacts.
Import VectorStore.

Lemma np_array_ok rows x :
  faiss.np_array rows = Ok x →
  x.2 = rows
  ∧ match x.1 with
    | Some cols => rows ≠ [] ∧ Forall (λ v, length v = cols) rows
    | None => rows = []
    end.
Proof.
  unfold faiss.np_array. destruct rows as [|r rows].
  - by intros [= <-].
  - destruct (forallb _ _) eqn:Ef; [|done]. intros [= <-].
    split; [done|]. split; [done|].
    apply Forall_forall. intros v Hv.
    rewrite forallb_forall in Ef.
    apply Nat.eqb_eq, Ef. by apply list_elem_of_In.
Qed.

(** A build that returns has indexed every entity: the index has the
    configured dimension and one row per entity, and metadata and texts
    are those of the entities, in order.  There is at least one entity,
    and every embedding, also the zero vector that stands in for a
    failed one, has the configured dimension. *)
Theorem build_success_aligned get_embedding self entities self' :
  build get_embedding self entities = (self', Ok ()) →
  ∃ i,
    index self' = Some i
    ∧ faiss.d i = dimension self
    ∧ faiss.ntotal i = length entities
    ∧ faiss.xb i
      = (Embedder.embed_batch get_embedding (embedder self)
           (map fst entities)).2
    ∧ Forall (λ v, length v = dimension self) (faiss.xb i)
    ∧ metadata self' = map snd entities
    ∧ texts self' = map fst entities
    ∧ dimension self' = dimension self
    ∧ entities ≠ [].
Proof.
  unfold build.
  pose proof (embed_batch_length get_embedding (embedder self)
                (map fst entities)) as Hlen.
  destruct (Embedder.embed_batch get_embedding (embedder self)
              (map fst entities)) as [e embeddings].
  cbn [snd] in Hlen. rewrite length_map in Hlen.
  destruct (faiss.np_array embeddings) as [x|] eqn:En; [|done].
  apply np_array_ok in En as [Hrows Hshape].
  cbn [dimension with_embedder with_index].
  unfold faiss.add. destruct x as [[cols|] rows]; [|done].
  cbn [fst snd] in *. subst rows. destruct Hshape as [Hne Hcols].
  cbn [faiss.d faiss.new].
  destruct (Nat.eqb_spec cols (dimension self)) as [->|]; [|done].
  intros [= <-]. eexists. split; [reflexivity|].
  cbn [faiss.d faiss.ntotal faiss.xb faiss.new metadata texts dimension
       with_data with_index with_embedder].
  repeat split; try done.
  intros ->. by destruct embeddings.
Qed.

Lemma build_success_aligned_witness :
  ∃ i, index sample_vector_store = Some i ∧ faiss.ntotal i = 1%nat.
Proof.
  assert (H : build sample_provider
                {| embedder := sample_embedder; dimension := 2;
                   index := None; metadata := []; texts := [] |}
                [(u "diabetes", [(u "type", u "diseases")])]
              = (sample_vector_store, Ok ()))
    by (vm_compute; reflexivity).
  destruct (build_success_aligned _ _ _ _ H) as (i & Hi & _ & Hn & _).
  by exists i.
Defined.

(** A build that raises keeps the old metadata and texts.  The index is
    the old one when the embeddings do not form a matrix, and otherwise
    it has already been replaced by an empty index: so it is for an
    empty dictionary of entities, which raises [ValueError], and for
    embeddings of another dimension than the configured one, which
    raise [AssertionError]. *)
Theorem build_failure_keeps_old_data get_embedding self entities self' e :
  build get_embedding self entities = (self', Raise e) →
  metadata self' = metadata self
  ∧ texts self' = texts self
  ∧ (index self' = index self ∧ e = ValueError ∧ entities ≠ []
     ∨ index self' = Some (faiss.new (dimension self))
       ∧ (entities = [] ∧ e = ValueError
          ∨ entities ≠ [] ∧ e = AssertionError)).
Proof.
  unfold build.
  pose proof (embed_batch_length get_embedding (embedder self)
                (map fst entities)) as Hlen.
  destruct (Embedder.embed_batch get_embedding (embedder self)
              (map fst entities)) as [e1 embeddings].
  cbn [snd] in Hlen. rewrite length_map in Hlen.
  destruct (faiss.np_array embeddings) as [x|e2] eqn:En.
  - apply np_array_ok in En as [Hrows Hshape].
    cbn [dimension with_embedder with_index].
    unfold faiss.add. destruct x as [[cols|] rows]; cbn [fst snd] in *.
    + destruct Hshape as [Hne _]. subst rows.
      cbn [faiss.d faiss.new].
      destruct (cols =? dimension self)%nat; [done|].
      intros [= <- <-]. split; [done|]. split; [done|].
      right. split; [done|]. right. split; [|done].
      intros ->. by destruct embeddings.
    + subst. intros [= <- <-]. split; [done|]. split; [done|].
      right. split; [done|]. left. split; [|done].
      by destruct entities.
  - intros [= <- <-]. split; [done|]. split; [done|].
    left. split; [done|].
    unfold faiss.np_array in En. destruct embeddings as [|r rows].
    + done.
    + destruct (forallb _ _); [done|]. injection En as <-.
      split; [done|]. intros ->. done.
Qed.

Lemma build_failure_keeps_old_data_witness :
  ∃ self',
    build sample_provider sample_vector_store [] = (self', Raise ValueError)
    ∧ length (metadata self') = 1%nat
    ∧ index self' = Some (faiss.new 2).
Proof.
  eassert (H : build sample_provider sample_vector_store []
               = (_, Raise ValueError)) by (vm_compute; reflexivity).
  eexists. split; [exact H|].
  destruct (build_failure_keeps_old_data _ _ _ _ _ H) as (Hm & _ & _).
  split; [by rewrite Hm|]. by vm_compute.
Defined.

End BuildFacts.

(** ** The chat completion endpoint *)

Section ChatFacts.
Import DecisionEngine RouterApi.

Lemma py_index_last {A} (l : list A) :
  l ≠ [] → ∃ x, py_index l (-1) = Some x.
Proof.
  intros Hne. unfold py_index.
  destruct (Z.leb_spec 0 (-1)); [lia|].
  assert (0 < length l)%nat by (destruct l; [done|simpl; lia]).
  destruct (Z.leb_spec 0 (Z.of_nat (length l) + -1)); [|lia].
  apply lookup_lt_is_Some. lia.
Qed.

(** Without streaming and with routing left on, the endpoint never
    reaches the LLM: a request without a user message is refused with
    status 400, and every other request ends with status 500, at the
    latest when the log line reads [decision['use_patterns']].  The
    answer the LLM would give plays no part. *)
Theorem chat_completions_routed_never_answers
    {A} (llm : llm_client A) settings w g request :
  truthy_flag (stream request) = false →
  truthy_flag (x_disable_routing request) = false →
  ∃ g' status d,
    chat_completions llm settings w g request
    = (g', HTTPException status d)
    ∧ (user_messages request = [] →
       status = 400 ∧ d = text "No user message found" ∧ g' = g)
    ∧ (user_messages request ≠ [] → status = 500)
    ∧ ∀ llm' : llm_client A,
        chat_completions llm' settings w g request
        = (g', HTTPException status d).
Proof.
  intros Hs Hr. unfold chat_completions. rewrite Hs, Hr.
  destruct (user_messages request) as [|m ms] eqn:Eu.
  - cbn [truthy_list negb]. eexists _, _, _. split; [reflexivity|].
    by repeat split.
  - cbn [truthy_list negb].
    destruct (py_index_last (m :: ms)) as [last_user ->]; [done|].
    destruct (get_decision_engine w g) as [g1 [engine|e]].
    + destruct (get_routing_decision settings w engine _ _ _ _)
        as [engine' [decision|e]].
      * exists (Some engine'), 500, (str (KeyError "use_patterns")).
        by repeat split.
      * exists (Some engine'), 500, (str e). by repeat split.
    + exists g1, 500, (str e). by repeat split.
Qed.

Lemma chat_completions_routed_never_answers_witness :
  chat_completions sample_llm default_router_settings sample_world
    (Some sample_engine) (sample_chat_request false)
  = (Some (set_last_check sample_engine 5),
     HTTPException 500 (str (KeyError "use_patterns"))).
Proof.
  destruct (chat_completions_routed_never_answers sample_llm
              default_router_settings sample_world (Some sample_engine)
              (sample_chat_request false) eq_refl eq_refl)
    as (g' & status & d & Hrun & _).
  rewrite Hrun. revert Hrun. vm_compute. by intros [= <- <- <-].
Defined.

Lemma find_imap {A} (P : A → bool) (l : list A) :
  ∀ f : nat → nat,
    match List.find (λ im : nat * A, P im.2) (imap (λ i x, (f i, x)) l) with
    | Some im =>
      ∃ i, im.1 = f i ∧ l !! i = Some im.2 ∧ List.find P l = Some im.2
    | None => List.find P l = None
    end.
Proof.
  induction l as [|x l IH]; intros f; [done|].
  cbn [imap List.find snd]. destruct (P x) eqn:Ex.
  - exists 0%nat. by repeat split.
  - specialize (IH (f ∘ S)).
    change (imap ((λ i x0, (f i, x0)) ∘ S) l)
      with (imap (λ i x0, ((f ∘ S) i, x0)) l).
    destruct (List.find _ (imap _ l)) as [im|]; [|done].
    destruct IH as (i & H1 & H2 & H3). exists (S i). by repeat split.
Qed.

Lemma enhance_spec request ms :
  enhance request (VMatches ms)
  = Ok ({| role := system;
           content :=
             PromptBuilder.build_prompt
               (content <$> List.find (λ m, bool_decide (role m = system))
                                      (messages request))
               (Some (map PromptBuilder.of_match ms)) None;
           name := None |}
        :: List.filter (λ m, negb (bool_decide (role m = system)))
                       (messages request)).
Proof.
  unfold enhance, system_message_idx.
  pose proof (find_imap (λ m, bool_decide (role m = system))
                (messages request) id) as Hf.
  change (imap (λ i x, (id i, x)) (messages request))
    with (imap pair (messages request)) in Hf.
  destruct (List.find _ (imap pair (messages request))) as [[j m]|].
  - destruct Hf as (i & Hj & Hi & ->). simpl in Hj, Hi. subst j.
    cbn [fmap option_fmap option_map fst].
    unfold py_index. destruct (Z.leb_spec 0 (Z.of_nat i)); [|lia].
    rewrite Nat2Z.id, Hi. done.
  - rewrite Hf. done.
Qed.

(** The streaming path does answer.  With routing on, the stream is
    given the decision; the conversation is rewritten exactly when
    weakness patterns matched and are not switched off, and then it
    opens with one system message, the prompt built from the first
    system message of the request (or the default prompt) and the
    matched patterns, followed by the messages of the request that are
    not system messages, none lost and in their order. *)
Theorem streaming_enhanced_messages
    {A} settings w g request g' req em rd :
  @_handle_streaming_completion A settings w g request
  = (g', Response (StreamingResponse req em rd)) →
  req = request
  ∧ user_messages request ≠ []
  ∧ (truthy_flag (x_disable_routing request) = true →
     em = None ∧ rd = None ∧ g' = g)
  ∧ (truthy_flag (x_disable_routing request) = false →
     ∃ d, rd = Some d
       ∧ match em with
         | None =>
           truthy_flag (x_disable_weaknesses request) = true
           ∨ weakness_patterns d = []
         | Some ms =>
           truthy_flag (x_disable_weaknesses request) = false
           ∧ weakness_patterns d ≠ []
           ∧ ms = {| role := system;
                     content :=
                       PromptBuilder.build_prompt
                         (content <$>
                            List.find (λ m, bool_decide (role m = system))
                                      (messages request))
                         (Some (map PromptBuilder.of_match
                                    (weakness_patterns d))) None;
                     name := None |}
                  :: List.filter
                       (λ m, negb (bool_decide (role m = system)))
                       (messages request)
         end).
Proof.
  unfold _handle_streaming_completion.
  destruct (user_messages request) as [|m0 ms0] eqn:Eu; [done|].
  cbn [truthy_list negb].
  destruct (py_index (m0 :: ms0) (-1)) as [last_user|]; [|done].
  destruct (truthy_flag (x_disable_routing request)) eqn:Er; cbn [negb].
  - intros [= <- <- <- <-]. by repeat split.
  - destruct (get_decision_engine w g) as [g1 [engine|e]]; [|done].
    destruct (get_routing_decision settings w engine _ _ _ _)
      as [engine' [decision|e]]; [|done].
    change (Ok decision ≫= ?k) with (k decision). cbv beta.
    unfold enhanced_messages_for.
    destruct (truthy_flag (x_disable_weaknesses request)) eqn:Ew;
      cbn [negb].
    + intros [= <- <- <- <-]. repeat split; try done.
      intros _. exists decision. split; [done|]. by left.
    + change (decision_getitem decision "weakness_patterns")
        with (Ok (VMatches (weakness_patterns decision))).
      change (Ok (VMatches (weakness_patterns decision)) ≫= ?k)
        with (k (VMatches (weakness_patterns decision))). cbv beta.
      cbn [truthy].
      destruct (weakness_patterns decision) as [|p ps] eqn:Ep;
        cbn [truthy_list].
      * intros [= <- <- <- <-]. repeat split; try done.
        intros _. exists decision. split; [done|]. by right.
      * rewrite enhance_spec.
        intros [= <- <- <- <-]. repeat split; try done.
        intros _. exists decision. split; [done|].
        rewrite Ep. by repeat split.
Qed.

Lemma streaming_enhanced_messages_witness :
  ∃ g' ms d,
    @_handle_streaming_completion pystr default_router_settings sample_world
      (Some sample_engine) (sample_chat_request true)
    = (g', Response (StreamingResponse (sample_chat_request true)
                                       (Some ms) (Some d)))
    ∧ length ms = 2%nat.
Proof.
  eassert (H : @_handle_streaming_completion pystr default_router_settings
                 sample_world (Some sample_engine) (sample_chat_request true)
               = (_, Response (StreamingResponse _ (Some _) (Some _))))
    by (vm_compute; reflexivity).
  eexists _, _, _. split; [exact H|].
  destruct (streaming_enhanced_messages _ _ _ _ _ _ _ _ H)
    as (_ & _ & _ & Hon).
  destruct (Hon eq_refl) as (d & [= <-] & _ & _ & ->).
  reflexivity.
Defined.

End ChatFacts.
